(** * elephant/rep.py: the binned spike train class [binned_st]

    A shallow embedding of the binning engine of [elephant/rep.py]:
    the parameter resolver ([calc_tstart], [calc_tstop], [calc_num_bins],
    [calc_binsize], [__check_init_params]), the consistency validator
    ([__check_consistency]), the bin assigner ([__convert_to_binned]), the
    matrix views ([matrix_clipped], [matrix_unclipped]), the edge properties
    and the operators [__add__] and [__sub__].

    Conventions of the embedding.

    - The module is Python 2 code: it calls [xrange] (in [transactions]) and
      [itertools.izip] (in [__sub__]) and its doctests use the [print]
      statement.  [class binned_st:] names no base class, so in Python 2 it is
      a classic class; attribute assignment on a classic instance stores in
      the instance dictionary and never consults a [property] of the class.
      The object model fragment below keeps both resolution rules side by
      side ([Classic] and [NewStyle]).
    - Magnitudes of quantities are exact rationals ([Q]): the embedding
      follows the control flow and the formulas of the source, not the
      rounding of IEEE doubles.  Where the source divides by a zero
      magnitude the outcome is spelled out (an exception where [int] is
      applied to the quotient at once, [NotModelled] where an infinity would
      be stored).  The two places where the source truncates a quotient of
      doubles ([calc_num_bins] and [__convert_to_binned]) are given a second
      time over binary64 numbers ([calc_num_bins_f64], [bin_index_f64]),
      for the statements that the rounding of the quotient decides.
    - A time unit is identified with its length in seconds. *)

From Stdlib Require Import ZArith QArith Qround List Sorted Bool Lia Lqa.
From Stdlib Require Import Permutation.
From Stdlib Require Floats.
Import ListNotations.

Local Open Scope Z_scope.

(** ** Outcomes of a call *)

(** The exceptions the embedded code raises, one constructor per [raise]
    statement (named after the exception class and the message) and per
    library exception that the embedded fragment can meet. *)
Inductive exn : Type :=
| ValueError_no_arguments          (* __check_init_params *)
| ValueError_t_stop_smaller        (* calc_num_bins, calc_binsize *)
| AttributeError_too_less          (* __check_consistency, parameter count *)
| ValueError_start_not_smaller     (* __check_consistency, 1st test *)
| ValueError_t_start               (* __check_consistency, 2nd test *)
| ValueError_inconsistent          (* __check_consistency, 3rd test *)
| ValueError_too_large             (* __check_consistency, 4th test *)
| TypeError_not_integer            (* __check_consistency, 5th test *)
| ValueError_t_stop                (* __check_consistency, 6th test *)
| ValueError_smaller_than_1        (* __check_consistency, 7th test *)
| ValueError_empty_sequence        (* max([]) , min([]) *)
| OverflowError_int_inf            (* int(inf) *)
| ValueError_int_nan               (* int(nan) *)
| TypeError_NoneType               (* arithmetic on None *)
| TypeError_unhashable             (* set() over a list of arrays *)
| IndexError_inconsistent_size     (* matrix_clipped, matrix_unclipped *)
| IndexError_list_index            (* filled[0] on an empty list *)
| ValueError_t_stop_before_t_start (* neo.SpikeTrain, t_stop < t_start *)
| ValueError_negative_dimensions   (* np.zeros with a negative extent *)
| ValueError_dimensions.           (* np.hstack over arrays of different rank *)

Inductive outcome (A : Type) : Type :=
| Return (a : A)
| Raise (e : exn)
| OutOfFuel          (* the call depth granted to the run is used up *)
| NotModelled.       (* behaviour of a library call the embedding does not follow *)

Arguments Return {A} a.
Arguments Raise {A} e.
Arguments OutOfFuel {A}.
Arguments NotModelled {A}.

Definition bind {A B} (m : outcome A) (k : A -> outcome B) : outcome B :=
  match m with
  | Return a => k a
  | Raise e => Raise e
  | OutOfFuel => OutOfFuel
  | NotModelled => NotModelled
  end.

Notation "x <- m ;; k" := (bind m (fun x => k))
  (at level 61, m at next level, right associativity).

(** ** Numbers *)

(** [int(x)] on a float: truncation toward zero. *)
Definition py_int (q : Q) : Z := Z.quot (Qnum q) (Zpos (Qden q)).

Definition Qlt_bool (x y : Q) : bool := negb (Qle_bool y x).

(** [int(a / b)]: the quotient truncated toward zero; a zero divisor gives
    [inf] or [nan], on which [int] raises.  The quotient is taken exactly
    here; [calc_num_bins_f64] below takes it over doubles. *)
Definition int_of_quotient (a b : Q) : outcome Z :=
  if Qeq_bool b 0
  then (if Qeq_bool a 0 then Raise ValueError_int_nan
        else Raise OverflowError_int_inf)
  else Return (py_int (a / b)).

(** ** Quantities *)

Inductive Unit : Type := us | ms | s | minute.

(** Length of a unit in seconds. *)
Definition to_s (u : Unit) : Q :=
  match u with
  | us => 1 # 1000000
  | ms => 1 # 1000
  | s => 1
  | minute => 60
  end.

Record Quantity : Type := mkQ { magnitude : Q; units : Unit }.

(** [q.rescale(u)] *)
Definition unit_eqb (u v : Unit) : bool :=
  match u, v with
  | us, us | ms, ms | s, s | minute, minute => true
  | _, _ => false
  end.

Definition rescale (q : Quantity) (u : Unit) : Quantity :=
  if unit_eqb (units q) u then q
  else mkQ (to_s (units q) / to_s u * magnitude q) u.

(** [a - b], [a + b]: the right operand is rescaled to the units of the left
    one. *)
Definition q_sub (a b : Quantity) : Quantity :=
  mkQ (magnitude a - magnitude (rescale b (units a))) (units a).

Definition q_add (a b : Quantity) : Quantity :=
  mkQ (magnitude a + magnitude (rescale b (units a))) (units a).

(** [n * q] and [q / n] with [n] a plain number *)
Definition q_scale (n : Q) (q : Quantity) : Quantity :=
  mkQ (n * magnitude q) (units q).

Definition q_div_num (q : Quantity) (n : Q) : Quantity :=
  mkQ (magnitude q / n) (units q).

(** Comparisons rescale the right operand to the units of the left one. *)
Definition q_lt (a b : Quantity) : bool :=
  Qlt_bool (magnitude a) (magnitude (rescale b (units a))).

Definition q_le (a b : Quantity) : bool :=
  Qle_bool (magnitude a) (magnitude (rescale b (units a))).

Definition q_gt (a b : Quantity) : bool :=
  Qlt_bool (magnitude (rescale b (units a))) (magnitude a).

Definition q_ge (a b : Quantity) : bool :=
  Qle_bool (magnitude (rescale b (units a))) (magnitude a).

(** Truth value of a quantity: its magnitude is not zero. *)
Definition q_truthy (q : Quantity) : bool := negb (Qeq_bool (magnitude q) 0).

(** The time a quantity denotes, in seconds. *)
Definition seconds (q : Quantity) : Q := magnitude q * to_s (units q).

(** ** The collaborators: spike trains, index arrays, matrices *)

(** A [neo.SpikeTrain]: the spike times (magnitudes in [st_units]) and the
    interval on which the train is defined. *)
Record SpikeTrain : Type := mkST {
  times : list Q;
  st_units : Unit;
  st_t_start : Quantity;
  st_t_stop : Quantity
}.

(** What [filled] and its elements can hold: an integer array, or a Python
    list of such values (the latter arises in [__add__] only). *)
#[local] Set Warnings "-register-all".
Inductive pyval : Type :=
| Arr (l : list Z)
| PyList (l : list pyval).

(** [len(v)] *)
Definition py_len (v : pyval) : nat :=
  match v with
  | Arr l => length l
  | PyList l => length l
  end.

Definition matrix : Type := list (list Z).

(** [max(l)] and [min(l)]: the first greatest (smallest) element; an empty
    argument raises. *)
Fixpoint py_max_from (m : Quantity) (l : list Quantity) : Quantity :=
  match l with
  | [] => m
  | x :: l' => py_max_from (if q_gt x m then x else m) l'
  end.

Definition py_max (l : list Quantity) : outcome Quantity :=
  match l with
  | [] => Raise ValueError_empty_sequence
  | x :: l' => Return (py_max_from x l')
  end.

Fixpoint py_min_from (m : Quantity) (l : list Quantity) : Quantity :=
  match l with
  | [] => m
  | x :: l' => py_min_from (if q_lt x m then x else m) l'
  end.

Definition py_min (l : list Quantity) : outcome Quantity :=
  match l with
  | [] => Raise ValueError_empty_sequence
  | x :: l' => Return (py_min_from x l')
  end.

(** ** Module-level functions of the parameter resolver *)

(** [calc_tstart]: [None] unless all three arguments are given. *)
Definition calc_tstart (num_bins : option Z) (binsize t_stop : option Quantity)
  : option Quantity :=
  match num_bins, binsize, t_stop with
  | Some n, Some b, Some te =>
      Some (q_sub (rescale te (units b)) (q_scale (inject_Z n) b))
  | _, _, _ => None
  end.

(** [calc_tstop] *)
Definition calc_tstop (num_bins : option Z) (binsize t_start : option Quantity)
  : option Quantity :=
  match num_bins, binsize, t_start with
  | Some n, Some b, Some ts =>
      Some (q_add (rescale ts (units b)) (q_scale (inject_Z n) b))
  | _, _, _ => None
  end.

(** [calc_num_bins] *)
Definition calc_num_bins (binsize t_start t_stop : option Quantity)
  : outcome (option Z) :=
  match binsize, t_start, t_stop with
  | Some b, Some ts, Some te =>
      if q_lt te ts then Raise ValueError_t_stop_smaller
      else
        n <- int_of_quotient (magnitude (rescale (q_sub te ts) (units b)))
                             (magnitude b) ;;
        Return (Some n)
  | _, _, _ => Return None
  end.

(** [calc_binsize]; with [num_bins = 0] the quotient is an infinity or a
    nan, which the embedding does not follow. *)
Definition calc_binsize (num_bins : option Z) (t_start t_stop : option Quantity)
  : outcome (option Quantity) :=
  match num_bins, t_start, t_stop with
  | Some n, Some ts, Some te =>
      if q_lt te ts then Raise ValueError_t_stop_smaller
      else if n =? 0 then NotModelled
      else Return (Some (q_div_num (q_sub te ts) (inject_Z n)))
  | _, _, _ => Return None
  end.

(** [set_start_stop_from_input] on a list of spike trains *)
Definition set_start_stop_from_input (spiketrains : list SpikeTrain)
  : outcome (Quantity * Quantity) :=
  start <- py_max (map st_t_start spiketrains) ;;
  stop <- py_min (map st_t_stop spiketrains) ;;
  Return (start, stop).

(** ** The class [binned_st] *)

(** The attributes [__init__] sets before it touches [filled], plus
    [matrix_col], which only [create_class] sets.  [None] stands for the
    Python value [None] (for [matrix_col]: attribute not set). *)
Record attrs : Type := mkAttrs {
  lst_input : list SpikeTrain;
  t_start : option Quantity;
  t_stop : option Quantity;
  num_bins : option Z;
  binsize : option Quantity;
  matrix_columns : option Z;
  matrix_rows : Z;
  store_mat_c : bool;
  store_mat_u : bool;
  mat_c : option matrix;
  mat_u : option matrix;
  matrix_col : option Z
}.

(** An instance whose dictionary holds [filled]. *)
Record binned_st : Type := mkBinned {
  self_attrs :> attrs;
  filled : list pyval
}.

Definition set_t_start (a : attrs) (v : option Quantity) : attrs :=
  mkAttrs (lst_input a) v (t_stop a) (num_bins a) (binsize a)
          (matrix_columns a) (matrix_rows a) (store_mat_c a) (store_mat_u a)
          (mat_c a) (mat_u a) (matrix_col a).

Definition set_t_stop (a : attrs) (v : option Quantity) : attrs :=
  mkAttrs (lst_input a) (t_start a) v (num_bins a) (binsize a)
          (matrix_columns a) (matrix_rows a) (store_mat_c a) (store_mat_u a)
          (mat_c a) (mat_u a) (matrix_col a).

Definition set_num_bins (a : attrs) (v : option Z) : attrs :=
  mkAttrs (lst_input a) (t_start a) (t_stop a) v (binsize a)
          (matrix_columns a) (matrix_rows a) (store_mat_c a) (store_mat_u a)
          (mat_c a) (mat_u a) (matrix_col a).

Definition set_binsize (a : attrs) (v : option Quantity) : attrs :=
  mkAttrs (lst_input a) (t_start a) (t_stop a) (num_bins a) v
          (matrix_columns a) (matrix_rows a) (store_mat_c a) (store_mat_u a)
          (mat_c a) (mat_u a) (matrix_col a).

Definition set_matrix_columns (a : attrs) (v : option Z) : attrs :=
  mkAttrs (lst_input a) (t_start a) (t_stop a) (num_bins a) (binsize a)
          v (matrix_rows a) (store_mat_c a) (store_mat_u a)
          (mat_c a) (mat_u a) (matrix_col a).

Definition set_matrix_rows (a : attrs) (v : Z) : attrs :=
  mkAttrs (lst_input a) (t_start a) (t_stop a) (num_bins a) (binsize a)
          (matrix_columns a) v (store_mat_c a) (store_mat_u a)
          (mat_c a) (mat_u a) (matrix_col a).

Definition set_store_mat_c (a : attrs) (v : bool) : attrs :=
  mkAttrs (lst_input a) (t_start a) (t_stop a) (num_bins a) (binsize a)
          (matrix_columns a) (matrix_rows a) v (store_mat_u a)
          (mat_c a) (mat_u a) (matrix_col a).

Definition set_store_mat_u (a : attrs) (v : bool) : attrs :=
  mkAttrs (lst_input a) (t_start a) (t_stop a) (num_bins a) (binsize a)
          (matrix_columns a) (matrix_rows a) (store_mat_c a) v
          (mat_c a) (mat_u a) (matrix_col a).

Definition set_mat_c (a : attrs) (v : option matrix) : attrs :=
  mkAttrs (lst_input a) (t_start a) (t_stop a) (num_bins a) (binsize a)
          (matrix_columns a) (matrix_rows a) (store_mat_c a) (store_mat_u a)
          v (mat_u a) (matrix_col a).

Definition set_mat_u (a : attrs) (v : option matrix) : attrs :=
  mkAttrs (lst_input a) (t_start a) (t_stop a) (num_bins a) (binsize a)
          (matrix_columns a) (matrix_rows a) (store_mat_c a) (store_mat_u a)
          (mat_c a) v (matrix_col a).

Definition set_matrix_col (a : attrs) (v : option Z) : attrs :=
  mkAttrs (lst_input a) (t_start a) (t_stop a) (num_bins a) (binsize a)
          (matrix_columns a) (matrix_rows a) (store_mat_c a) (store_mat_u a)
          (mat_c a) (mat_u a) v.

(** *** Attribute access to [filled]

    [filled] is declared as a property whose getter is [return self.filled]
    and whose setter is [self.filled = f].  How [self.filled] and
    [self.filled = f] resolve depends on the kind of class. *)
Inductive class_kind : Type :=
| Classic     (* Python 2, [class C:] *)
| NewStyle.   (* a class deriving from [object] *)

(** The kind of [binned_st] in the source. *)
Definition binned_st_kind : class_kind := Classic.

(** [self.filled = f].  On a classic instance the value goes into the
    instance dictionary.  Under the new-style rules the property of the
    class takes the assignment and runs the setter, whose body is the same
    assignment again; each such call costs one unit of [fuel]. *)
Fixpoint setattr_filled (k : class_kind) (fuel : nat) (a : attrs)
                        (f : list pyval) : outcome binned_st :=
  match k with
  | Classic => Return (mkBinned a f)
  | NewStyle =>
      match fuel with
      | O => OutOfFuel
      | S fuel' => setattr_filled k fuel' a f
      end
  end.

(** [self.filled], with [d] the entry of the instance dictionary, if any.
    A classic instance answers from its dictionary and falls back to the
    class, where the property runs the getter, whose body is the same read
    again.  Under the new-style rules the property takes precedence over
    the dictionary. *)
Fixpoint getattr_filled (k : class_kind) (fuel : nat) (d : option (list pyval))
  : outcome (list pyval) :=
  match k, d with
  | Classic, Some f => Return f
  | _, _ =>
      match fuel with
      | O => OutOfFuel
      | S fuel' => getattr_filled k fuel' d
      end
  end.

(** *** Parameter bookkeeping *)

Definition truthy_q (o : option Quantity) : bool :=
  match o with
  | Some q => q_truthy q
  | None => false
  end.

Definition truthy_z (o : option Z) : bool :=
  match o with
  | Some n => negb (n =? 0)
  | None => false
  end.

(** [__count_params]: the tests are truth tests, so a zero counts like
    [None]. *)
Definition count_params (a : attrs) : bool :=
  let param_count :=
    (if truthy_q (t_start a) then 1 else 0)
    + (if truthy_q (t_stop a) then 1 else 0)
    + (if truthy_q (binsize a) then 1 else 0)
    + (if truthy_z (num_bins a) then 1 else 0) in
  if param_count <? 3 then false else true.

(** [__calc_start_stop]; both assignments are guarded by
    [self.t_stop is None]. *)
Definition calc_start_stop (a : attrs) (spiketrains : list SpikeTrain)
  : outcome attrs :=
  if count_params a then Return a
  else
    a1 <- match t_stop a with
          | None =>
              se <- set_start_stop_from_input spiketrains ;;
              Return (set_t_start a (Some (fst se)))
          | Some _ => Return a
          end ;;
    match t_stop a1 with
    | None =>
        se <- set_start_stop_from_input spiketrains ;;
        Return (set_t_stop a1 (Some (snd se)))
    | Some _ => Return a1
    end.

Definition is_none {A} (o : option A) : bool :=
  match o with
  | None => true
  | Some _ => false
  end.

(** [__check_init_params]; [num_bins] is an [int] by its type here, so the
    [TypeError] of the source cannot arise. *)
Definition check_init_params (a : attrs) (binsize_ : option Quantity)
    (num_bins_ : option Z) (t_start_ t_stop_ : option Quantity)
  : outcome attrs :=
  if is_none binsize_ && is_none t_start_ && is_none t_stop_
     && is_none num_bins_
  then Raise ValueError_no_arguments
  else
    match t_start_ with
    | None => Return (set_t_start a (calc_tstart num_bins_ binsize_ t_stop_))
    | Some _ =>
      match t_stop_ with
      | None => Return (set_t_stop a (calc_tstop num_bins_ binsize_ t_start_))
      | Some _ =>
        match num_bins_ with
        | None =>
            n <- calc_num_bins binsize_ t_start_ t_stop_ ;;
            let a1 := set_num_bins a n in
            Return (if is_none (matrix_columns a1)
                    then set_matrix_columns a1 (num_bins a1)
                    else a1)
        | Some _ =>
          match binsize_ with
          | None =>
              b <- calc_binsize num_bins_ t_start_ t_stop_ ;;
              Return (set_binsize a b)
          | Some _ => Return a
          end
        end
      end
    end.

(** [x < 1] for an attribute that may be [None]; Python 2 orders [None]
    below every number. *)
Definition lt_1 (o : option Z) : bool :=
  match o with
  | None => true
  | Some n => n <? 1
  end.

(** [__check_consistency].  The comparisons of the source between a
    quantity and [None] are not followed; [__init__] never gets there (see
    [check_init_params_all_set]). *)
Definition check_consistency (a : attrs) (spiketrains : list SpikeTrain)
    (binsize_ : option Quantity) (num_bins_ : option Z)
    (t_start_ t_stop_ : option Quantity) : outcome unit :=
  if negb (count_params a) then Raise AttributeError_too_less
  else
    max_tstart <- py_max (map st_t_start spiketrains) ;;
    min_tstop <- py_min (map st_t_stop spiketrains) ;;
    if q_ge max_tstart min_tstop then Raise ValueError_start_not_smaller
    else
      match t_start_, t_stop_, binsize_, num_bins_ with
      | Some ts, Some te, Some b, Some n =>
          if q_lt ts max_tstart || q_gt ts min_tstop
          then Raise ValueError_t_start
          else
            n' <- int_of_quotient (magnitude (rescale (q_sub te ts) (units b)))
                                  (magnitude b) ;;
            if negb (n =? n') then Raise ValueError_inconsistent
            else if negb (q_lt ts te && q_le te min_tstop)
            then Raise ValueError_too_large
            else if negb (n - py_int (inject_Z n) =? 0) || (n <? 0)
            then Raise TypeError_not_integer
            else if q_gt te min_tstop || q_lt te max_tstart
            then Raise ValueError_t_stop
            else if lt_1 (matrix_columns a) || lt_1 (num_bins a)
            then Raise ValueError_smaller_than_1
            else Return tt
      | _, _, _, _ => NotModelled
      end.

(** [__convert_to_binned]: one index array per spike train, keeping the
    indices below [num_bins].  The index of a timestamp is the truncated
    quotient [np.array(((t - t_start).rescale(binsize.units) / binsize)
    .magnitude, dtype=int)], taken exactly here; [bin_index_f64] below
    takes it over doubles. *)
Definition bin_index (t_start_ binsize_ : Quantity) (u : Unit) (t : Q) : Z :=
  py_int (magnitude (rescale (q_sub (mkQ t u) t_start_) (units binsize_))
          / magnitude binsize_).

Definition bin_indices (t_start_ binsize_ : Quantity) (elem : SpikeTrain)
  : list Z :=
  map (bin_index t_start_ binsize_ (st_units elem)) (times elem).

(** [idx_filled[idx_filled < self.num_bins]] *)
Definition kept_indices (num_bins_ : Z) (idx_filled : list Z) : list Z :=
  filter (fun i => i <? num_bins_) idx_filled.

Definition binned_row (t_start_ binsize_ : Quantity) (num_bins_ : Z)
    (elem : SpikeTrain) : pyval :=
  Arr (kept_indices num_bins_ (bin_indices t_start_ binsize_ elem)).

Fixpoint convert_loop (t_start_ binsize_ : Quantity) (num_bins_ : Z)
    (spiketrains : list SpikeTrain) (filled_ : list pyval) : list pyval :=
  match spiketrains with
  | [] => filled_
  | elem :: rest =>
      convert_loop t_start_ binsize_ num_bins_ rest
                   (filled_ ++ [binned_row t_start_ binsize_ num_bins_ elem])
  end.

Definition convert_to_binned (self : binned_st) (spiketrains : list SpikeTrain)
  : outcome binned_st :=
  match t_start self, binsize self, num_bins self with
  | Some ts, Some b, Some n =>
      if Qeq_bool (magnitude b) 0 then NotModelled
      else Return (mkBinned self (convert_loop ts b n spiketrains (filled self)))
  | _, _, _ => NotModelled
  end.

(** The assignments at the head of [__init__]. *)
Definition init_attrs (spiketrains : list SpikeTrain)
    (binsize_ : option Quantity) (num_bins_ : option Z)
    (t_start_ t_stop_ : option Quantity) (store_mat : bool) : attrs :=
  mkAttrs spiketrains t_start_ t_stop_ num_bins_ binsize_ num_bins_
          (Z.of_nat (length spiketrains)) store_mat store_mat None None None.

(** [__init__] on a list of spike trains. *)
Definition init (k : class_kind) (fuel : nat) (spiketrains : list SpikeTrain)
    (binsize_ : option Quantity) (num_bins_ : option Z)
    (t_start_ t_stop_ : option Quantity) (store_mat : bool)
  : outcome binned_st :=
  let a0 := init_attrs spiketrains binsize_ num_bins_ t_start_ t_stop_
                       store_mat in
  a1 <- calc_start_stop a0 spiketrains ;;
  a2 <- check_init_params a1 binsize_ num_bins_ (t_start a1) (t_stop a1) ;;
  _ <- check_consistency a2 spiketrains (binsize a2) (num_bins a2)
                         (t_start a2) (t_stop a2) ;;
  self <- setattr_filled k fuel a2 [] ;;
  convert_to_binned self spiketrains.

(** The constructor as the source runs it. *)
Definition binned_st_new := init binned_st_kind 0.

(** *** Edges *)

(** [np.arange(0, n)] *)
Definition arange (n : Z) : list Z := map Z.of_nat (seq 0 (Z.to_nat n)).

(** [y[-1] = v] *)
Fixpoint set_last {A} (l : list A) (v : A) : list A :=
  match l with
  | [] => []
  | [_] => [v]
  | x :: l' => x :: set_last l' v
  end.

(** [np.linspace(start, stop, num, endpoint)] over quantities: [num] evenly
    spaced samples [i * step + start]; with the end point included the last
    sample is overwritten by [stop]. *)
Definition linspace (start stop : Quantity) (num : Z) (endpoint : bool)
  : list Quantity :=
  if num <=? 0 then []
  else if endpoint then
    if num =? 1 then [start]
    else
      let step := q_div_num (q_sub stop start) (inject_Z (num - 1)) in
      set_last (map (fun i => q_add (q_scale (inject_Z i) step) start)
                    (arange num))
               stop
  else
    let step := q_div_num (q_sub stop start) (inject_Z num) in
    map (fun i => q_add (q_scale (inject_Z i) step) start) (arange num).

(** The property [edges] *)
Definition edges (self : attrs) : outcome (list Quantity) :=
  match t_start self, t_stop self, num_bins self with
  | Some ts, Some te, Some n => Return (linspace ts te (n + 1) true)
  | _, _, _ => Raise TypeError_NoneType
  end.

(** The property [left_edges] *)
Definition left_edges (self : attrs) : outcome (list Quantity) :=
  match t_start self, t_stop self, num_bins self with
  | Some ts, Some te, Some n => Return (linspace ts te n false)
  | _, _, _ => Raise TypeError_NoneType
  end.

(** The property [right_edges] *)
Definition right_edges (self : attrs) : outcome (list Quantity) :=
  l <- left_edges self ;;
  match binsize self with
  | Some b => Return (map (fun e => q_add e b) l)
  | None => Raise TypeError_NoneType
  end.

(** The property [center_edges] *)
Definition center_edges (self : attrs) : outcome (list Quantity) :=
  l <- left_edges self ;;
  match binsize self with
  | Some b => Return (map (fun e => q_add e (q_div_num b 2)) l)
  | None => Raise TypeError_NoneType
  end.

(** *** Matrices *)

(** [np.zeros((rows, cols))] *)
Definition np_zeros (rows : Z) (cols : option Z) : outcome matrix :=
  match cols with
  | None => Raise TypeError_NoneType
  | Some c =>
      if (rows <? 0) || (c <? 0) then Raise ValueError_negative_dimensions
      else Return (repeat (repeat 0 (Z.to_nat c)) (Z.to_nat rows))
  end.

(** A numpy index into an axis of length [n]: negative indices count from
    the end, anything outside [-n, n) is an [IndexError]. *)
Definition norm_index (n : nat) (i : Z) : option nat :=
  if (0 <=? i) && (i <? Z.of_nat n) then Some (Z.to_nat i)
  else if (- Z.of_nat n <=? i) && (i <? 0) then Some (Z.to_nat (i + Z.of_nat n))
  else None.

Fixpoint norm_indices (n : nat) (l : list Z) : option (list nat) :=
  match l with
  | [] => Some []
  | i :: l' =>
      match norm_index n i, norm_indices n l' with
      | Some j, Some js => Some (j :: js)
      | _, _ => None
      end
  end.

Fixpoint update_nth {A} (n : nat) (f : A -> A) (l : list A) : list A :=
  match l, n with
  | [], _ => []
  | x :: l', O => f x :: l'
  | x :: l', S n' => x :: update_nth n' f l'
  end.

(** [m[r, elem] = 1] with [elem] an index array *)
Definition assign_ones (m : matrix) (r : nat) (elem : pyval) : outcome matrix :=
  match elem with
  | Arr l =>
      match nth_error m r with
      | None => Raise IndexError_inconsistent_size
      | Some row =>
          match norm_indices (length row) l with
          | None => Raise IndexError_inconsistent_size
          | Some js =>
              Return (update_nth r
                        (fun row => fold_left
                                      (fun acc j => update_nth j (fun _ => 1) acc)
                                      js row)
                        m)
          end
      end
  | PyList _ => NotModelled
  end.

(** [m[r, i] += 1] *)
Definition incr_cell (m : matrix) (r : nat) (i : Z) : outcome matrix :=
  match nth_error m r with
  | None => Raise IndexError_inconsistent_size
  | Some row =>
      match norm_index (length row) i with
      | None => Raise IndexError_inconsistent_size
      | Some j => Return (update_nth r (update_nth j (fun c => c + 1)) m)
      end
  end.

(** [for inner_elem in elem: m[r, inner_elem] += 1] *)
Fixpoint incr_cells (m : matrix) (r : nat) (l : list Z) : outcome matrix :=
  match l with
  | [] => Return m
  | i :: l' => m' <- incr_cell m r i ;; incr_cells m' r l'
  end.

(** The loop of the on-demand branch of [matrix_clipped]. *)
Fixpoint clipped_loop (m : matrix) (elem_idx : nat) (filled_ : list pyval)
  : outcome matrix :=
  match filled_ with
  | [] => Return m
  | elem :: rest =>
      m' <- (if negb (py_len elem =? 0)%nat then assign_ones m elem_idx elem
             else Return m) ;;
      clipped_loop m' (S elem_idx) rest
  end.

(** [matrix_clipped]; [store_mat] is the keyword argument when
    given.  The result is the returned value ([None] when the function
    ends without [return]) and the instance afterwards.  In the storing
    branch the [return] sits inside the [for] loop. *)
Definition matrix_clipped (self : binned_st) (store_mat : option bool)
  : outcome (option matrix * binned_st) :=
  let self :=
    match store_mat with
    | Some b => mkBinned (set_store_mat_c self b) (filled self)
    | None => self
    end in
  match mat_c self with
  | Some m => Return (Some m, self)
  | None =>
      if store_mat_c self then
        z <- np_zeros (matrix_rows self) (matrix_columns self) ;;
        match filled self with
        | [] => Return (None, mkBinned (set_mat_c self (Some z)) (filled self))
        | elem :: _ =>
            m <- (if negb (py_len elem =? 0)%nat then assign_ones z 0 elem
                  else Return z) ;;
            Return (Some m, mkBinned (set_mat_c self (Some m)) (filled self))
        end
      else
        z <- np_zeros (matrix_rows self) (matrix_columns self) ;;
        m <- clipped_loop z 0 (filled self) ;;
        Return (Some m, self)
  end.

(** The loop of the storing branch of [matrix_unclipped]. *)
Fixpoint unclipped_loop_stored (m : matrix) (elem_idx : nat)
    (filled_ : list pyval) : outcome matrix :=
  match filled_ with
  | [] => Return m
  | elem :: rest =>
      m' <- (if negb (py_len elem =? 0)%nat then
               match elem with
               | Arr l =>
                   if (1 <=? length l)%nat then incr_cells m elem_idx l
                   else Return m
               | PyList _ => NotModelled
               end
             else Return m) ;;
      unclipped_loop_stored m' (S elem_idx) rest
  end.

(** The loop of the on-demand branch of [matrix_unclipped]. *)
Fixpoint unclipped_loop_demand (m : matrix) (elem_idx : nat)
    (filled_ : list pyval) : outcome matrix :=
  match filled_ with
  | [] => Return m
  | elem :: rest =>
      m' <- (if negb (py_len elem =? 0)%nat then
               match elem with
               | Arr l =>
                   if (1 <? length l)%nat then incr_cells m elem_idx l
                   else match l with
                        | i :: _ => incr_cell m elem_idx i
                        | [] => Raise IndexError_list_index
                        end
               | PyList _ => NotModelled
               end
             else Return m) ;;
      unclipped_loop_demand m' (S elem_idx) rest
  end.

(** [matrix_unclipped], likewise; here the [return] follows the loop. *)
Definition matrix_unclipped (self : binned_st) (store_mat : option bool)
  : outcome (option matrix * binned_st) :=
  let self :=
    match store_mat with
    | Some b => mkBinned (set_store_mat_u self b) (filled self)
    | None => self
    end in
  match mat_u self with
  | Some m => Return (Some m, self)
  | None =>
      if store_mat_u self then
        z <- np_zeros (matrix_rows self) (matrix_columns self) ;;
        m <- unclipped_loop_stored z 0 (filled self) ;;
        Return (Some m, mkBinned (set_mat_u self (Some m)) (filled self))
      else
        z <- np_zeros (matrix_rows self) (matrix_columns self) ;;
        m <- unclipped_loop_demand z 0 (filled self) ;;
        Return (Some m, self)
  end.

(** *** Operators *)

(** [neo.SpikeTrain(times, t_start=start, t_stop=stop)] with [times] a
    quantity array in the unit [u]: start and stop are expressed in [u].
    The constructor of neo raises a [ValueError] when the stop lies before
    the start; what it does with times outside [[start, stop]] is not
    followed. *)
Definition neo_SpikeTrain (ts : list Q) (u : Unit) (start stop : Quantity)
  : outcome SpikeTrain :=
  let start' := rescale start u in
  let stop' := rescale stop u in
  if Qlt_bool (magnitude stop') (magnitude start')
  then Raise ValueError_t_stop_before_t_start
  else if forallb (fun t => Qle_bool (magnitude start') t
                            && Qle_bool t (magnitude stop')) ts
  then Return (mkST ts u start' stop')
  else NotModelled.

(** [create_class]: a dummy empty spike train, [neo.SpikeTrain([] * pq.s,
    t_stop=stop)] with the default start of neo, 0 s, is run through the
    constructor, then [filled] is emptied and the row count set;
    [mat_col] lands in an attribute of its own, [matrix_col]. *)
Definition create_class (start stop binsize_ : option Quantity) (mat_row : Z)
    (mat_col : option Z) : outcome binned_st :=
  match stop with
  | None => NotModelled
  | Some te =>
      spk <- neo_SpikeTrain [] s (mkQ 0 s) te ;;
      new_class <- binned_st_new [spk] binsize_ None start stop false ;;
      Return (mkBinned
                (set_matrix_col (set_matrix_rows new_class mat_row) mat_col)
                [])
  end.

(** [np.hstack((a, b))] for two lists of at most one index array each,
    read back as a list of rows. *)
Definition np_hstack (a b : list pyval) : outcome (list pyval) :=
  match a, b with
  | [], [] => Return []
  | [Arr x], [Arr y] => Return [Arr (x ++ y)]
  | [_], [] | [], [_] => Raise ValueError_dimensions
  | _, _ => NotModelled
  end.

(** [__add__] *)
Definition add (self other : binned_st) : outcome binned_st :=
  new_class <- create_class (t_start self) (t_stop self) (binsize self)
                            (matrix_rows self) (matrix_columns self) ;;
  if (1 <? length (filled self))%nat || (1 <? length (filled other))%nat
  then Return (mkBinned new_class
                        [PyList (filled self); PyList (filled other)])
  else
    f <- np_hstack (filled self) (filled other) ;;
    Return (mkBinned new_class f).

(** Sorted insertion without repetition, and [np.unique]. *)
Fixpoint insert_unique (x : Z) (l : list Z) : list Z :=
  match l with
  | [] => [x]
  | y :: l' =>
      if x <? y then x :: l
      else if x =? y then l
      else y :: insert_unique x l'
  end.

Definition np_unique (l : list Z) : list Z := fold_right insert_unique [] l.

Definition mem (x : Z) (l : list Z) : bool := existsb (Z.eqb x) l.

(** [np.setxor1d(a, b)]: the sorted, unique values that are in only one of
    the two arrays. *)
Definition np_setxor1d (a b : list Z) : list Z :=
  np_unique (filter (fun x => negb (mem x b)) a
             ++ filter (fun x => negb (mem x a)) b).

(** [list(set(a) ^ set(b))]: Python leaves the order of a set open; the
    embedding lists the elements in ascending order. *)
Definition set_xor (a b : list Z) : list Z := np_setxor1d a b.

(** The loop over [izip(self.filled, other.filled)] of [__sub__]. *)
Fixpoint sub_loop (fs fo : list pyval) (acc : list pyval)
  : outcome (list pyval) :=
  match fs, fo with
  | sv :: fs', ov :: fo' =>
      match sv, ov with
      | Arr a, Arr b => sub_loop fs' fo' (acc ++ [Arr (set_xor a b)])
      | _, _ => Raise TypeError_unhashable
      end
  | _, _ => Return acc
  end.

(** [__sub__].  (The source also stores the new instance in
    [self.new_class]; no other code reads that attribute.) *)
Definition sub (self other : binned_st) : outcome binned_st :=
  new_class <- create_class (t_start self) (t_stop self) (binsize self)
                            (matrix_rows self) (matrix_columns self) ;;
  let new_class :=
    mkBinned (set_matrix_rows
                (set_matrix_columns new_class (matrix_columns self))
                (matrix_rows self))
             (filled new_class) in
  if (1 <? length (filled self))%nat || (1 <? length (filled other))%nat
  then
    f <- sub_loop (filled self) (filled other) (filled new_class) ;;
    Return (mkBinned new_class f)
  else
    match filled self, filled other with
    | Arr a :: _, Arr b :: _ =>
        let x := np_setxor1d a b in
        if (length x =? 0)%nat
        then Return (mkBinned new_class
                              (filled new_class ++ [Arr (repeat 0 (length a))]))
        else Return (mkBinned new_class (filled new_class ++ [Arr x]))
    | [], _ | _ :: _, [] => Raise IndexError_list_index
    | _, _ => NotModelled
    end.

(** ** The two truncated quotients over binary64

    The source computes with numpy doubles.  The rational embedding above
    follows its formulas; here the two quotients that the source truncates
    are written over binary64 numbers, with the operations of IEEE 754
    rounding to nearest. *)






(** ** Data of the doctests *)

Definition train_a : SpikeTrain :=
  mkST [1 # 2; 7 # 10; 12 # 10; 31 # 10; 43 # 10; 55 # 10; 67 # 10]
       s (mkQ 0 s) (mkQ 10 s).

Definition train_b : SpikeTrain :=
  mkST [1 # 10; 7 # 10; 12 # 10; 22 # 10; 43 # 10; 55 # 10; 8 # 1]
       s (mkQ 0 s) (mkQ 10 s).

(** [binned_st(trains, binsize=pq.s, t_start=0 * pq.s, t_stop=10. * pq.s)] *)
Definition binned_0_10 (trains : list SpikeTrain) (store_mat : bool)
  : outcome binned_st :=
  binned_st_new trains (Some (mkQ 1 s)) None (Some (mkQ 0 s))
                (Some (mkQ 10 s)) store_mat.

(** ** The validation order in the words of the specification

    The seven conditions in their order, over times in seconds, with the
    error each one stands for; [round] is the rounding of the quotient in
    the third condition.  The specification says [floor] ([Qfloor]). *)
Definition first_violated (round : Q -> Z)
    (max_tstart min_tstop start stop bin_width : Quantity) (bin_count : Z)
  : option exn :=
  if negb (Qlt_bool (seconds max_tstart) (seconds min_tstop))
  then Some ValueError_start_not_smaller
  else if negb (Qle_bool (seconds max_tstart) (seconds start)
                && Qle_bool (seconds start) (seconds min_tstop))
  then Some ValueError_t_start
  else if negb (bin_count
                =? round ((seconds stop - seconds start) / seconds bin_width)%Q)
  then Some ValueError_inconsistent
  else if negb (Qlt_bool (seconds start) (seconds stop)
                && Qle_bool (seconds stop) (seconds min_tstop))
  then Some ValueError_too_large
  else if negb (0 <=? bin_count)
  then Some TypeError_not_integer
  else if negb (Qle_bool (seconds stop) (seconds min_tstop)
                && Qle_bool (seconds max_tstart) (seconds stop))
  then Some ValueError_t_stop
  else if negb (1 <=? bin_count)
  then Some ValueError_smaller_than_1
  else None.

(** ** Vocabulary of the statements *)

(** A value of [filled] with one index array per row, as the constructor
    leaves it. *)
Definition is_arr (v : pyval) : bool :=
  match v with
  | Arr _ => true
  | PyList _ => false
  end.

Definition flat (f : list pyval) : bool := forallb is_arr f.

(** [x] lies in exactly one of the two index sequences. *)
Definition in_one_only (a b : list Z) (x : Z) : Prop :=
  (In x a /\ ~ In x b) \/ (In x b /\ ~ In x a).

(** The instances of the doctests of [__add__] and [__sub__], as the
    constructor returns them (see [doctest_x_built], [doctest_y_built]). *)
Definition doctest_attrs : attrs :=
  mkAttrs [train_a] (Some (mkQ 0 s)) (Some (mkQ 10 s)) (Some 10)
          (Some (mkQ 1 s)) (Some 10) 1 false false None None None.

Definition doctest_x : binned_st :=
  mkBinned doctest_attrs [Arr [0; 0; 1; 3; 4; 5; 6]].

Definition doctest_y : binned_st :=
  mkBinned (mkAttrs [train_b] (Some (mkQ 0 s)) (Some (mkQ 10 s)) (Some 10)
                    (Some (mkQ 1 s)) (Some 10) 1 false false None None None)
           [Arr [0; 0; 1; 2; 4; 5; 8]].

(** The first five seconds of [train_a] in five bins. *)
Definition doctest_x5 : binned_st :=
  mkBinned (mkAttrs [train_a] (Some (mkQ 0 s)) (Some (mkQ 5 s)) (Some 5)
                    (Some (mkQ 1 s)) (Some 5) 1 false false None None None)
           [Arr [0; 0; 1; 3; 4]].

(** What [create_class] returns inside [doctest_x + ...] and
    [doctest_x - ...]: the instance built around the dummy train. *)
Definition doctest_new_class : binned_st :=
  mkBinned (mkAttrs [mkST [] s (mkQ 0 s) (mkQ 10 s)] (Some (mkQ 0 s))
                    (Some (mkQ 10 s)) (Some 10) (Some (mkQ 1 s)) (Some 10) 1
                    false false None None (Some 10))
           [].

(** The value a call returns, without the instance. *)
Definition returned {A B} (o : outcome (A * B)) : outcome A :=
  x <- o ;; Return (fst x).

(** ** Further methods of [binned_st] *)

(** [[np.unique(elems) for elems in self.filled]] *)
Fixpoint unique_rows (f : list pyval) : outcome (list pyval) :=
  match f with
  | [] => Return []
  | Arr a :: f' =>
      rest <- unique_rows f' ;;
      Return (Arr (np_unique a) :: rest)
  | PyList _ :: _ => NotModelled
  end.

(** [prune]: with more than one row each row is replaced by its sorted
    distinct values; otherwise [filled] becomes the one-element list
    [[np.unique(np.asarray(self.filled))]], which for an empty [filled] is
    one empty row. *)
Definition prune (self : binned_st) : outcome binned_st :=
  if (1 <? length (filled self))%nat then
    rows <- unique_rows (filled self) ;;
    Return (mkBinned self rows)
  else
    match filled self with
    | [] => Return (mkBinned self [Arr []])
    | [Arr a] => Return (mkBinned self [Arr (np_unique a)])
    | _ => NotModelled
    end.

(** The four assignments that close [__iadd__] and [__isub__]. *)
Definition set_missing_parameter (new_self self : binned_st) : binned_st :=
  mkBinned
    (set_num_bins
       (set_t_stop
          (set_t_start (set_binsize new_self (binsize self)) (t_start self))
          (t_stop self))
       (num_bins self))
    (filled new_self).

(** [__iadd__] *)
Definition iadd (self other : binned_st) : outcome binned_st :=
  new_self <- add self other ;;
  Return (set_missing_parameter new_self self).

(** [__isub__] *)
Definition isub (self other : binned_st) : outcome binned_st :=
  new_self <- sub self other ;;
  Return (set_missing_parameter new_self self).

(** ** [gdf] *)

(** The loop that finds the smallest unit: [st.units < time_unit] compares
    the two unit quantities. *)
Fixpoint smallest_unit (time_unit : Unit) (sts : list SpikeTrain) : Unit :=
  match sts with
  | [] => time_unit
  | st :: rest =>
      smallest_unit (if q_lt (mkQ 1 (st_units st)) (mkQ 1 time_unit)
                     then st_units st else time_unit)
                    rest
  end.

(** [range(n)] *)
Definition py_range (n : nat) : list Z := map Z.of_nat (seq 0 n).

(** The rows [(id, time)] stacked by the loop over [zip(ids, sts)], times
    in [time_unit]. *)
Definition gdf_rows (time_unit : Unit) (ids : list Z) (sts : list SpikeTrain)
  : list (Z * Q) :=
  flat_map (fun p : Z * SpikeTrain =>
              map (fun t => (fst p,
                             magnitude (rescale (mkQ t (st_units (snd p)))
                                                time_unit)))
                  (times (snd p)))
           (combine ids sts).

(** [gdf[np.argsort(gdf[:, 1])]]: the rows in increasing order of the
    time.  numpy leaves the order of rows with equal times open; the
    embedding keeps them in their order of arrival. *)
Fixpoint insert_by_time (r : Z * Q) (l : list (Z * Q)) : list (Z * Q) :=
  match l with
  | [] => [r]
  | r' :: l' =>
      if Qle_bool (snd r) (snd r') then r :: l
      else r' :: insert_by_time r l'
  end.

Definition sort_by_time (l : list (Z * Q)) : list (Z * Q) :=
  fold_right insert_by_time [] l.

(** [gdf(neo_spiketrains, ids)] *)
Definition gdf (neo_spiketrains : list SpikeTrain) (ids : list Z)
  : outcome (list (Z * Q) * Unit) :=
  match neo_spiketrains with
  | [] => Raise IndexError_list_index
  | st0 :: rest =>
      let time_unit := smallest_unit (st_units st0) rest in
      let ids := if (length ids =? 0)%nat
                 then py_range (length neo_spiketrains) else ids in
      Return (sort_by_time (gdf_rows time_unit ids neo_spiketrains),
              time_unit)
  end.

(** ** [transactions] *)

(** The errors of [transactions]: its own two and those of the calls it
    makes. *)
Inductive transactions_exn : Type :=
| ValueError_larger_t_start
| ValueError_smaller_t_stop
| Raised (e : exn).

Inductive result (A : Type) : Type :=
| Ok (a : A)
| Error (e : transactions_exn)
| Unfollowed.

Arguments Ok {A} a.
Arguments Error {A} e.
Arguments Unfollowed {A}.

Definition of_outcome {A} (o : outcome A) : result A :=
  match o with
  | Return a => Ok a
  | Raise e => Error (Raised e)
  | OutOfFuel | NotModelled => Unfollowed
  end.

Definition result_bind {A B} (m : result A) (k : A -> result B) : result B :=
  match m with
  | Ok a => k a
  | Error e => Error e
  | Unfollowed => Unfollowed
  end.

(** The two forms of the argument [spiketrains]: pairs
    [(Train_ID, SpikeTrain)] or spike trains. *)
Inductive transactions_input : Type :=
| Pairs (l : list (Z * SpikeTrain))
| Trains (l : list SpikeTrain).

(** [[train_id for train_id, b in zip(ids, binned.filled) if bin_id in b]] *)
Fixpoint transaction (bin_id : Z) (ids : list Z) (filled_ : list pyval)
  : result (list Z) :=
  match ids, filled_ with
  | train_id :: ids', b :: filled' =>
      match b with
      | Arr l =>
          result_bind (transaction bin_id ids' filled')
            (fun rest => Ok (if mem bin_id l then train_id :: rest else rest))
      | PyList _ => Unfollowed
      end
  | _, _ => Ok []
  end.

Fixpoint transaction_list (bin_ids : list Z) (ids : list Z)
    (filled_ : list pyval) : result (list (list Z)) :=
  match bin_ids with
  | [] => Ok []
  | bin_id :: rest =>
      result_bind (transaction bin_id ids filled_)
        (fun t => result_bind (transaction_list rest ids filled_)
                    (fun ts => Ok (t :: ts)))
  end.

Section Transactions.

(** [elephant.conditions] is not part of the sources at hand; its two
    functions are parameters. *)
Variable signals_same_tstart : list SpikeTrain -> result Quantity.
Variable signals_same_tstop : list SpikeTrain -> result Quantity.

(** [transactions(spiketrains, binsize, t_start, t_stop, ids)] *)
Definition transactions (spiketrains : transactions_input)
    (binsize_ : Quantity) (t_start_ t_stop_ : option Quantity)
    (ids : list Z) : result (list (list Z)) :=
  let ids_trains :=
    match spiketrains with
    | Pairs l => (map fst l, map snd l)
    | Trains l =>
        (if (length ids =? 0)%nat then py_range (length l) else ids, l)
    end in
  let ids := fst ids_trains in
  let trains := snd ids_trains in
  result_bind (of_outcome (py_max (map st_t_start trains))) (fun max_tstart =>
  result_bind (of_outcome (py_min (map st_t_start trains))) (fun min_tstart =>
  result_bind (of_outcome (py_max (map st_t_stop trains))) (fun max_tstop =>
  result_bind (of_outcome (py_min (map st_t_stop trains))) (fun min_tstop =>
  result_bind
    match t_start_ with
    | None => signals_same_tstart trains
    | Some ts =>
        if q_lt ts max_tstart then Error ValueError_larger_t_start
        else Ok ts
    end (fun start =>
  result_bind
    match t_stop_ with
    | None => signals_same_tstop trains
    | Some te =>
        if q_gt te min_tstop then Error ValueError_smaller_t_stop
        else Ok te
    end (fun stop =>
  result_bind
    (of_outcome (binned_st_new trains (Some binsize_) None (Some start)
                               (Some stop) false)) (fun binned =>
  match num_bins binned with
  | Some n => transaction_list (arange n) ids (filled binned)
  | None => Unfollowed
  end))))))).

End Transactions.

(** ** Vocabulary of the further statements *)

(** How often the column [c] occurs in a row of indices. *)
Definition count_row (row : list Z) (c : Z) : Z :=
  Z.of_nat (count_occ Z.eq_dec row c).

(** The matrix of the counts, and of the occupancy, of [n] columns. *)
Definition counts_matrix (rows : list (list Z)) (n : Z) : matrix :=
  map (fun row => map (count_row row) (arange n)) rows.

Definition occupancy_matrix (rows : list (list Z)) (n : Z) : matrix :=
  map (fun row => map (fun c => if mem c row then 1 else 0) (arange n)) rows.

(** All indices of all rows lie in [[0, n)]. *)
Definition in_columns (rows : list (list Z)) (n : Z) : Prop :=
  forall row i, In row rows -> In i row -> 0 <= i < n.

(** The dummy spike train of [create_class] and the instance it returns
    when the constructor accepts the dummy. *)
Definition dummy_train (stop : Quantity) : SpikeTrain :=
  mkST [] s (mkQ 0 s) (rescale stop s).

Definition new_class_of (start stop binsize_ : Quantity) (n : Z)
    (mat_row : Z) (mat_col : option Z) : binned_st :=
  mkBinned (mkAttrs [dummy_train stop] (Some start) (Some stop) (Some n)
                    (Some binsize_) (Some n) mat_row false false None None
                    mat_col)
           [].

(** A train on [-5 s, 5 s] with one spike, binned in ten bins of 1 s from
    its start. *)
Definition negative_start_instance : binned_st :=
  mkBinned (mkAttrs [mkST [1 # 2] s (mkQ (-5) s) (mkQ 5 s)]
                    (Some (mkQ (-5) s)) (Some (mkQ 5 s)) (Some 10)
                    (Some (mkQ 1 s)) (Some 10) 1 false false None None None)
           [Arr [5]].

(** A train on [-5 s, -1 s] with one spike, binned in four bins of 1 s
    from its start. *)
Definition negative_window_instance : binned_st :=
  mkBinned (mkAttrs [mkST [(-9) # 2] s (mkQ (-5) s) (mkQ (-1) s)]
                    (Some (mkQ (-5) s)) (Some (mkQ (-1) s)) (Some 4)
                    (Some (mkQ 1 s)) (Some 4) 1 false false None None None)
           [Arr [0]].

(** [train_a] binned from 3 s to 10 s in seven bins of 1 s. *)
Definition start_inside_instance : binned_st :=
  mkBinned (mkAttrs [train_a] (Some (mkQ 3 s)) (Some (mkQ 10 s)) (Some 7)
                    (Some (mkQ 1 s)) (Some 7) 1 false false None None None)
           [Arr [-2; -2; -1; 0; 1; 2; 3]].

(** A matrix of [rows] rows of [cols] cells. *)
Definition has_shape (m : matrix) (rows cols : nat) : Prop :=
  length m = rows /\ Forall (fun row => length row = cols) m.

(** A numpy index that an axis of length [n] does not have. *)
Definition outside_axis (n : Z) (i : Z) : Prop := n <= i \/ i < - n.

(** [train_a] binned from 8 s to 10 s in two bins of 1 s. *)
Definition late_start_instance : binned_st :=
  mkBinned (mkAttrs [train_a] (Some (mkQ 8 s)) (Some (mkQ 10 s)) (Some 2)
                    (Some (mkQ 1 s)) (Some 2) 1 false false None None None)
           [Arr [-7; -7; -6; -4; -3; -2; -1]].

(** ** Arithmetic of the embedding *)

Section Numbers.
Local Open Scope Q_scope.

Lemma to_s_pos (u : Unit) : 0 < to_s u.
Proof. destruct u; reflexivity. Qed.

Lemma to_s_neq0 (u : Unit) : ~ to_s u == 0.
Proof. intro H. pose proof (to_s_pos u) as P. rewrite H in P. discriminate P. Qed.

Lemma Qlt_bool_iff (x y : Q) : Qlt_bool x y = true <-> x < y.
Proof.
  unfold Qlt_bool. rewrite negb_true_iff.
  split; intro H.
  - apply Qnot_le_lt. intro L. apply Qle_bool_iff in L. congruence.
  - destruct (Qle_bool y x) eqn:E; [|reflexivity].
    apply Qle_bool_iff in E. exfalso. exact (Qlt_not_le _ _ H E).
Qed.

Lemma Qlt_bool_false_iff (x y : Q) : Qlt_bool x y = false <-> y <= x.
Proof.
  unfold Qlt_bool. rewrite negb_false_iff. apply Qle_bool_iff.
Qed.

Lemma Qle_bool_false_iff (x y : Q) : Qle_bool x y = false <-> y < x.
Proof.
  rewrite <- Qlt_bool_iff. unfold Qlt_bool.
  destruct (Qle_bool x y); simpl; split; congruence.
Qed.

(** *** Truncation toward zero *)

Lemma py_int_nonneg (q : Q) : 0 <= q -> py_int q = Qfloor q.
Proof.
  destruct q as [n d]. unfold py_int, Qfloor, Qle. simpl. intro H.
  apply Z.quot_div_nonneg; lia.
Qed.

Lemma py_int_opp (q : Q) : py_int (- q) = (- py_int q)%Z.
Proof.
  destruct q as [n d]. unfold py_int. simpl.
  apply Z.quot_opp_l. discriminate.
Qed.

Lemma py_int_cases (q : Q) :
  py_int q = if Qle_bool 0 q then Qfloor q else (- Qfloor (- q))%Z.
Proof.
  destruct (Qle_bool 0 q) eqn:E.
  - apply Qle_bool_iff in E. now apply py_int_nonneg.
  - apply Qle_bool_false_iff in E.
    rewrite <- (py_int_nonneg (- q)).
    + rewrite py_int_opp. lia.
    + apply Qlt_le_weak. lra.
Qed.

Lemma py_int_comp (p q : Q) : p == q -> py_int p = py_int q.
Proof.
  intro H. rewrite !py_int_cases.
  assert (E : Qle_bool 0 p = Qle_bool 0 q).
  { destruct (Qle_bool 0 p) eqn:P, (Qle_bool 0 q) eqn:R; trivial.
    - apply Qle_bool_iff in P. apply Qle_bool_false_iff in R. lra.
    - apply Qle_bool_iff in R. apply Qle_bool_false_iff in P. lra. }
  rewrite E. destruct (Qle_bool 0 q).
  - now apply Qfloor_comp.
  - f_equal. apply Qfloor_comp. now rewrite H.
Qed.


(** A truncated quotient of at least one comes from a quotient of at least
    one. *)
Lemma py_int_ge_1 (q : Q) : (1 <= py_int q)%Z -> 1 <= q.
Proof.
  rewrite py_int_cases. destruct (Qle_bool 0 q) eqn:E; intro H.
  - apply Qle_trans with (inject_Z (Qfloor q)); [|apply Qfloor_le].
    change 1 with (inject_Z 1). rewrite <- Zle_Qle. exact H.
  - apply Qle_bool_false_iff in E.
    assert (0 <= Qfloor (- q))%Z.
    { change 0%Z with (Qfloor 0). apply Qfloor_resp_le. lra. }
    lia.
Qed.

(** *** Quantities in seconds *)

Lemma unit_eqb_eq (u v : Unit) : unit_eqb u v = true -> u = v.
Proof. destruct u, v; simpl; congruence. Qed.

Lemma units_rescale (q : Quantity) (u : Unit) : units (rescale q u) = u.
Proof.
  unfold rescale. destruct (unit_eqb (units q) u) eqn:E; [|reflexivity].
  now apply unit_eqb_eq.
Qed.

Lemma magnitude_rescale (q : Quantity) (u : Unit) :
  magnitude (rescale q u) == seconds q / to_s u.
Proof.
  unfold rescale, seconds.
  destruct (unit_eqb (units q) u) eqn:E; simpl.
  - apply unit_eqb_eq in E. rewrite E. field. apply to_s_neq0.
  - field. apply to_s_neq0.
Qed.

Lemma seconds_rescale (q : Quantity) (u : Unit) :
  seconds (rescale q u) == seconds q.
Proof.
  unfold seconds at 1. rewrite units_rescale, magnitude_rescale.
  field. apply to_s_neq0.
Qed.

Lemma seconds_q_sub (a b : Quantity) :
  seconds (q_sub a b) == seconds a - seconds b.
Proof.
  unfold q_sub, seconds at 1. simpl. rewrite magnitude_rescale.
  unfold seconds. field. apply to_s_neq0.
Qed.

Lemma seconds_q_add (a b : Quantity) :
  seconds (q_add a b) == seconds a + seconds b.
Proof.
  unfold q_add, seconds at 1. simpl. rewrite magnitude_rescale.
  unfold seconds. field. apply to_s_neq0.
Qed.

Lemma seconds_q_scale (n : Q) (q : Quantity) :
  seconds (q_scale n q) == n * seconds q.
Proof. unfold q_scale, seconds. simpl. ring. Qed.

Lemma seconds_q_div_num (q : Quantity) (n : Q) :
  seconds (q_div_num q n) == seconds q / n.
Proof.
  unfold q_div_num, seconds. simpl. unfold Qdiv. ring.
Qed.

Lemma q_lt_iff (a b : Quantity) : q_lt a b = true <-> seconds a < seconds b.
Proof.
  unfold q_lt. rewrite Qlt_bool_iff, magnitude_rescale. unfold seconds at 2.
  pose proof (to_s_pos (units a)) as P.
  split; intro H.
  - apply Qmult_lt_r with (z := to_s (units a)) in H; trivial.
    setoid_replace (seconds b / to_s (units a) * to_s (units a))
      with (seconds b) in H by (field; apply to_s_neq0).
    exact H.
  - apply Qmult_lt_r with (z := to_s (units a)); trivial.
    setoid_replace (seconds b / to_s (units a) * to_s (units a))
      with (seconds b) by (field; apply to_s_neq0).
    exact H.
Qed.

Lemma q_le_iff (a b : Quantity) : q_le a b = true <-> seconds a <= seconds b.
Proof.
  unfold q_le. rewrite Qle_bool_iff, magnitude_rescale. unfold seconds at 2.
  pose proof (to_s_pos (units a)) as P.
  split; intro H.
  - apply Qmult_le_r with (z := to_s (units a)) in H; trivial.
    setoid_replace (seconds b / to_s (units a) * to_s (units a))
      with (seconds b) in H by (field; apply to_s_neq0).
    exact H.
  - apply Qmult_le_r with (z := to_s (units a)); trivial.
    setoid_replace (seconds b / to_s (units a) * to_s (units a))
      with (seconds b) by (field; apply to_s_neq0).
    exact H.
Qed.

Lemma q_gt_iff (a b : Quantity) : q_gt a b = true <-> seconds b < seconds a.
Proof.
  unfold q_gt. rewrite Qlt_bool_iff, magnitude_rescale. unfold seconds at 2.
  pose proof (to_s_pos (units a)) as P.
  split; intro H.
  - apply Qmult_lt_r with (z := to_s (units a)) in H; trivial.
    setoid_replace (seconds b / to_s (units a) * to_s (units a))
      with (seconds b) in H by (field; apply to_s_neq0).
    exact H.
  - apply Qmult_lt_r with (z := to_s (units a)); trivial.
    setoid_replace (seconds b / to_s (units a) * to_s (units a))
      with (seconds b) by (field; apply to_s_neq0).
    exact H.
Qed.

Lemma q_ge_iff (a b : Quantity) : q_ge a b = true <-> seconds b <= seconds a.
Proof.
  unfold q_ge. rewrite Qle_bool_iff, magnitude_rescale. unfold seconds at 2.
  pose proof (to_s_pos (units a)) as P.
  split; intro H.
  - apply Qmult_le_r with (z := to_s (units a)) in H; trivial.
    setoid_replace (seconds b / to_s (units a) * to_s (units a))
      with (seconds b) in H by (field; apply to_s_neq0).
    exact H.
  - apply Qmult_le_r with (z := to_s (units a)); trivial.
    setoid_replace (seconds b / to_s (units a) * to_s (units a))
      with (seconds b) by (field; apply to_s_neq0).
    exact H.
Qed.

(** The quotient taken by the resolver, the validator and the assigner is
    the quotient of the times in seconds. *)
Lemma quotient_seconds (x b : Quantity) :
  ~ magnitude b == 0 ->
  magnitude (rescale x (units b)) / magnitude b == seconds x / seconds b.
Proof.
  intro Hb. rewrite magnitude_rescale. unfold seconds at 3.
  field. split; [apply to_s_neq0 | exact Hb].
Qed.

Lemma seconds_zero_iff (b : Quantity) : seconds b == 0 <-> magnitude b == 0.
Proof.
  unfold seconds. split; intro H.
  - apply Qmult_integral in H. destruct H as [H|H]; trivial.
    now apply to_s_neq0 in H.
  - rewrite H. ring.
Qed.

End Numbers.

(** ** The attribute [filled] and the constructor *)

Lemma bind_Return_inv {A B} (m : outcome A) (k : A -> outcome B) (b : B) :
  bind m k = Return b -> exists a, m = Return a /\ k a = Return b.
Proof. destruct m; simpl; intro H; try discriminate. eauto. Qed.

Lemma setattr_filled_classic (fuel : nat) (a : attrs) (f : list pyval) :
  setattr_filled Classic fuel a f = Return (mkBinned a f).
Proof. destruct fuel; reflexivity. Qed.

Lemma setattr_filled_new_style (fuel : nat) (a : attrs) (f : list pyval) :
  setattr_filled NewStyle fuel a f = OutOfFuel.
Proof. induction fuel as [|fuel IH]; simpl; trivial. Qed.

Lemma getattr_filled_classic (fuel : nat) (f : list pyval) :
  getattr_filled Classic fuel (Some f) = Return f.
Proof. destruct fuel; reflexivity. Qed.

Lemma getattr_filled_new_style (fuel : nat) (d : option (list pyval)) :
  getattr_filled NewStyle fuel d = OutOfFuel.
Proof. induction fuel as [|fuel IH]; simpl; trivial. Qed.

(** The getter alone, reached on a classic instance whose dictionary has no
    [filled] yet, has no base case either. *)
Lemma getattr_filled_unset (k : class_kind) (fuel : nat) :
  getattr_filled k fuel None = OutOfFuel.
Proof. induction fuel as [|fuel IH]; destruct k; simpl; trivial. Qed.

Lemma calc_start_stop_fuel_free (a : attrs) (sts : list SpikeTrain) :
  calc_start_stop a sts <> OutOfFuel.
Proof.
  unfold calc_start_stop, set_start_stop_from_input, py_max, py_min.
  destruct (count_params a); [discriminate|].
  destruct (t_stop a) eqn:E; simpl; [rewrite E; discriminate|].
  destruct (map st_t_start sts); simpl; [discriminate|].
  destruct (map st_t_stop sts); simpl; [discriminate|].
  rewrite E. simpl. discriminate.
Qed.

Lemma int_of_quotient_fuel_free (a b : Q) : int_of_quotient a b <> OutOfFuel.
Proof.
  unfold int_of_quotient.
  destruct (Qeq_bool b 0); [destruct (Qeq_bool a 0)|]; discriminate.
Qed.

Lemma check_init_params_fuel_free (a : attrs) bs nb ts te :
  check_init_params a bs nb ts te <> OutOfFuel.
Proof.
  unfold check_init_params, calc_num_bins, calc_binsize, int_of_quotient.
  destruct (_ && _); [discriminate|].
  destruct ts as [ts|]; [|discriminate].
  destruct te as [te|]; [|discriminate].
  destruct nb as [n|].
  - destruct bs as [b|]; [discriminate|].
    destruct (q_lt te ts); simpl; [discriminate|].
    destruct (n =? 0)%Z; simpl; discriminate.
  - destruct bs as [b|]; simpl; [|discriminate].
    destruct (q_lt te ts); simpl; [discriminate|].
    destruct (Qeq_bool (magnitude b) 0); simpl; [|discriminate].
    destruct (Qeq_bool _ 0); simpl; discriminate.
Qed.

Lemma check_consistency_fuel_free (a : attrs) sts bs nb ts te :
  check_consistency a sts bs nb ts te <> OutOfFuel.
Proof.
  unfold check_consistency, py_max, py_min, int_of_quotient.
  destruct (negb (count_params a)); [discriminate|].
  destruct (map st_t_start sts); simpl; [discriminate|].
  destruct (map st_t_stop sts); simpl; [discriminate|].
  destruct (q_ge _ _); [discriminate|].
  destruct ts as [ts|]; [|discriminate].
  destruct te as [te|]; [|discriminate].
  destruct bs as [b|]; [|discriminate].
  destruct nb as [n|]; [|discriminate].
  destruct (_ || _); [discriminate|].
  destruct (Qeq_bool (magnitude b) 0); simpl.
  - destruct (Qeq_bool _ 0); simpl; discriminate.
  - repeat (match goal with
            | |- context [if ?c then _ else _] => destruct c
            end; try discriminate).
Qed.

Lemma convert_to_binned_fuel_free (self : binned_st) sts :
  convert_to_binned self sts <> OutOfFuel.
Proof.
  unfold convert_to_binned.
  destruct (t_start self); [|discriminate].
  destruct (binsize self) as [b|]; [|discriminate].
  destruct (num_bins self); [|discriminate].
  destruct (Qeq_bool (magnitude b) 0); discriminate.
Qed.

(** On a classic class the constructor never uses call depth. *)
Lemma init_classic_fuel_free (fuel : nat) sts bs nb ts te sm :
  init Classic fuel sts bs nb ts te sm <> OutOfFuel.
Proof.
  unfold init.
  destruct (calc_start_stop _ sts) as [a1| | |] eqn:E1; simpl;
    try discriminate; [|now apply calc_start_stop_fuel_free in E1].
  destruct (check_init_params a1 bs nb _ _) as [a2| | |] eqn:E2; simpl;
    try discriminate; [|now apply check_init_params_fuel_free in E2].
  destruct (check_consistency a2 sts _ _ _ _) as [[]| | |] eqn:E3; simpl;
    try discriminate; [|now apply check_consistency_fuel_free in E3].
  rewrite setattr_filled_classic. simpl.
  apply convert_to_binned_fuel_free.
Qed.

Lemma init_new_style_no_instance (fuel : nat) sts bs nb ts te sm obj :
  init NewStyle fuel sts bs nb ts te sm <> Return obj.
Proof.
  unfold init. intro H.
  apply bind_Return_inv in H. destruct H as (a1 & _ & H).
  apply bind_Return_inv in H. destruct H as (a2 & _ & H).
  apply bind_Return_inv in H. destruct H as (u & _ & H).
  rewrite setattr_filled_new_style in H. discriminate H.
Qed.

(** C2, as stated, fails: the constructor of the source returns an instance
    on the doctest of the class,
    [binned_st(a, num_bins=10, binsize=1 * pq.s, t_start=0 * pq.s)], with
    [filled] as the doctest prints it. *)
Lemma constructor_returns_doctest_instance :
  exists obj,
    init binned_st_kind 0 [train_a] (Some (mkQ 1 s)) (Some 10%Z)
         (Some (mkQ 0 s)) None false = Return obj
    /\ filled obj = [Arr [0; 0; 1; 3; 4; 5; 6]]%Z.
Proof. eexists. split; vm_compute; reflexivity. Qed.

Lemma convert_loop_map ts b n (sts : list SpikeTrain) (acc : list pyval) :
  convert_loop ts b n sts acc = acc ++ map (binned_row ts b n) sts.
Proof.
  revert acc. induction sts as [|st sts IH]; intro acc; simpl.
  - now rewrite app_nil_r.
  - rewrite IH, <- app_assoc. reflexivity.
Qed.

(** What a returning [__check_consistency] has looked at: all four
    parameters are set, and the bin width is not zero. *)
Lemma check_consistency_returns_inv (a : attrs) (sts : list SpikeTrain)
    bs nb ts te :
  check_consistency a sts bs nb ts te = Return tt ->
  exists (start stop b : Quantity) (n : Z),
    ts = Some start /\ te = Some stop /\ bs = Some b /\ nb = Some n
    /\ Qeq_bool (magnitude b) 0 = false.
Proof.
  unfold check_consistency.
  destruct (negb (count_params a)); [discriminate|].
  destruct (py_max _) as [mx| | |]; simpl; try discriminate.
  destruct (py_min _) as [mn| | |]; simpl; try discriminate.
  destruct (q_ge mx mn); [discriminate|].
  destruct ts as [start|]; [|discriminate].
  destruct te as [stop|]; [|discriminate].
  destruct bs as [b|]; [|discriminate].
  destruct nb as [n|]; [|discriminate].
  destruct (_ || _); [discriminate|].
  unfold int_of_quotient.
  destruct (Qeq_bool (magnitude b) 0) eqn:E.
  - destruct (Qeq_bool (magnitude (rescale _ _)) 0); cbn [bind];
      intro H; discriminate H.
  - intros _. exists start, stop, b, n. auto.
Qed.

(** C2, amended: [binned_st] is a classic class, so [self.filled = f]
    stores [f] in the instance dictionary without running the setter of
    the property and a later read finds it there without running the
    getter.  Whenever the three validation steps of [__init__] return,
    the constructor returns an instance, at any call depth, with the
    validated attributes and one row per train, and [filled] can be read
    back; when a step raises, so does the constructor.  The setter and the
    getter themselves are self-referential with no base case: under the
    new-style rules, where the property takes every access, the same
    construction uses up every call depth and produces no instance. *)
Theorem filled_property_bypassed_on_classic_class :
  forall (fuel : nat) (sts : list SpikeTrain) (bs : option Quantity)
         (nb : option Z) (ts te : option Quantity) (sm : bool)
         (a1 a2 : attrs),
    calc_start_stop (init_attrs sts bs nb ts te sm) sts = Return a1 ->
    check_init_params a1 bs nb (t_start a1) (t_stop a1) = Return a2 ->
    (check_consistency a2 sts (binsize a2) (num_bins a2) (t_start a2)
                       (t_stop a2) = Return tt ->
     (exists obj,
         init binned_st_kind fuel sts bs nb ts te sm = Return obj
         /\ self_attrs obj = a2
         /\ length (filled obj) = length sts
         /\ getattr_filled binned_st_kind fuel (Some (filled obj))
            = Return (filled obj))
     /\ init NewStyle fuel sts bs nb ts te sm = OutOfFuel)
    /\ (forall e,
          check_consistency a2 sts (binsize a2) (num_bins a2) (t_start a2)
                            (t_stop a2) = Raise e ->
          init binned_st_kind fuel sts bs nb ts te sm = Raise e)
    /\ (forall (a : attrs) (f : list pyval),
          setattr_filled binned_st_kind fuel a f = Return (mkBinned a f)
          /\ getattr_filled binned_st_kind fuel (Some f) = Return f
          /\ setattr_filled NewStyle fuel a f = OutOfFuel
          /\ getattr_filled NewStyle fuel (Some f) = OutOfFuel)
    /\ (forall obj, init NewStyle fuel sts bs nb ts te sm <> Return obj)
    /\ init binned_st_kind fuel sts bs nb ts te sm <> OutOfFuel.
Proof.
  intros fuel sts bs nb ts te sm a1 a2 H1 H2.
  unfold binned_st_kind.
  split; [|split; [|split; [|split]]].
  - intro H3.
    destruct (check_consistency_returns_inv _ _ _ _ _ _ H3)
      as (start & stop & b & n & Hs & He & Hb & Hn & Hb0).
    split.
    + exists (mkBinned a2 (map (binned_row start b n) sts)).
      split; [|split; [reflexivity|split]].
      * unfold init. rewrite H1. cbn [bind]. rewrite H2. cbn [bind].
        rewrite H3. cbn [bind]. rewrite setattr_filled_classic. cbn [bind].
        unfold convert_to_binned. cbn [self_attrs filled].
        rewrite Hs, Hb, Hn, Hb0, convert_loop_map. reflexivity.
      * simpl. apply length_map.
      * apply getattr_filled_classic.
    + unfold init. rewrite H1. cbn [bind]. rewrite H2. cbn [bind].
      rewrite H3. cbn [bind]. now rewrite setattr_filled_new_style.
  - intros e H3. unfold init. rewrite H1. cbn [bind]. rewrite H2.
    cbn [bind]. now rewrite H3.
  - intros a f.
    split; [apply setattr_filled_classic|].
    split; [apply getattr_filled_classic|].
    split; [apply setattr_filled_new_style|].
    apply getattr_filled_new_style.
  - intro obj. apply init_new_style_no_instance.
  - apply init_classic_fuel_free.
Qed.

(** The theorem at the doctest of the class,
    [binned_st(a, num_bins=10, binsize=1 * pq.s, t_start=0 * pq.s)]. *)
Lemma filled_property_bypassed_on_classic_class_witness :
  exists obj,
    init binned_st_kind 0 [train_a] (Some (mkQ 1 s)) (Some 10%Z)
         (Some (mkQ 0 s)) None false = Return obj
    /\ length (filled obj) = 1%nat
    /\ getattr_filled binned_st_kind 0 (Some (filled obj))
       = Return (filled obj).
Proof.
  destruct (filled_property_bypassed_on_classic_class 0 [train_a]
              (Some (mkQ 1 s)) (Some 10%Z) (Some (mkQ 0 s)) None false
              (mkAttrs [train_a] (Some (mkQ 0 s)) (Some (mkQ 10 s))
                       (Some 10%Z) (Some (mkQ 1 s)) (Some 10%Z) 1
                       false false None None None)
              (mkAttrs [train_a] (Some (mkQ 0 s)) (Some (mkQ 10 s))
                       (Some 10%Z) (Some (mkQ 1 s)) (Some 10%Z) 1
                       false false None None None)
              eq_refl eq_refl) as (K & _).
  destruct (K eq_refl) as ((obj & E & _ & L & G) & _).
  exists obj. split; [exact E|]. split; [exact L | exact G].
Defined.

(** ** The parameter resolver *)

Section Resolver.
Local Open Scope Q_scope.

Lemma q_lt_false_iff (a b : Quantity) :
  q_lt a b = false <-> seconds b <= seconds a.
Proof.
  split; intro H.
  - apply Qnot_lt_le. intro L. apply q_lt_iff in L. congruence.
  - destruct (q_lt a b) eqn:E; trivial.
    apply q_lt_iff in E. exfalso. exact (Qlt_not_le _ _ E H).
Qed.

Lemma magnitude_nonzero (b : Quantity) :
  ~ magnitude b == 0 -> Qeq_bool (magnitude b) 0 = false.
Proof.
  intro H. destruct (Qeq_bool (magnitude b) 0) eqn:E; trivial.
  apply Qeq_bool_iff in E. contradiction.
Qed.

Lemma seconds_pos_magnitude (b : Quantity) :
  0 < seconds b -> ~ magnitude b == 0.
Proof.
  intros H E. apply seconds_zero_iff in E. rewrite E in H.
  exact (Qlt_irrefl _ H).
Qed.

(** The truncated quotient of the source, in seconds. *)
Lemma int_of_quotient_seconds (x b : Quantity) :
  ~ magnitude b == 0 ->
  int_of_quotient (magnitude (rescale x (units b))) (magnitude b)
  = Return (py_int (seconds x / seconds b)).
Proof.
  intro Hb. unfold int_of_quotient. rewrite (magnitude_nonzero _ Hb).
  f_equal. apply py_int_comp. now apply quotient_seconds.
Qed.

Lemma inject_Z_neq0 (n : Z) : n <> 0%Z -> ~ inject_Z n == 0.
Proof.
  intros H E. apply H. unfold Qeq in E. simpl in E. lia.
Qed.




(** With three true parameters [__calc_start_stop] leaves the attributes as
    the caller gave them, and it never changes them when a stop is given:
    [__check_init_params] then works on the arguments of the caller. *)
Lemma calc_start_stop_keeps_given (a : attrs) (sts : list SpikeTrain) :
  count_params a = true \/ t_stop a <> None ->
  calc_start_stop a sts = Return a.
Proof.
  unfold calc_start_stop. intros [H|H].
  - now rewrite H.
  - destruct (count_params a); trivial.
    destruct (t_stop a) eqn:E; [|congruence].
    simpl. now rewrite E.
Qed.

(** The parameter count is a count of true values.  With start 1 s, ten
    bins of 1 s and no stop, the stop is derived as 11 s; with start 0 s
    the count is two, start and stop are taken from the input train
    ([0 s, 20 s] here) and the ten requested bins are then found
    inconsistent. *)
Lemma zero_start_counts_as_missing :
  let train := mkST (times train_a) s (mkQ 0 s) (mkQ 20 s) in
  (exists obj,
      binned_st_new [train] (Some (mkQ 1 s)) (Some 10%Z) (Some (mkQ 1 s))
                    None false = Return obj
      /\ t_stop obj = Some (mkQ 11 s))
  /\ binned_st_new [train] (Some (mkQ 1 s)) (Some 10%Z) (Some (mkQ 0 s))
                   None false = Raise ValueError_inconsistent.
Proof.
  split.
  - eexists. split; vm_compute; reflexivity.
  - vm_compute. reflexivity.
Qed.

End Resolver.

(** ** The consistency validator *)

Section Validator.
Local Open Scope Q_scope.

Lemma q_lt_seconds (a b : Quantity) :
  q_lt a b = Qlt_bool (seconds a) (seconds b).
Proof. apply eq_iff_eq_true. now rewrite q_lt_iff, Qlt_bool_iff. Qed.

Lemma q_le_seconds (a b : Quantity) :
  q_le a b = Qle_bool (seconds a) (seconds b).
Proof. apply eq_iff_eq_true. now rewrite q_le_iff, Qle_bool_iff. Qed.

Lemma q_gt_seconds (a b : Quantity) :
  q_gt a b = Qlt_bool (seconds b) (seconds a).
Proof. apply eq_iff_eq_true. now rewrite q_gt_iff, Qlt_bool_iff. Qed.

Lemma q_ge_seconds (a b : Quantity) :
  q_ge a b = Qle_bool (seconds b) (seconds a).
Proof. apply eq_iff_eq_true. now rewrite q_ge_iff, Qle_bool_iff. Qed.

Lemma py_int_inject_Z (n : Z) : py_int (inject_Z n) = n.
Proof. unfold py_int. simpl. apply Z.quot_1_r. Qed.

(** [__calc_start_stop] touches start and stop only. *)
Lemma calc_start_stop_frame (a a1 : attrs) (sts : list SpikeTrain) :
  calc_start_stop a sts = Return a1 ->
  binsize a1 = binsize a /\ num_bins a1 = num_bins a
  /\ matrix_columns a1 = matrix_columns a.
Proof.
  unfold calc_start_stop.
  destruct (count_params a).
  - intro H. injection H as <-. auto.
  - destruct (t_stop a) eqn:E; simpl.
    + rewrite E. intro H. injection H as <-. auto.
    + destruct (set_start_stop_from_input sts) as [se| | |]; simpl;
        try discriminate.
      rewrite E. simpl. intro H. injection H as <-. auto.
Qed.

Lemma calc_start_stop_rows (a a1 : attrs) (sts : list SpikeTrain) :
  calc_start_stop a sts = Return a1 -> matrix_rows a1 = matrix_rows a.
Proof.
  unfold calc_start_stop.
  destruct (count_params a).
  - intro H. injection H as <-. reflexivity.
  - destruct (t_stop a) eqn:E; simpl.
    + rewrite E. intro H. injection H as <-. reflexivity.
    + destruct (set_start_stop_from_input sts) as [se| | |]; simpl;
        try discriminate.
      rewrite E. simpl. intro H. injection H as <-. reflexivity.
Qed.

Lemma check_init_params_rows (a a2 : attrs) bs nb ts te :
  check_init_params a bs nb ts te = Return a2 ->
  matrix_rows a2 = matrix_rows a.
Proof.
  unfold check_init_params.
  destruct (_ && _); try discriminate.
  destruct ts; [|intro H; injection H as <-; reflexivity].
  destruct te; [|intro H; injection H as <-; reflexivity].
  destruct nb.
  - destruct bs; [intro H; injection H as <-; reflexivity|].
    destruct (calc_binsize _ _ _); simpl; try discriminate.
    intro H. injection H as <-. reflexivity.
  - destruct (calc_num_bins _ _ _); simpl; try discriminate.
    destruct (is_none _); intro H; injection H as <-; reflexivity.
Qed.

(** After [__check_init_params], three true parameters mean that all four
    are set, and the column count is the bin count. *)
Lemma check_init_params_all_set (a1 a2 : attrs) :
  check_init_params a1 (binsize a1) (num_bins a1) (t_start a1) (t_stop a1)
  = Return a2 ->
  matrix_columns a1 = num_bins a1 ->
  count_params a2 = true ->
  exists start stop b n,
    t_start a2 = Some start /\ t_stop a2 = Some stop
    /\ binsize a2 = Some b /\ num_bins a2 = Some n
    /\ matrix_columns a2 = Some n.
Proof.
  destruct a1 as [li ts te nb bs mc mr sc su c u mcl]. simpl.
  intros H Hmc. subst mc. revert H.
  unfold check_init_params, calc_num_bins, calc_binsize, calc_tstart,
    calc_tstop, int_of_quotient.
  destruct ts as [ts|], te as [te|], nb as [n|], bs as [b|]; simpl;
    try discriminate;
    repeat (match goal with
            | |- context [if ?c then _ else _] => destruct c; simpl
            end; try discriminate);
    intro H; injection H as <-; unfold count_params, truthy_q, truthy_z;
    simpl;
    repeat (match goal with
            | |- context [q_truthy ?q] => destruct (q_truthy q)
            | |- context [(?k =? 0)%Z] => destruct (k =? 0)%Z
            end; simpl);
    try discriminate; intros _; eauto 10.
Qed.

(** [__check_consistency] on resolved parameters, against the order of
    [first_violated] with the truncation of the source. *)
Lemma check_consistency_first_violated (a : attrs) (sts : list SpikeTrain)
    (start stop b mx mn : Quantity) (n : Z) :
  count_params a = true ->
  num_bins a = Some n -> matrix_columns a = Some n ->
  py_max (map st_t_start sts) = Return mx ->
  py_min (map st_t_stop sts) = Return mn ->
  ~ magnitude b == 0 ->
  check_consistency a sts (Some b) (Some n) (Some start) (Some stop)
  = match first_violated py_int mx mn start stop b n with
    | Some e => Raise e
    | None => Return tt
    end.
Proof.
  intros Hc Hn Hm Hmx Hmn Hb.
  unfold check_consistency, first_violated.
  rewrite Hc, Hmx, Hmn, Hn, Hm. simpl.
  rewrite (int_of_quotient_seconds _ _ Hb).
  rewrite (py_int_comp _ _
             (Qdiv_comp _ _ (seconds_q_sub stop start) _ _ (Qeq_refl _))).
  rewrite py_int_inject_Z, Z.sub_diag.
  rewrite !q_ge_seconds, !q_lt_seconds, !q_gt_seconds, !q_le_seconds.
  unfold Qlt_bool. simpl.
  set (r := py_int ((seconds stop - seconds start) / seconds b)).
  destruct (Qle_bool (seconds mn) (seconds mx)); simpl; trivial.
  destruct (Qle_bool (seconds mx) (seconds start)); simpl; trivial.
  destruct (Qle_bool (seconds start) (seconds mn)); simpl; trivial.
  destruct (n =? r)%Z; simpl; trivial.
  destruct (Qle_bool (seconds stop) (seconds start)); simpl; trivial.
  destruct (Qle_bool (seconds stop) (seconds mn)); simpl; trivial.
  rewrite orb_diag.
  destruct (Z.ltb_spec n 0), (Z.leb_spec 0 n); simpl; trivial; try lia.
  destruct (Qle_bool (seconds mx) (seconds stop)); simpl; trivial.
  destruct (Z.ltb_spec n 1), (Z.leb_spec 1 n); simpl; trivial; lia.
Qed.

(** The constructor on resolved parameters that pass the parameter count. *)
Lemma init_first_violated :
  forall (fuel : nat) (sts : list SpikeTrain) (bs : option Quantity)
         (nb : option Z) (ts te : option Quantity) (sm : bool)
         (a1 a2 : attrs) (start stop b mx mn : Quantity) (n : Z),
    calc_start_stop (init_attrs sts bs nb ts te sm) sts = Return a1 ->
    check_init_params a1 bs nb (t_start a1) (t_stop a1) = Return a2 ->
    count_params a2 = true ->
    t_start a2 = Some start -> t_stop a2 = Some stop ->
    binsize a2 = Some b -> num_bins a2 = Some n ->
    py_max (map st_t_start sts) = Return mx ->
    py_min (map st_t_stop sts) = Return mn ->
    ~ magnitude b == 0 ->
    init binned_st_kind fuel sts bs nb ts te sm
    = match first_violated py_int mx mn start stop b n with
      | Some e => Raise e
      | None => Return (mkBinned a2 (map (binned_row start b n) sts))
      end.
Proof.
  intros fuel sts bs nb ts te sm a1 a2 start stop b mx mn n
         H1 H2 Hc Hs He Hb Hn Hmx Hmn Hb0.
  destruct (calc_start_stop_frame _ _ _ H1) as (F1 & F2 & F3).
  simpl in F1, F2, F3.
  assert (Hm : matrix_columns a2 = Some n).
  { rewrite <- F1, <- F2 in H2.
    destruct (check_init_params_all_set a1 a2 H2) as
        (? & ? & ? & n' & _ & _ & _ & N & M); trivial.
    - congruence.
    - congruence. }
  unfold init. rewrite H1. simpl. rewrite H2. simpl.
  rewrite Hs, He, Hb, Hn.
  rewrite (check_consistency_first_violated a2 sts start stop b mx mn n);
    trivial.
  destruct (first_violated py_int mx mn start stop b n); simpl; trivial.
  unfold binned_st_kind. rewrite setattr_filled_classic. simpl.
  unfold convert_to_binned. simpl. rewrite Hs, Hb, Hn.
  rewrite (magnitude_nonzero _ Hb0), convert_loop_map. reflexivity.
Qed.




End Validator.

(** ** The bin assigner *)

Section Assigner.
Local Open Scope Q_scope.

Lemma first_violated_None (round : Q -> Z) (mx mn start stop b : Quantity)
    (n : Z) :
  first_violated round mx mn start stop b n = None ->
  seconds mx <= seconds start
  /\ seconds start < seconds stop
  /\ seconds stop <= seconds mn
  /\ n = round ((seconds stop - seconds start) / seconds b)
  /\ (1 <= n)%Z.
Proof.
  unfold first_violated.
  destruct (Qlt_bool (seconds mx) (seconds mn)); simpl; try discriminate.
  destruct (Qle_bool (seconds mx) (seconds start)) eqn:E1; simpl;
    try discriminate.
  destruct (Qle_bool (seconds start) (seconds mn)); simpl; try discriminate.
  destruct (Z.eqb_spec n (round ((seconds stop - seconds start) / seconds b)));
    simpl; try discriminate.
  destruct (Qlt_bool (seconds start) (seconds stop)) eqn:E2; simpl;
    try discriminate.
  destruct (Qle_bool (seconds stop) (seconds mn)) eqn:E3; simpl;
    try discriminate.
  destruct (0 <=? n)%Z; simpl; try discriminate.
  destruct (Qle_bool (seconds mx) (seconds stop)); simpl; try discriminate.
  destruct (Z.leb_spec 1 n); simpl; try discriminate.
  intros _.
  apply Qle_bool_iff in E1, E3. apply Qlt_bool_iff in E2. auto.
Qed.

(** What a returning constructor has established. *)
Lemma init_returns_inv (fuel : nat) sts bs nb ts te sm (obj : binned_st) :
  init binned_st_kind fuel sts bs nb ts te sm = Return obj ->
  exists (a2 : attrs) (start stop b mx mn : Quantity) (n : Z),
    t_start a2 = Some start /\ t_stop a2 = Some stop
    /\ binsize a2 = Some b /\ num_bins a2 = Some n
    /\ matrix_columns a2 = Some n
    /\ matrix_rows a2 = Z.of_nat (length sts)
    /\ ~ magnitude b == 0
    /\ first_violated py_int mx mn start stop b n = None
    /\ obj = mkBinned a2 (map (binned_row start b n) sts).
Proof.
  intro H. pose proof H as H0. unfold init in H0.
  apply bind_Return_inv in H0. destruct H0 as (a1 & H1 & H0).
  apply bind_Return_inv in H0. destruct H0 as (a2 & H2 & H0).
  apply bind_Return_inv in H0. destruct H0 as ([] & H3 & _).
  destruct (calc_start_stop_frame _ _ _ H1) as (F1 & F2 & F3).
  simpl in F1, F2, F3.
  assert (Hc : count_params a2 = true).
  { unfold check_consistency in H3.
    destruct (count_params a2); trivial; discriminate. }
  destruct (check_init_params_all_set a1 a2) as
      (start & stop & b & n & Hs & He & Hb & Hn & Hm); trivial;
    [now rewrite F1, F2 | congruence |].
  unfold check_consistency in H3. rewrite Hc in H3. simpl in H3.
  destruct (py_max (map st_t_start sts)) as [mx| | |] eqn:Hmx;
    try discriminate.
  destruct (py_min (map st_t_stop sts)) as [mn| | |] eqn:Hmn;
    try discriminate.
  simpl in H3. rewrite Hs, He, Hb, Hn in H3.
  assert (Hb0 : ~ magnitude b == 0).
  { intro E. apply Qeq_bool_iff in E.
    unfold int_of_quotient in H3. rewrite E in H3.
    destruct (q_ge mx mn); try discriminate.
    destruct (_ || _); try discriminate.
    destruct (Qeq_bool _ 0); discriminate. }
  assert (Hr : matrix_rows a2 = Z.of_nat (length sts)).
  { rewrite (check_init_params_rows _ _ _ _ _ _ H2).
    now rewrite (calc_start_stop_rows _ _ _ H1). }
  exists a2, start, stop, b, mx, mn, n.
  repeat (split; trivial).
  - pose proof (init_first_violated fuel sts bs nb ts te sm
                  a1 a2 start stop b mx mn n H1 H2 Hc Hs He Hb Hn Hmx Hmn Hb0)
      as V.
    rewrite H in V.
    destruct (first_violated py_int mx mn start stop b n); trivial.
    discriminate.
  - pose proof (init_first_violated fuel sts bs nb ts te sm
                  a1 a2 start stop b mx mn n H1 H2 Hc Hs He Hb Hn Hmx Hmn Hb0)
      as V.
    rewrite H in V.
    destruct (first_violated py_int mx mn start stop b n);
      [discriminate | congruence].
Qed.

(** The index the source computes for a timestamp, in seconds. *)
Lemma bin_index_seconds (start b : Quantity) (u : Unit) (t : Q) :
  ~ magnitude b == 0 ->
  bin_index start b u t
  = py_int ((seconds (mkQ t u) - seconds start) / seconds b).
Proof.
  intro Hb. unfold bin_index.
  rewrite (py_int_comp _ _ (quotient_seconds _ _ Hb)).
  apply py_int_comp. now rewrite seconds_q_sub.
Qed.

Lemma quotient_ge_1_pos (x y : Q) : 0 < x -> 1 <= x / y -> 0 < y.
Proof.
  intros Hx H.
  destruct (Qeq_dec y 0) as [E|E].
  - exfalso. rewrite E in H. unfold Qdiv, Qinv in H. simpl in H.
    rewrite Qmult_0_r in H. apply (Qle_not_lt _ _ H). reflexivity.
  - assert (M : x / y * y == x) by (field; exact E).
    set (z := x / y) in *.
    destruct (Qlt_le_dec 0 y) as [P|N]; trivial.
    exfalso. nra.
Qed.




End Assigner.

(** ** Range of the stored indices *)

Section StoredIndices.
Local Open Scope Q_scope.

Lemma kept_indices_below (n : Z) (l : list Z) (i : Z) :
  In i (kept_indices n l) -> (i < n)%Z.
Proof.
  unfold kept_indices. rewrite filter_In. intros [_ H].
  now apply Z.ltb_lt in H.
Qed.

(** Every stored index is below the bin count; it is at least 0 when no
    timestamp of the inputs lies before the start. *)
Lemma stored_indices_in_range_from_start (fuel : nat) sts bs nb ts te sm
    (obj : binned_st) (start : Quantity) (n : Z) :
  init binned_st_kind fuel sts bs nb ts te sm = Return obj ->
  t_start obj = Some start -> num_bins obj = Some n ->
  forall (row : list Z) (i : Z),
    In (Arr row) (filled obj) -> In i row ->
    (i < n)%Z
    /\ ((forall elem t, In elem sts -> In t (times elem) ->
                        seconds start <= seconds (mkQ t (st_units elem))) ->
        (0 <= i)%Z).
Proof.
  intros H Hs Hn row i Hrow Hi.
  destruct (init_returns_inv _ _ _ _ _ _ _ _ H) as
      (a2 & start' & stop & b & mx & mn & n'
       & Hs' & He & Hb & Hn' & _ & _ & Hb0 & V & ->).
  simpl in *. rewrite Hs' in Hs. rewrite Hn' in Hn.
  injection Hs as ->. injection Hn as ->.
  apply first_violated_None in V.
  destruct V as (_ & Hlt & _ & Hq & H1n).
  apply in_map_iff in Hrow. destruct Hrow as (elem & E & Helem).
  unfold binned_row in E. injection E as <-.
  split; [now apply kept_indices_below in Hi|].
  intro Hall.
  unfold kept_indices in Hi. apply filter_In in Hi. destruct Hi as [Hi _].
  unfold bin_indices in Hi. apply in_map_iff in Hi.
  destruct Hi as (t & <- & Ht).
  rewrite (bin_index_seconds _ _ _ _ Hb0).
  assert (Bp : 0 < seconds b).
  { apply quotient_ge_1_pos with (x := seconds stop - seconds start).
    - lra.
    - apply py_int_ge_1. now rewrite <- Hq. }
  rewrite py_int_nonneg.
  - change 0%Z with (Qfloor 0). apply Qfloor_resp_le.
    apply Qle_shift_div_l; trivial.
    specialize (Hall elem t Helem Ht). lra.
  - apply Qle_shift_div_l; trivial.
    specialize (Hall elem t Helem Ht). lra.
Qed.

(** C4 fails on the source.  [train_a] is defined on [0 s, 10 s]; binning
    it from start 3 s to stop 10 s with bin width 1 s passes the validator
    (the start lies inside the train) and gives seven bins.  The spikes at
    0.5 s, 0.7 s and 1.2 s, which lie before the start, are stored with
    the indices -2, -2 and -1: only [index < num_bins] is filtered.  The
    clipped matrix then marks columns 5 and 6 for them, numpy counting
    negative indices from the end. *)
Theorem stored_index_below_zero :
  exists obj m,
    binned_st_new [train_a] (Some (mkQ 1 s)) None (Some (mkQ 3 s))
                  (Some (mkQ 10 s)) false = Return obj
    /\ num_bins obj = Some 7%Z
    /\ filled obj = [Arr [-2; -2; -1; 0; 1; 2; 3]]%Z
    /\ matrix_clipped obj None = Return (Some m, obj)
    /\ m = [[1; 1; 1; 1; 0; 1; 1]]%Z.
Proof.
  eexists. eexists.
  split; [vm_compute; reflexivity|].
  split; [reflexivity|]. split; [reflexivity|].
  split; [vm_compute; reflexivity | reflexivity].
Qed.

End StoredIndices.

(** ** Union and symmetric difference *)

Section Operators.

Lemma doctest_x_built : binned_0_10 [train_a] false = Return doctest_x.
Proof. vm_compute. reflexivity. Qed.

Lemma doctest_y_built : binned_0_10 [train_b] false = Return doctest_y.
Proof. vm_compute. reflexivity. Qed.

Lemma doctest_x5_built :
  binned_st_new [train_a] (Some (mkQ 1 s)) None (Some (mkQ 0 s))
                (Some (mkQ 5 s)) false = Return doctest_x5.
Proof. vm_compute. reflexivity. Qed.

Lemma create_class_filled (start stop b : option Quantity) (r : Z)
    (c : option Z) (nc : binned_st) :
  create_class start stop b r c = Return nc -> filled nc = [].
Proof.
  unfold create_class. destruct stop; try discriminate.
  destruct (neo_SpikeTrain _ _ _ _); simpl; try discriminate.
  destruct (binned_st_new _ _ _ _ _ _); simpl; try discriminate.
  intro H. injection H as <-. reflexivity.
Qed.

(** On operands of one row each, [__add__] concatenates the two rows. *)
Lemma add_single_row_concatenates (self other nc : binned_st)
    (a b : list Z) :
  create_class (t_start self) (t_stop self) (binsize self)
               (matrix_rows self) (matrix_columns self) = Return nc ->
  filled self = [Arr a] -> filled other = [Arr b] ->
  add self other = Return (mkBinned nc [Arr (a ++ b)]).
Proof.
  intros Hc Ha Hb. unfold add. rewrite Hc, Ha, Hb. reflexivity.
Qed.

(** C6 fails on the source for operands of more than one row.  Both
    operands bin two trains on [0 s, 10 s]; the union does not hold the two
    rows [a ++ b] and [b ++ a] but two entries that are the whole row lists
    of the operands: the branch for [len(filled) > 1] assigns
    [[self.filled, other.filled]]. *)
Theorem union_of_two_rows_nests_operands :
  (x <- binned_0_10 [train_a; train_b] false ;;
   y <- binned_0_10 [train_b; train_a] false ;;
   z <- add x y ;;
   Return (filled x, filled y, filled z))
  = Return ([Arr [0; 0; 1; 3; 4; 5; 6]; Arr [0; 0; 1; 2; 4; 5; 8]],
            [Arr [0; 0; 1; 2; 4; 5; 8]; Arr [0; 0; 1; 3; 4; 5; 6]],
            [PyList [Arr [0; 0; 1; 3; 4; 5; 6]; Arr [0; 0; 1; 2; 4; 5; 8]];
             PyList [Arr [0; 0; 1; 2; 4; 5; 8]; Arr [0; 0; 1; 3; 4; 5; 6]]]).
Proof. vm_compute. reflexivity. Qed.

(** C10, as stated, fails: the left operand has ten bins, the right one
    five, and [+] returns an instance whose row is the concatenation. *)
Lemma union_of_unequal_bin_counts_returns :
  num_bins doctest_x = Some 10 /\ num_bins doctest_x5 = Some 5
  /\ exists z, add doctest_x doctest_x5 = Return z
               /\ filled z = [Arr [0; 0; 1; 3; 4; 5; 6; 0; 0; 1; 3; 4]]
               /\ num_bins z = Some 10.
Proof.
  split; [reflexivity|]. split; [reflexivity|].
  eexists. split; [vm_compute; reflexivity|]. split; reflexivity.
Qed.

Lemma flat_single (f : list pyval) :
  flat f = true -> length f = 1%nat -> exists a, f = [Arr a].
Proof.
  destruct f as [|[a|l] [|w f]]; simpl; try discriminate.
  intros _ _. now exists a.
Qed.

(** C10, amended: [__add__] compares no shapes.  Of the right operand it
    reads [filled] only, and for operands that hold at least one row of
    indices each it returns an instance whenever the dummy construction
    from the start, stop and bin width of the left operand does, whatever
    the bin counts and the row counts of the two. *)
Theorem union_checks_no_shape :
  forall (self other : binned_st),
    (forall other' : binned_st,
        filled other' = filled other -> add self other' = add self other)
    /\ (forall nc : binned_st,
           create_class (t_start self) (t_stop self) (binsize self)
                        (matrix_rows self) (matrix_columns self)
           = Return nc ->
           filled self <> [] -> filled other <> [] ->
           flat (filled self) = true -> flat (filled other) = true ->
           exists f, add self other = Return (mkBinned nc f)).
Proof.
  intros self other. split.
  - intros other' E. unfold add. now rewrite E.
  - intros nc Hc Hs Ho Fs Fo. unfold add. rewrite Hc. simpl.
    destruct ((1 <? length (filled self))%nat
              || (1 <? length (filled other))%nat) eqn:E.
    + eexists. reflexivity.
    + apply orb_false_iff in E. destruct E as [E1 E2].
      apply Nat.ltb_ge in E1, E2.
      destruct (flat_single (filled self) Fs) as [a Ea].
      { destruct (filled self); simpl in *; [congruence | lia]. }
      destruct (flat_single (filled other) Fo) as [b Eb].
      { destruct (filled other); simpl in *; [congruence | lia]. }
      rewrite Ea, Eb. simpl. eexists. reflexivity.
Qed.

(** The theorem at the operands with ten and five bins. *)
Lemma union_checks_no_shape_witness :
  exists f, add doctest_x doctest_x5 = Return (mkBinned doctest_new_class f).
Proof.
  destruct (union_checks_no_shape doctest_x doctest_x5) as [_ H].
  apply (H doctest_new_class).
  - vm_compute. reflexivity.
  - discriminate.
  - discriminate.
  - reflexivity.
  - reflexivity.
Defined.

(** *** Sorted sets of indices *)

Lemma mem_In (x : Z) (l : list Z) : mem x l = true <-> In x l.
Proof.
  unfold mem. rewrite existsb_exists. split.
  - intros (y & Hy & E). apply Z.eqb_eq in E. now subst.
  - intro H. exists x. split; trivial. apply Z.eqb_refl.
Qed.

Lemma insert_unique_In (x y : Z) (l : list Z) :
  In y (insert_unique x l) <-> y = x \/ In y l.
Proof.
  induction l as [|z l IH]; simpl.
  - intuition.
  - destruct (Z.ltb_spec x z); simpl; [intuition|].
    destruct (Z.eqb_spec x z); simpl.
    + subst. intuition.
    + rewrite IH. intuition.
Qed.

Lemma insert_unique_sorted (x : Z) (l : list Z) :
  StronglySorted Z.lt l ->
  StronglySorted Z.lt (insert_unique x l).
Proof.
  induction 1 as [|z l Hs IH Hall]; simpl.
  - constructor; constructor.
  - destruct (Z.ltb_spec x z).
    + constructor; [constructor; trivial|].
      constructor; trivial.
      eapply Forall_impl; [|exact Hall]. simpl. intros. lia.
    + destruct (Z.eqb_spec x z); [constructor; trivial|].
      constructor; trivial.
      apply Forall_forall. intros y Hy.
      apply insert_unique_In in Hy. destruct Hy as [->|Hy]; [lia|].
      rewrite Forall_forall in Hall. now apply Hall.
Qed.

Lemma np_unique_In (l : list Z) (y : Z) : In y (np_unique l) <-> In y l.
Proof.
  induction l as [|x l IH]; simpl; [reflexivity|].
  rewrite insert_unique_In, IH. intuition.
Qed.

Lemma np_unique_sorted (l : list Z) : StronglySorted Z.lt (np_unique l).
Proof.
  induction l as [|x l IH]; simpl; [constructor|].
  now apply insert_unique_sorted.
Qed.

Lemma strongly_sorted_NoDup (l : list Z) :
  StronglySorted Z.lt l -> NoDup l.
Proof.
  induction 1 as [|z l Hs IH Hall]; constructor; trivial.
  intro Hin. rewrite Forall_forall in Hall. specialize (Hall z Hin). lia.
Qed.

Lemma np_setxor1d_In (a b : list Z) (x : Z) :
  In x (np_setxor1d a b) <-> in_one_only a b x.
Proof.
  unfold np_setxor1d, in_one_only.
  rewrite np_unique_In, in_app_iff, !filter_In, !negb_true_iff.
  split.
  - intros [[Ha Hb]|[Hb Ha]]; [left|right]; split; trivial;
      intro C; apply mem_In in C; congruence.
  - intros [[Ha Hb]|[Hb Ha]]; [left|right]; split; trivial.
    + destruct (mem x b) eqn:E; trivial. apply mem_In in E. contradiction.
    + destruct (mem x a) eqn:E; trivial. apply mem_In in E. contradiction.
Qed.

Lemma np_setxor1d_NoDup (a b : list Z) : NoDup (np_setxor1d a b).
Proof. apply strongly_sorted_NoDup, np_unique_sorted. Qed.

Lemma np_setxor1d_empty (a b : list Z) :
  (forall x, ~ in_one_only a b x) <-> np_setxor1d a b = [].
Proof.
  split.
  - intro H. destruct (np_setxor1d a b) as [|x l] eqn:E; trivial.
    exfalso. apply (H x). apply np_setxor1d_In. rewrite E. now left.
  - intros E x Hx. apply np_setxor1d_In in Hx. now rewrite E in Hx.
Qed.

Lemma sub_loop_rows (la lb : list (list Z)) (acc : list pyval) :
  sub_loop (map Arr la) (map Arr lb) acc
  = Return (acc ++ map (fun p => Arr (set_xor (fst p) (snd p)))
                       (combine la lb)).
Proof.
  revert lb acc. induction la as [|a la IH]; intros [|b lb] acc; simpl;
    try now rewrite app_nil_r.
  rewrite IH, <- app_assoc. reflexivity.
Qed.

(** C7 fails on the source for operands of one row each.  The symmetric
    difference of the doctest instance with itself is empty, and the row of
    the result is a sequence of seven zeros, which reads as seven spikes in
    bin 0: the single-row branch of [__sub__] replaces an empty
    [np.setxor1d] result by [np.zeros(len(self.filled[0]))].  The branch
    for more than one row does what C7 says: for the instance of the two
    doctest trains, the difference with itself has two empty rows. *)
Theorem empty_difference_is_zeros_on_single_rows :
  (forall x, ~ in_one_only [0; 0; 1; 3; 4; 5; 6] [0; 0; 1; 3; 4; 5; 6] x)
  /\ (exists z, sub doctest_x doctest_x = Return z
                /\ filled z = [Arr [0; 0; 0; 0; 0; 0; 0]])
  /\ (exists x2 z2,
         binned_0_10 [train_a; train_b] false = Return x2
         /\ sub x2 x2 = Return z2
         /\ filled z2 = [Arr []; Arr []]).
Proof.
  split; [|split].
  - intros x [[H N]|[H N]]; contradiction.
  - eexists. split; [vm_compute; reflexivity | reflexivity].
  - do 2 eexists.
    split; [vm_compute; reflexivity|].
    split; [vm_compute; reflexivity | reflexivity].
Qed.

(** What [__sub__] computes: a new instance around the parameters of
    [A]; its row for each pair of rows holds exactly the indices that lie
    in one of the two rows only, each once.  When that set is empty, the
    row is an empty sequence if an operand has more than one row; for
    operands of one row each the source puts a sequence of zeros, as long
    as the row of [A] (the defect shown above). *)
Theorem symmetric_difference_rows :
  forall (self other nc : binned_st),
    create_class (t_start self) (t_stop self) (binsize self)
                 (matrix_rows self) (matrix_columns self) = Return nc ->
    let new_attrs :=
      set_matrix_rows (set_matrix_columns nc (matrix_columns self))
                      (matrix_rows self) in
    (forall a b : list Z,
        filled self = [Arr a] -> filled other = [Arr b] ->
        exists r,
          sub self other = Return (mkBinned new_attrs [Arr r])
          /\ ((exists x, in_one_only a b x) ->
              (forall x, In x r <-> in_one_only a b x) /\ NoDup r)
          /\ ((forall x, ~ in_one_only a b x) -> r = repeat 0 (length a)))
    /\ (forall la lb : list (list Z),
           filled self = map Arr la -> filled other = map Arr lb ->
           (1 < length la)%nat \/ (1 < length lb)%nat ->
           sub self other
           = Return (mkBinned new_attrs
                       (map (fun p => Arr (set_xor (fst p) (snd p)))
                            (combine la lb))))
    /\ (forall a b : list Z,
           (forall x, In x (set_xor a b) <-> in_one_only a b x)
           /\ NoDup (set_xor a b)
           /\ ((forall x, ~ in_one_only a b x) -> set_xor a b = [])).
Proof.
  intros self other nc Hc new_attrs.
  pose proof (create_class_filled _ _ _ _ _ _ Hc) as Hf.
  split; [|split].
  - intros a b Ha Hb. unfold sub. rewrite Hc. simpl.
    rewrite Ha, Hb, Hf. simpl.
    destruct (np_setxor1d a b) as [|y l] eqn:E; simpl.
    + eexists. split; [reflexivity|]. split.
      * intros [x Hx]. exfalso.
        apply (proj2 (np_setxor1d_empty a b) E x Hx).
      * reflexivity.
    + eexists. split; [reflexivity|]. split.
      * intros _. rewrite <- E. split.
        -- intro x. apply np_setxor1d_In.
        -- apply np_setxor1d_NoDup.
      * intro H. apply (proj1 (np_setxor1d_empty a b)) in H. congruence.
  - intros la lb Ha Hb Hlen. unfold sub. rewrite Hc. simpl.
    rewrite Ha, Hb, Hf, !length_map.
    replace ((1 <? length la)%nat || (1 <? length lb)%nat) with true.
    + rewrite sub_loop_rows. reflexivity.
    + symmetry. apply orb_true_iff.
      destruct Hlen as [H|H]; [left|right]; now apply Nat.ltb_lt.
  - intros a b. unfold set_xor. split; [|split].
    + intro x. apply np_setxor1d_In.
    + apply np_setxor1d_NoDup.
    + apply np_setxor1d_empty.
Qed.

(** The theorem at the doctest of [__sub__]: the rows of [doctest_x] and
    [doctest_y] differ in the bins 2, 3, 6 and 8. *)
Lemma symmetric_difference_rows_witness :
  exists r,
    sub doctest_x doctest_y = Return (mkBinned doctest_new_class [Arr r])
    /\ (forall x, In x r
                  <-> in_one_only [0; 0; 1; 3; 4; 5; 6] [0; 0; 1; 2; 4; 5; 8] x)
    /\ NoDup r.
Proof.
  destruct (symmetric_difference_rows doctest_x doctest_y doctest_new_class)
    as [H _].
  - vm_compute. reflexivity.
  - destruct (H [0; 0; 1; 3; 4; 5; 6] [0; 0; 1; 2; 4; 5; 8])
      as (r & E & P & _); try reflexivity.
    exists r. split; [exact E|].
    apply P. exists 2. right. split.
    + simpl. tauto.
    + simpl. intros [C|[C|[C|[C|[C|[C|[C|[]]]]]]]]; discriminate C.
Defined.

End Operators.

(** ** Matrices *)

Section Matrices.

Lemma incr_cells_single (m : matrix) (r : nat) (i : Z) :
  incr_cells m r [i] = incr_cell m r i.
Proof. simpl. destruct (incr_cell m r i); reflexivity. Qed.

(** The two loops of [matrix_unclipped] compute the same matrix. *)
Lemma unclipped_loops_agree (f : list pyval) (m : matrix) (idx : nat) :
  unclipped_loop_stored m idx f = unclipped_loop_demand m idx f.
Proof.
  revert m idx. induction f as [|elem f IH]; intros m idx; simpl; trivial.
  destruct elem as [l|l]; simpl.
  - destruct l as [|i [|j l]]; simpl.
    + apply IH.
    + fold (incr_cells m idx [i]). rewrite incr_cells_single.
      destruct (incr_cell m idx i); simpl; trivial.
    + destruct (incr_cell m idx i); simpl; trivial.
      destruct (incr_cell a idx j); simpl; trivial.
      destruct (incr_cells a0 idx l); simpl; trivial.
  - destruct (negb (length l =? 0)%nat); simpl; trivial.
Qed.

(** X19.  In the unclipped mode the stored matrix is the matrix computed
    on demand, for any number of rows and whatever the rows hold: on an
    instance with no stored unclipped matrix, [matrix_unclipped] with
    [store_mat=True] and with [store_mat=False] return the same matrix or
    raise the same error. *)
Lemma unclipped_stored_equals_on_demand (self : binned_st) :
  mat_u self = None ->
  returned (matrix_unclipped self (Some true))
  = returned (matrix_unclipped self (Some false)).
Proof.
  intro H. unfold returned, matrix_unclipped. simpl. rewrite H.
  destruct (np_zeros _ _) as [z| | |]; simpl; trivial.
  rewrite unclipped_loops_agree.
  destruct (unclipped_loop_demand z 0 (filled self)); reflexivity.
Qed.

Lemma unclipped_stored_equals_on_demand_witness :
  returned (matrix_unclipped doctest_x (Some true))
  = returned (matrix_unclipped doctest_x (Some false)).
Proof. apply unclipped_stored_equals_on_demand. reflexivity. Defined.

(** X20.  When a call of [matrix_clipped] has returned a matrix, a
    second call without [store_mat] on the instance as the first call left
    it returns the same matrix and leaves the instance as it is, whether
    the first call stored the matrix or not. *)
Lemma matrix_clipped_twice (self self' : binned_st) (kw : option bool)
    (m : matrix) :
  matrix_clipped self kw = Return (Some m, self') ->
  matrix_clipped self' None = Return (Some m, self').
Proof.
  unfold matrix_clipped.
  set (self1 := match kw with
                | Some b => mkBinned (set_store_mat_c self b) (filled self)
                | None => self
                end).
  destruct (mat_c self1) as [m0|] eqn:Ec.
  - intro H. injection H as <- <-. now rewrite Ec.
  - destruct (store_mat_c self1) eqn:Es.
    + destruct (np_zeros _ _) as [z| | |]; simpl; try discriminate.
      destruct (filled self1) as [|elem rest]; [discriminate|].
      destruct (if negb (py_len elem =? 0)%nat then assign_ones z 0 elem
                else Return z) as [m1| | |]; simpl; try discriminate.
      intro H. injection H as <- <-. reflexivity.
    + destruct (np_zeros _ _) as [z| | |] eqn:Ez; simpl; try discriminate.
      destruct (clipped_loop z 0 (filled self1)) as [m1| | |] eqn:El;
        simpl; try discriminate.
      intro H. injection H as <- <-.
      rewrite Ec, Es, Ez. simpl. rewrite El. reflexivity.
Qed.

Lemma matrix_clipped_twice_witness :
  exists (m : matrix) (x' : binned_st),
    matrix_clipped doctest_x (Some true) = Return (Some m, x')
    /\ matrix_clipped x' None = Return (Some m, x').
Proof.
  eexists. eexists. split; [vm_compute; reflexivity|].
  apply (matrix_clipped_twice doctest_x _ (Some true)).
  vm_compute. reflexivity.
Defined.

(** X21.  With one row, the stored clipped matrix is the one computed on
    demand: on an instance with no stored clipped matrix whose [filled]
    has one entry, [matrix_clipped] with [store_mat=True] and with
    [store_mat=False] return the same matrix or raise the same error. *)
Lemma clipped_stored_equals_on_demand_single_row (self : binned_st)
    (elem : pyval) :
  mat_c self = None -> filled self = [elem] ->
  returned (matrix_clipped self (Some true))
  = returned (matrix_clipped self (Some false)).
Proof.
  intros H E. unfold returned, matrix_clipped. simpl. rewrite H, E.
  destruct (np_zeros _ _) as [z| | |]; simpl; trivial.
  destruct (if negb (py_len elem =? 0)%nat then assign_ones z 0 elem
            else Return z); reflexivity.
Qed.

Lemma clipped_stored_equals_on_demand_single_row_witness :
  returned (matrix_clipped doctest_x (Some true))
  = returned (matrix_clipped doctest_x (Some false)).
Proof.
  apply (clipped_stored_equals_on_demand_single_row doctest_x
           (Arr [0; 0; 1; 3; 4; 5; 6]));
    reflexivity.
Defined.

(** C8 fails on the source for the clipped mode with more than one row.
    On the instance of [train_a] and [train_b], ten bins, the matrix
    computed on demand has both rows filled; the stored matrix has the
    first row only, the second is left at zero: in the storing branch
    [return self.mat_c] stands inside the loop over the rows.  The second
    call returns the same stored matrix. *)
Theorem stored_clipped_matrix_fills_first_row_only :
  exists x x' stored on_demand,
    binned_0_10 [train_a; train_b] false = Return x
    /\ matrix_clipped x (Some true) = Return (Some stored, x')
    /\ matrix_clipped x' None = Return (Some stored, x')
    /\ returned (matrix_clipped x (Some false)) = Return (Some on_demand)
    /\ stored = [[1; 1; 0; 1; 1; 1; 1; 0; 0; 0];
                 [0; 0; 0; 0; 0; 0; 0; 0; 0; 0]]
    /\ on_demand = [[1; 1; 0; 1; 1; 1; 1; 0; 0; 0];
                    [1; 1; 1; 0; 1; 1; 0; 0; 1; 0]].
Proof.
  do 4 eexists.
  split; [vm_compute; reflexivity|].
  split; [vm_compute; reflexivity|].
  split; [vm_compute; reflexivity|].
  split; [vm_compute; reflexivity|].
  split; reflexivity.
Qed.

End Matrices.

(** ** Edges *)

Section Edges.
Local Open Scope Q_scope.

Lemma arange_succ (n : Z) : (0 <= n)%Z -> arange (n + 1) = arange n ++ [n].
Proof.
  intro H. unfold arange.
  replace (Z.to_nat (n + 1)) with (S (Z.to_nat n)) by lia.
  rewrite seq_S, map_app. simpl. now rewrite Z2Nat.id.
Qed.

Lemma arange_length (n : Z) : length (arange n) = Z.to_nat n.
Proof. unfold arange. now rewrite length_map, length_seq. Qed.

Lemma arange_nth (n i : Z) :
  (0 <= i < n)%Z -> nth_error (arange n) (Z.to_nat i) = Some i.
Proof.
  intro H. unfold arange.
  rewrite nth_error_map, nth_error_seq.
  destruct (Nat.ltb_spec (Z.to_nat i) (Z.to_nat n)); [|lia].
  simpl. now rewrite Z2Nat.id.
Qed.

Lemma set_last_snoc {A} (l : list A) (x v : A) :
  set_last (l ++ [x]) v = l ++ [v].
Proof.
  induction l as [|y l IH]; simpl; trivial.
  rewrite IH. destruct l; reflexivity.
Qed.

(** The samples of [linspace] with the end point: the first [n] follow the
    step, the last is [stop] itself. *)
Lemma linspace_endpoint (start stop : Quantity) (n : Z) :
  (1 <= n)%Z ->
  linspace start stop (n + 1) true = linspace start stop n false ++ [stop].
Proof.
  intro H. unfold linspace.
  destruct (Z.leb_spec (n + 1) 0); [lia|].
  destruct (Z.eqb_spec (n + 1) 1); [lia|].
  destruct (Z.leb_spec n 0); [lia|].
  replace (n + 1 - 1)%Z with n by lia.
  rewrite arange_succ by lia.
  rewrite map_app. simpl. apply set_last_snoc.
Qed.

Lemma linspace_left_length (start stop : Quantity) (n : Z) :
  (1 <= n)%Z -> length (linspace start stop n false) = Z.to_nat n.
Proof.
  intro H. unfold linspace. destruct (Z.leb_spec n 0); [lia|].
  now rewrite length_map, arange_length.
Qed.

Lemma linspace_left_nth (start stop : Quantity) (n i : Z) :
  (0 <= i < n)%Z ->
  exists e,
    nth_error (linspace start stop n false) (Z.to_nat i) = Some e
    /\ seconds e
       == seconds start
          + inject_Z i * (seconds stop - seconds start) / inject_Z n.
Proof.
  intro H. unfold linspace. destruct (Z.leb_spec n 0); [lia|].
  rewrite nth_error_map, (arange_nth n i H). simpl.
  eexists. split; [reflexivity|].
  rewrite seconds_q_add, seconds_q_scale, seconds_q_div_num, seconds_q_sub.
  field. apply inject_Z_neq0. lia.
Qed.

(** C9: for a resolved spec, [edges] has [bin_count + 1] points
    [start + i * (stop - start) / bin_count], [i = 0 .. bin_count];
    [left_edges] is the first [bin_count] of them; [right_edges] and
    [center_edges] are [left_edges] shifted by the bin width and by half of
    it.  The four are functions of start, stop, bin count and bin width
    alone: whatever else changes in the instance, they return the same
    sequences. *)
Theorem edges_of_resolved_spec :
  forall (self : attrs) (start stop b : Quantity) (n : Z),
    t_start self = Some start -> t_stop self = Some stop ->
    binsize self = Some b -> num_bins self = Some n ->
    (1 <= n)%Z ->
    exists E L : list Quantity,
      edges self = Return E /\ left_edges self = Return L
      /\ length E = Z.to_nat (n + 1)
      /\ (forall i : Z,
             (0 <= i <= n)%Z ->
             exists e,
               nth_error E (Z.to_nat i) = Some e
               /\ seconds e
                  == seconds start
                     + inject_Z i * (seconds stop - seconds start)
                       / inject_Z n)
      /\ L = firstn (Z.to_nat n) E
      /\ right_edges self = Return (map (fun e => q_add e b) L)
      /\ center_edges self
         = Return (map (fun e => q_add e (q_div_num b 2)) L)
      /\ (forall e, seconds (q_add e b) == seconds e + seconds b)
      /\ (forall e,
             seconds (q_add e (q_div_num b 2)) == seconds e + seconds b / 2)
      /\ (forall self' : attrs,
             t_start self' = t_start self -> t_stop self' = t_stop self ->
             binsize self' = binsize self -> num_bins self' = num_bins self ->
             edges self' = edges self /\ left_edges self' = left_edges self
             /\ right_edges self' = right_edges self
             /\ center_edges self' = center_edges self).
Proof.
  intros self start stop b n Hs He Hb Hn H1.
  exists (linspace start stop (n + 1) true), (linspace start stop n false).
  split; [unfold edges; now rewrite Hs, He, Hn|].
  split; [unfold left_edges; now rewrite Hs, He, Hn|].
  rewrite (linspace_endpoint _ _ _ H1).
  split.
  { rewrite length_app, linspace_left_length by trivial. simpl. lia. }
  split.
  { intros i Hi. destruct (Z.eq_dec i n) as [->|Hne].
    - exists stop. split.
      + rewrite nth_error_app2;
          rewrite linspace_left_length by trivial; [|lia].
        now rewrite Nat.sub_diag.
      + field. apply inject_Z_neq0. lia.
    - destruct (linspace_left_nth start stop n i) as (e & E1 & E2); [lia|].
      exists e. split; trivial.
      rewrite nth_error_app1; trivial.
      rewrite linspace_left_length by trivial. lia. }
  split.
  { rewrite <- (linspace_left_length start stop n H1).
    now rewrite firstn_app, Nat.sub_diag, firstn_all, app_nil_r. }
  split.
  { unfold right_edges, left_edges. now rewrite Hs, He, Hn, Hb. }
  split.
  { unfold center_edges, left_edges. now rewrite Hs, He, Hn, Hb. }
  split; [intro e; apply seconds_q_add|].
  split.
  { intro e. rewrite seconds_q_add, seconds_q_div_num. reflexivity. }
  intros self' Es Ee Eb En.
  unfold right_edges, center_edges, left_edges, edges.
  now rewrite Es, Ee, Eb, En.
Qed.

(** The theorem at the doctest window: eleven edges from 0 s to 10 s. *)
Lemma edges_of_resolved_spec_witness :
  exists E L : list Quantity,
    edges doctest_attrs = Return E /\ left_edges doctest_attrs = Return L
    /\ length E = 11%nat /\ L = firstn 10 E.
Proof.
  destruct (edges_of_resolved_spec doctest_attrs (mkQ 0 s) (mkQ 10 s)
              (mkQ 1 s) 10) as (E & L & H1 & H2 & H3 & _ & H5 & _);
    try reflexivity.
  - discriminate.
  - exists E, L. auto.
Defined.

End Edges.

(** ** Pruning *)

Section Pruning.

Lemma insert_unique_below (x : Z) (l : list Z) :
  Forall (Z.lt x) l -> insert_unique x l = x :: l.
Proof.
  destruct l as [|y l]; simpl; trivial.
  intro H. inversion H; subst.
  destruct (Z.ltb_spec x y); [reflexivity | lia].
Qed.

(** [np.unique] leaves a strictly increasing sequence as it is. *)
Lemma np_unique_of_sorted (l : list Z) :
  StronglySorted Z.lt l -> np_unique l = l.
Proof.
  induction 1 as [|x l Hs IH Hall]; simpl; trivial.
  rewrite IH. now apply insert_unique_below.
Qed.

Lemma np_unique_idempotent (l : list Z) :
  np_unique (np_unique l) = np_unique l.
Proof. apply np_unique_of_sorted, np_unique_sorted. Qed.

(** Strictly increasing sequences with the same members are equal. *)
Lemma strongly_sorted_ext (l1 l2 : list Z) :
  StronglySorted Z.lt l1 -> StronglySorted Z.lt l2 ->
  (forall x, In x l1 <-> In x l2) -> l1 = l2.
Proof.
  intro H1. revert l2.
  induction H1 as [|x l1 Hs1 IH Hall1]; intros l2 H2 E.
  - destruct l2 as [|y l2]; trivial.
    exfalso. apply (proj2 (E y)). now left.
  - destruct H2 as [|y l2 Hs2 Hall2].
    + exfalso. apply (proj1 (E x)). now left.
    + rewrite Forall_forall in Hall1, Hall2.
      assert (x = y).
      { destruct (proj1 (E x) (or_introl eq_refl)) as [->|Hx]; trivial.
        destruct (proj2 (E y) (or_introl eq_refl)) as [->|Hy]; trivial.
        specialize (Hall1 y Hy). specialize (Hall2 x Hx). lia. }
      subst y. f_equal. apply IH; trivial.
      intro z. split; intro Hz.
      * destruct (proj1 (E z) (or_intror Hz)) as [->|]; trivial.
        specialize (Hall1 z Hz). lia.
      * destruct (proj2 (E z) (or_intror Hz)) as [->|]; trivial.
        specialize (Hall2 z Hz). lia.
Qed.

Lemma np_unique_ext (a b : list Z) :
  (forall x, In x a <-> In x b) -> np_unique a = np_unique b.
Proof.
  intro E. apply strongly_sorted_ext; try apply np_unique_sorted.
  intro x. now rewrite !np_unique_In.
Qed.

Lemma unique_rows_flat (rs : list (list Z)) :
  unique_rows (map Arr rs) = Return (map Arr (map np_unique rs)).
Proof.
  induction rs as [|r rs IH]; simpl; trivial.
  now rewrite IH.
Qed.

Lemma flat_rows (f : list pyval) :
  flat f = true -> exists rs, f = map Arr rs.
Proof.
  induction f as [|[a|l] f IH]; simpl; try discriminate.
  - now exists [].
  - intro H. destruct (IH H) as [rs ->]. now exists (a :: rs).
Qed.

(** On rows of index arrays, [prune] replaces every row by
    [np.unique] of it and keeps the attributes. *)
Lemma prune_rows (self : binned_st) (rs : list (list Z)) :
  filled self = map Arr rs -> rs <> [] ->
  prune self = Return (mkBinned self (map Arr (map np_unique rs))).
Proof.
  intros E Hne. unfold prune. rewrite E, length_map.
  destruct rs as [|r [|r' rs]]; [congruence| reflexivity |].
  simpl (1 <? _)%nat. cbv iota. rewrite unique_rows_flat. reflexivity.
Qed.

(** X1.  [prune] on an instance with at least one row of indices: the
    row count and the attributes stay, every row becomes strictly
    increasing (so it has no duplicates) with the members it had, and
    pruning again changes nothing. *)
Theorem prune_sorts_and_is_idempotent :
  forall (self : binned_st) (rs : list (list Z)),
    filled self = map Arr rs -> rs <> [] ->
    exists rs' : list (list Z),
      prune self = Return (mkBinned self (map Arr rs'))
      /\ length rs' = length rs
      /\ (forall k row, nth_error rs k = Some row ->
            exists row', nth_error rs' k = Some row'
                         /\ StronglySorted Z.lt row' /\ NoDup row'
                         /\ forall i, In i row' <-> In i row)
      /\ prune (mkBinned self (map Arr rs'))
         = Return (mkBinned self (map Arr rs')).
Proof.
  intros self rs E Hne. exists (map np_unique rs).
  split; [now apply prune_rows|].
  split; [apply length_map|].
  split.
  - intros k row Hk. exists (np_unique row).
    split; [now rewrite nth_error_map, Hk|].
    split; [apply np_unique_sorted|].
    split; [apply strongly_sorted_NoDup, np_unique_sorted|].
    intro i. apply np_unique_In.
  - rewrite (prune_rows (mkBinned self (map Arr (map np_unique rs)))
                        (map np_unique rs)); trivial.
    + simpl.
      replace (map np_unique (map np_unique rs)) with (map np_unique rs);
        [reflexivity|].
      rewrite map_map. apply map_ext. intro a.
      symmetry. apply np_unique_idempotent.
    + destruct rs; [congruence | discriminate].
Qed.

Lemma prune_sorts_and_is_idempotent_witness :
  prune doctest_x
  = Return (mkBinned doctest_x [Arr [0; 1; 3; 4; 5; 6]]).
Proof.
  destruct (prune_sorts_and_is_idempotent doctest_x [[0; 0; 1; 3; 4; 5; 6]])
    as (rs' & E & _).
  - reflexivity.
  - discriminate.
  - vm_compute. reflexivity.
Defined.

End Pruning.

(** ** The operators on instances built by the constructor *)

Section BuiltOperands.
Local Open Scope Q_scope.

Lemma seconds_zero_s : seconds (mkQ 0 s) == 0.
Proof. reflexivity. Qed.

Lemma q_truthy_of_seconds (q : Quantity) :
  ~ seconds q == 0 -> q_truthy q = true.
Proof.
  intro H. unfold q_truthy.
  destruct (Qeq_bool (magnitude q) 0) eqn:E; trivial.
  apply Qeq_bool_iff in E. apply seconds_zero_iff in E. contradiction.
Qed.

(** The dummy train of [create_class]: neo refuses a stop before 0 s. *)
Lemma neo_dummy_train (stop : Quantity) :
  neo_SpikeTrain [] s (mkQ 0 s) stop
  = if Qlt_bool (seconds stop) 0
    then Raise ValueError_t_stop_before_t_start
    else Return (dummy_train stop).
Proof.
  unfold neo_SpikeTrain. simpl.
  assert (E : Qlt_bool (magnitude (rescale stop s)) 0
              = Qlt_bool (seconds stop) 0).
  { apply eq_iff_eq_true. rewrite !Qlt_bool_iff, magnitude_rescale.
    simpl. split; intro H.
    - assert (K : seconds stop / 1 == seconds stop) by (field; discriminate).
      now rewrite <- K.
    - assert (K : seconds stop / 1 == seconds stop) by (field; discriminate).
      now rewrite K. }
  rewrite E. destruct (Qlt_bool (seconds stop) 0); reflexivity.
Qed.

(** [create_class] on a window with [start < stop] whose stop is not
    negative and whose bin count is at least one: the dummy train on
    [0 s, stop] goes through the validator, which decides the outcome. *)
Lemma create_class_outcome (start stop b : Quantity) (n : Z) (r : Z)
    (c : option Z) :
  0 <= seconds stop ->
  seconds start < seconds stop ->
  ~ magnitude b == 0 ->
  n = py_int ((seconds stop - seconds start) / seconds b) ->
  (1 <= n)%Z ->
  create_class (Some start) (Some stop) (Some b) r c
  = match first_violated py_int (mkQ 0 s) (rescale stop s) start stop b n with
    | Some e => Raise e
    | None => Return (new_class_of start stop b n r c)
    end.
Proof.
  intros H0 Hlt Hb Hn H1.
  unfold create_class, binned_st_new. rewrite neo_dummy_train.
  rewrite (proj2 (Qlt_bool_false_iff (seconds stop) 0) H0). cbn [bind].
  set (a0 := init_attrs [dummy_train stop] (Some b) None (Some start)
                        (Some stop) false).
  set (a2 := set_matrix_columns (set_num_bins a0 (Some n)) (Some n)).
  rewrite (init_first_violated 0 [dummy_train stop] (Some b) None
             (Some start) (Some stop) false a0 a2 start stop b (mkQ 0 s)
             (rescale stop s) n); trivial.
  - destruct (first_violated py_int _ _ _ _ _ _); reflexivity.
  - apply calc_start_stop_keeps_given. right. discriminate.
  - unfold check_init_params, calc_num_bins. simpl.
    replace (q_lt stop start) with false
      by (symmetry; apply q_lt_false_iff; lra).
    rewrite (int_of_quotient_seconds _ _ Hb).
    rewrite (py_int_comp _ ((seconds stop - seconds start) / seconds b))
      by now rewrite seconds_q_sub.
    rewrite <- Hn. reflexivity.
  - unfold count_params. simpl.
    rewrite (q_truthy_of_seconds b)
      by (intro E; apply seconds_zero_iff in E; contradiction).
    replace (n =? 0)%Z with false by (symmetry; apply Z.eqb_neq; lia).
    simpl.
    destruct (q_truthy start) eqn:Es, (q_truthy stop) eqn:Ee; trivial.
    exfalso. unfold q_truthy in Es, Ee.
    apply negb_false_iff in Es, Ee. apply Qeq_bool_iff in Es, Ee.
    apply seconds_zero_iff in Es, Ee. lra.
Qed.

(** With a negative stop the dummy train is refused, whatever the rest. *)
Lemma create_class_negative_stop (start b : option Quantity)
    (stop : Quantity) (r : Z) (c : option Z) :
  seconds stop < 0 ->
  create_class start (Some stop) b r c
  = Raise ValueError_t_stop_before_t_start.
Proof.
  intro H. unfold create_class. rewrite neo_dummy_train.
  now rewrite (proj2 (Qlt_bool_iff (seconds stop) 0) H).
Qed.

Lemma first_violated_dummy_ok (start stop b : Quantity) (n : Z) :
  0 <= seconds start -> seconds start < seconds stop ->
  n = py_int ((seconds stop - seconds start) / seconds b) ->
  (1 <= n)%Z ->
  first_violated py_int (mkQ 0 s) (rescale stop s) start stop b n = None.
Proof.
  intros H0 Hlt Hn H1. unfold first_violated.
  pose proof (seconds_rescale stop s) as R.
  pose proof seconds_zero_s as Z0.
  replace (Qlt_bool (seconds (mkQ 0 s)) (seconds (rescale stop s))) with true
    by (symmetry; apply Qlt_bool_iff; lra).
  replace (Qle_bool (seconds (mkQ 0 s)) (seconds start)) with true
    by (symmetry; apply Qle_bool_iff; lra).
  replace (Qle_bool (seconds start) (seconds (rescale stop s))) with true
    by (symmetry; apply Qle_bool_iff; lra).
  replace (Qlt_bool (seconds start) (seconds stop)) with true
    by (symmetry; apply Qlt_bool_iff; lra).
  replace (Qle_bool (seconds stop) (seconds (rescale stop s))) with true
    by (symmetry; apply Qle_bool_iff; lra).
  replace (Qle_bool (seconds (mkQ 0 s)) (seconds stop)) with true
    by (symmetry; apply Qle_bool_iff; lra).
  rewrite <- Hn, Z.eqb_refl. simpl.
  replace (0 <=? n)%Z with true by (symmetry; apply Z.leb_le; lia).
  replace (1 <=? n)%Z with true by (symmetry; apply Z.leb_le; lia).
  reflexivity.
Qed.

Lemma first_violated_dummy_negative (start stop b : Quantity) (n : Z) :
  seconds start < 0 ->
  first_violated py_int (mkQ 0 s) (rescale stop s) start stop b n
  = Some (if Qle_bool (seconds stop) 0 then ValueError_start_not_smaller
          else ValueError_t_start).
Proof.
  intros H0. unfold first_violated.
  pose proof (seconds_rescale stop s) as R.
  pose proof seconds_zero_s as Z0.
  destruct (Qle_bool (seconds stop) 0) eqn:E.
  - apply Qle_bool_iff in E.
    replace (Qlt_bool (seconds (mkQ 0 s)) (seconds (rescale stop s)))
      with false by (symmetry; apply Qlt_bool_false_iff; lra).
    reflexivity.
  - apply Qle_bool_false_iff in E.
    replace (Qlt_bool (seconds (mkQ 0 s)) (seconds (rescale stop s)))
      with true by (symmetry; apply Qlt_bool_iff; lra).
    replace (Qle_bool (seconds (mkQ 0 s)) (seconds start)) with false
      by (symmetry; apply Qle_bool_false_iff; lra).
    reflexivity.
Qed.

(** What [create_class] does with the attributes of an instance that the
    constructor has built. *)
Lemma built_create_class (fuel : nat) sts bs nb ts te sm (A : binned_st) :
  init binned_st_kind fuel sts bs nb ts te sm = Return A ->
  exists (start stop b : Quantity) (n : Z),
    t_start A = Some start /\ t_stop A = Some stop
    /\ binsize A = Some b /\ num_bins A = Some n
    /\ matrix_columns A = Some n
    /\ seconds start < seconds stop
    /\ create_class (t_start A) (t_stop A) (binsize A) (matrix_rows A)
                    (matrix_columns A)
       = if Qlt_bool (seconds stop) 0
         then Raise ValueError_t_stop_before_t_start
         else match first_violated py_int (mkQ 0 s) (rescale stop s)
                                   start stop b n with
              | Some e => Raise e
              | None => Return (new_class_of start stop b n (matrix_rows A)
                                             (Some n))
              end.
Proof.
  intro H.
  destruct (init_returns_inv _ _ _ _ _ _ _ _ H) as
      (a2 & start & stop & b & mx & mn & n
       & Hs & He & Hb & Hn & Hm & _ & Hb0 & V & ->).
  apply first_violated_None in V.
  destruct V as (_ & Hlt & _ & Hq & H1n).
  exists start, stop, b, n. simpl.
  rewrite Hs, He, Hb, Hn, Hm.
  repeat (split; trivial).
  destruct (Qlt_bool (seconds stop) 0) eqn:E.
  - apply Qlt_bool_iff in E. now apply create_class_negative_stop.
  - apply Qlt_bool_false_iff in E. now apply create_class_outcome.
Qed.

(** X2.  For an instance the constructor has built from one train, with a
    start that is not negative, [A + B] returns: its row is the row of [A]
    followed by the row of [B] and its start, stop, bin width, bin count
    and matrix shape are those of [A], with no stored matrix. *)
Theorem union_of_built_instance_keeps_binning :
  forall (fuel : nat) sts bs nb ts te sm (A B : binned_st)
         (start : Quantity) (a b : list Z),
    init binned_st_kind fuel sts bs nb ts te sm = Return A ->
    t_start A = Some start -> 0 <= seconds start ->
    filled A = [Arr a] -> filled B = [Arr b] ->
    exists z,
      add A B = Return z
      /\ filled z = [Arr (a ++ b)]
      /\ t_start z = t_start A /\ t_stop z = t_stop A
      /\ binsize z = binsize A /\ num_bins z = num_bins A
      /\ matrix_columns z = matrix_columns A
      /\ matrix_rows z = matrix_rows A
      /\ mat_c z = None /\ mat_u z = None.
Proof.
  intros fuel sts bs nb ts te sm A B start a b H Hs H0 Ha Hb.
  destruct (built_create_class _ _ _ _ _ _ _ _ H) as
      (start' & stop & bq & n & Hs' & He & Hbq & Hn & Hm & Hlt & C).
  rewrite Hs in Hs'. injection Hs' as <-.
  destruct (init_returns_inv _ _ _ _ _ _ _ _ H) as
      (a2 & start2 & stop2 & b2 & mx & mn & n2
       & Hs2 & He2 & Hb2 & Hn2 & _ & _ & _ & V & E).
  assert (E1 : start2 = start) by (rewrite E in Hs; simpl in Hs; congruence).
  assert (E2 : stop2 = stop) by (rewrite E in He; simpl in He; congruence).
  assert (E3 : b2 = bq) by (rewrite E in Hbq; simpl in Hbq; congruence).
  assert (E4 : n2 = n) by (rewrite E in Hn; simpl in Hn; congruence).
  subst start2 stop2 b2 n2.
  apply first_violated_None in V. destruct V as (_ & _ & _ & Hq & H1n).
  rewrite (first_violated_dummy_ok start stop bq n H0 Hlt Hq H1n) in C.
  rewrite (proj2 (Qlt_bool_false_iff (seconds stop) 0)) in C by lra.
  exists (mkBinned (new_class_of start stop bq n (matrix_rows A) (Some n))
                   [Arr (a ++ b)]).
  split.
  - now apply add_single_row_concatenates.
  - simpl. rewrite Hs, He, Hbq, Hn, Hm. repeat split; reflexivity.
Qed.

Lemma union_of_built_instance_keeps_binning_witness :
  exists z,
    add doctest_x doctest_y = Return z
    /\ filled z = [Arr [0; 0; 1; 3; 4; 5; 6; 0; 0; 1; 2; 4; 5; 8]]%Z
    /\ num_bins z = Some 10%Z.
Proof.
  destruct (union_of_built_instance_keeps_binning 0 [train_a]
              (Some (mkQ 1 s)) None (Some (mkQ 0 s)) (Some (mkQ 10 s)) false
              doctest_x doctest_y (mkQ 0 s)
              [0; 0; 1; 3; 4; 5; 6]%Z [0; 0; 1; 2; 4; 5; 8]%Z)
    as (z & E & F & _ & _ & _ & N & _); try reflexivity.
  - discriminate.
  - exists z. auto.
Defined.

(** X3.  The dummy train of [create_class] starts at 0 s.  For an instance
    the constructor has built with a negative start, [A + B] and [A - B]
    therefore raise.  When the stop is negative too, neo refuses the dummy
    train (its stop lies before its start); when the stop is 0 s the
    constructor raises the error of the interval test; otherwise the error
    of the start test. *)
Theorem operators_reject_negative_start :
  forall (fuel : nat) sts bs nb ts te sm (A B : binned_st)
         (start stop : Quantity),
    init binned_st_kind fuel sts bs nb ts te sm = Return A ->
    t_start A = Some start -> t_stop A = Some stop ->
    seconds start < 0 ->
    let e := if Qlt_bool (seconds stop) 0
             then ValueError_t_stop_before_t_start
             else if Qle_bool (seconds stop) 0
                  then ValueError_start_not_smaller
                  else ValueError_t_start in
    add A B = Raise e /\ sub A B = Raise e.
Proof.
  intros fuel sts bs nb ts te sm A B start stop H Hs He H0 e.
  destruct (built_create_class _ _ _ _ _ _ _ _ H) as
      (start' & stop' & bq & n & Hs' & He' & Hbq & Hn & Hm & Hlt & C).
  rewrite Hs in Hs'. injection Hs' as <-.
  rewrite He in He'. injection He' as <-.
  rewrite (first_violated_dummy_negative start stop bq n H0) in C.
  unfold add, sub. rewrite C. subst e.
  destruct (Qlt_bool (seconds stop) 0); split; reflexivity.
Qed.

(** The theorem at a train on [-5 s, 5 s] and at a train on
    [-5 s, -1 s]. *)
Lemma operators_reject_negative_start_witness :
  (add negative_start_instance negative_start_instance
   = Raise ValueError_t_start
   /\ sub negative_start_instance negative_start_instance
      = Raise ValueError_t_start)
  /\ (add negative_window_instance negative_window_instance
      = Raise ValueError_t_stop_before_t_start
      /\ sub negative_window_instance negative_window_instance
         = Raise ValueError_t_stop_before_t_start).
Proof.
  split.
  - apply (operators_reject_negative_start 0
             [mkST [1 # 2] s (mkQ (-5) s) (mkQ 5 s)] (Some (mkQ 1 s)) None
             (Some (mkQ (-5) s)) (Some (mkQ 5 s)) false
             negative_start_instance negative_start_instance
             (mkQ (-5) s) (mkQ 5 s)); reflexivity.
  - apply (operators_reject_negative_start 0
             [mkST [(-9) # 2] s (mkQ (-5) s) (mkQ (-1) s)] (Some (mkQ 1 s))
             None (Some (mkQ (-5) s)) (Some (mkQ (-1) s)) false
             negative_window_instance negative_window_instance
             (mkQ (-5) s) (mkQ (-1) s)); reflexivity.
Defined.

Lemma set_missing_parameter_same (z self : binned_st) :
  binsize z = binsize self -> t_start z = t_start self ->
  t_stop z = t_stop self -> num_bins z = num_bins self ->
  set_missing_parameter z self = z.
Proof.
  destruct z as [[li ts te nb bs mc mr sc su c u mcl] f]. simpl.
  intros E1 E2 E3 E4. unfold set_missing_parameter. simpl.
  rewrite <- E1, <- E2, <- E3, <- E4. reflexivity.
Qed.

(** X4.  For a left operand the constructor has built, [A += B] is
    [A + B] and [A -= B] is [A - B]: the four assignments that close the
    in-place operators put back what the new instance holds already. *)
Theorem in_place_operators_agree :
  forall (fuel : nat) sts bs nb ts te sm (A B : binned_st),
    init binned_st_kind fuel sts bs nb ts te sm = Return A ->
    iadd A B = add A B /\ isub A B = sub A B.
Proof.
  intros fuel sts bs nb ts te sm A B H.
  destruct (built_create_class _ _ _ _ _ _ _ _ H) as
      (start & stop & bq & n & Hs & He & Hbq & Hn & Hm & Hlt & C).
  unfold iadd, isub, add, sub. rewrite C.
  destruct (Qlt_bool (seconds stop) 0); [split; reflexivity|].
  destruct (first_violated py_int _ _ _ _ _ _); [split; reflexivity|].
  simpl bind. split.
  - destruct (_ || _).
    + simpl. f_equal. apply set_missing_parameter_same; simpl; congruence.
    + destruct (np_hstack _ _); simpl; trivial.
      f_equal. apply set_missing_parameter_same; simpl; congruence.
  - destruct (_ || _).
    + destruct (sub_loop _ _ _); simpl; trivial.
      f_equal. apply set_missing_parameter_same; simpl; congruence.
    + destruct (filled A) as [|[a|l] fa]; simpl; trivial;
        destruct (filled B) as [|[b|l'] fb]; simpl; trivial.
      destruct (_ =? _)%nat; simpl; f_equal;
        apply set_missing_parameter_same; simpl; congruence.
Qed.

Lemma in_place_operators_agree_witness :
  iadd doctest_x doctest_y = add doctest_x doctest_y
  /\ isub doctest_x doctest_y = sub doctest_x doctest_y.
Proof.
  apply (in_place_operators_agree 0 [train_a] (Some (mkQ 1 s)) None
           (Some (mkQ 0 s)) (Some (mkQ 10 s)) false).
  exact doctest_x_built.
Defined.

End BuiltOperands.

(** ** Algebra of union, difference and pruning *)

Section OperatorAlgebra.
Local Open Scope Q_scope.

Lemma add_single_rows_inv (A B z : binned_st) (a b : list Z) :
  filled A = [Arr a] -> filled B = [Arr b] ->
  add A B = Return z -> filled z = [Arr (a ++ b)].
Proof.
  intros Ha Hb. unfold add. rewrite Ha, Hb.
  destruct (create_class _ _ _ _ _); simpl; try discriminate.
  intro H. injection H as <-. reflexivity.
Qed.

(** X5.  For operands of one row each, [A + B] and [B + A] hold the same
    indices with the same multiplicities, in a different order; after
    [prune] the two results have the same [filled]. *)
Theorem union_commutes_after_prune :
  forall (A B z1 z2 : binned_st) (a b : list Z),
    filled A = [Arr a] -> filled B = [Arr b] ->
    add A B = Return z1 -> add B A = Return z2 ->
    filled z1 = [Arr (a ++ b)] /\ filled z2 = [Arr (b ++ a)]
    /\ Permutation (a ++ b) (b ++ a)
    /\ exists p1 p2,
         prune z1 = Return p1 /\ prune z2 = Return p2
         /\ filled p1 = filled p2.
Proof.
  intros A B z1 z2 a b Ha Hb H1 H2.
  pose proof (add_single_rows_inv _ _ _ _ _ Ha Hb H1) as F1.
  pose proof (add_single_rows_inv _ _ _ _ _ Hb Ha H2) as F2.
  split; trivial. split; trivial.
  split; [apply Permutation_app_comm|].
  exists (mkBinned z1 [Arr (np_unique (a ++ b))]),
         (mkBinned z2 [Arr (np_unique (b ++ a))]).
  split; [|split].
  - unfold prune. now rewrite F1.
  - unfold prune. now rewrite F2.
  - simpl. f_equal. f_equal. apply np_unique_ext.
    intro x. rewrite !in_app_iff. tauto.
Qed.

Lemma union_commutes_after_prune_witness :
  exists p1 p2 z1 z2,
    add doctest_x doctest_y = Return z1 /\ add doctest_y doctest_x = Return z2
    /\ prune z1 = Return p1 /\ prune z2 = Return p2
    /\ filled p1 = filled p2.
Proof.
  destruct (union_commutes_after_prune doctest_x doctest_y
              (mkBinned doctest_new_class
                        [Arr [0; 0; 1; 3; 4; 5; 6; 0; 0; 1; 2; 4; 5; 8]]%Z)
              (mkBinned doctest_new_class
                        [Arr [0; 0; 1; 2; 4; 5; 8; 0; 0; 1; 3; 4; 5; 6]]%Z)
              [0; 0; 1; 3; 4; 5; 6]%Z [0; 0; 1; 2; 4; 5; 8]%Z)
    as (_ & _ & _ & p1 & p2 & P1 & P2 & E); try reflexivity.
  do 4 eexists. repeat split; try eassumption; reflexivity.
Defined.

Lemma setxor_twice (a b : list Z) :
  np_setxor1d (np_setxor1d a b) b = np_unique a.
Proof.
  apply strongly_sorted_ext; try apply np_unique_sorted.
  intro x. rewrite np_setxor1d_In, np_unique_In. unfold in_one_only.
  rewrite np_setxor1d_In. unfold in_one_only.
  destruct (In_dec Z.eq_dec x a), (In_dec Z.eq_dec x b); tauto.
Qed.

(** X6.  Round trip of the symmetric difference.  [A] is built by the
    constructor with a start that is not negative and has one row, which
    is not empty and differs from the row of [B] as a set.  Then
    [(A - B) - B] returns, and its row is the row of [A] after [prune]. *)
Theorem difference_twice_restores_pruned_row :
  forall (fuel : nat) sts bs nb ts te sm (A B : binned_st)
         (start : Quantity) (a b : list Z),
    init binned_st_kind fuel sts bs nb ts te sm = Return A ->
    t_start A = Some start -> 0 <= seconds start ->
    filled A = [Arr a] -> filled B = [Arr b] ->
    a <> [] -> (exists x, in_one_only a b x) ->
    exists C D P,
      sub A B = Return C /\ sub C B = Return D /\ prune A = Return P
      /\ filled D = filled P /\ filled D = [Arr (np_unique a)]
      /\ num_bins D = num_bins A.
Proof.
  intros fuel sts bs nb ts te sm A B start a b H Hs H0 Ha Hb Hne Hx.
  destruct (built_create_class _ _ _ _ _ _ _ _ H) as
      (start' & stop & bq & n & Hs' & He & Hbq & Hn & Hm & Hlt & C).
  rewrite Hs in Hs'. injection Hs' as <-.
  destruct (init_returns_inv _ _ _ _ _ _ _ _ H) as
      (a2 & start2 & stop2 & b2 & mx & mn & n2
       & Hs2 & He2 & Hb2 & Hn2 & _ & _ & _ & V & E).
  assert (E1 : start2 = start) by (rewrite E in Hs; simpl in Hs; congruence).
  assert (E2 : stop2 = stop) by (rewrite E in He; simpl in He; congruence).
  assert (E3 : b2 = bq) by (rewrite E in Hbq; simpl in Hbq; congruence).
  assert (E4 : n2 = n) by (rewrite E in Hn; simpl in Hn; congruence).
  subst start2 stop2 b2 n2. clear Hs2 He2 Hb2 Hn2 E.
  apply first_violated_None in V. destruct V as (_ & _ & _ & Hq & H1n).
  rewrite (first_violated_dummy_ok start stop bq n H0 Hlt Hq H1n) in C.
  rewrite (proj2 (Qlt_bool_false_iff (seconds stop) 0)) in C by lra.
  set (nc := new_class_of start stop bq n (matrix_rows A) (Some n)) in *.
  assert (X1 : np_setxor1d a b <> []).
  { intro E. destruct Hx as [x Hx].
    exact (proj2 (np_setxor1d_empty a b) E x Hx). }
  assert (X2 : np_unique a <> []).
  { destruct a as [|y a]; [congruence|].
    intro E. assert (In y (np_unique (y :: a)))
      by (apply np_unique_In; now left).
    rewrite E in H1. contradiction. }
  exists (mkBinned nc [Arr (np_setxor1d a b)]),
         (mkBinned nc [Arr (np_unique a)]),
         (mkBinned A [Arr (np_unique a)]).
  split; [|split; [|split; [|split; [|split]]]].
  - unfold sub. rewrite C. simpl bind. rewrite Ha, Hb, Hm. simpl.
    destruct (np_setxor1d a b); [congruence | reflexivity].
  - assert (K : create_class
                  (t_start (mkBinned nc [Arr (np_setxor1d a b)]))
                  (t_stop (mkBinned nc [Arr (np_setxor1d a b)]))
                  (binsize (mkBinned nc [Arr (np_setxor1d a b)]))
                  (matrix_rows (mkBinned nc [Arr (np_setxor1d a b)]))
                  (matrix_columns (mkBinned nc [Arr (np_setxor1d a b)]))
                = Return nc).
    { rewrite Hs, He, Hbq, Hm in C. exact C. }
    unfold sub. rewrite K. simpl bind. rewrite Hb. simpl.
    rewrite setxor_twice.
    destruct (np_unique a); [congruence | reflexivity].
  - unfold prune. now rewrite Ha.
  - reflexivity.
  - reflexivity.
  - simpl. now rewrite Hn.
Qed.

Lemma difference_twice_restores_pruned_row_witness :
  exists C D,
    sub doctest_x doctest_y = Return C /\ sub C doctest_y = Return D
    /\ filled D = [Arr [0; 1; 3; 4; 5; 6]]%Z.
Proof.
  destruct (difference_twice_restores_pruned_row 0 [train_a]
              (Some (mkQ 1 s)) None (Some (mkQ 0 s)) (Some (mkQ 10 s)) false
              doctest_x doctest_y (mkQ 0 s)
              [0; 0; 1; 3; 4; 5; 6]%Z [0; 0; 1; 2; 4; 5; 8]%Z)
    as (C & D & P & E1 & E2 & _ & _ & F & _); try reflexivity.
  - discriminate.
  - discriminate.
  - exists 2%Z. right. split.
    + simpl. tauto.
    + simpl. intros [K|[K|[K|[K|[K|[K|[K|[]]]]]]]]; discriminate K.
  - exists C, D. repeat split; trivial.
Defined.

End OperatorAlgebra.

(** ** What every built instance satisfies *)

Section BuiltInstances.
Local Open Scope Q_scope.

Lemma py_max_from_spec (l : list Quantity) (m : Quantity) :
  (forall x, In x (m :: l) -> seconds x <= seconds (py_max_from m l))
  /\ In (py_max_from m l) (m :: l).
Proof.
  revert m. induction l as [|y l IH]; intro m; simpl.
  - split; [|now left]. intros x [<-|[]]. apply Qle_refl.
  - destruct (q_gt y m) eqn:E.
    + apply q_gt_iff in E. destruct (IH y) as [G I]. split.
      * intros x [<-|[<-|Hx]].
        -- apply Qle_trans with (seconds y); [lra|]. apply G. now left.
        -- apply G. now left.
        -- apply G. now right.
      * right. exact I.
    + assert (seconds y <= seconds m).
      { apply Qnot_lt_le. intro L. apply q_gt_iff in L. congruence. }
      destruct (IH m) as [G I]. split.
      * intros x [<-|[<-|Hx]].
        -- apply G. now left.
        -- apply Qle_trans with (seconds m); trivial. apply G. now left.
        -- apply G. now right.
      * destruct I as [I|I]; [now left | right; now right].
Qed.

Lemma py_min_from_spec (l : list Quantity) (m : Quantity) :
  (forall x, In x (m :: l) -> seconds (py_min_from m l) <= seconds x)
  /\ In (py_min_from m l) (m :: l).
Proof.
  revert m. induction l as [|y l IH]; intro m; simpl.
  - split; [|now left]. intros x [<-|[]]. apply Qle_refl.
  - destruct (q_lt y m) eqn:E.
    + apply q_lt_iff in E. destruct (IH y) as [G I]. split.
      * intros x [<-|[<-|Hx]].
        -- apply Qle_trans with (seconds y); [|lra]. apply G. now left.
        -- apply G. now left.
        -- apply G. now right.
      * right. exact I.
    + apply q_lt_false_iff in E.
      destruct (IH m) as [G I]. split.
      * intros x [<-|[<-|Hx]].
        -- apply G. now left.
        -- apply Qle_trans with (seconds m); trivial. apply G. now left.
        -- apply G. now right.
      * destruct I as [I|I]; [now left | right; now right].
Qed.

Lemma py_max_ge (l : list Quantity) (mx x : Quantity) :
  py_max l = Return mx -> In x l -> seconds x <= seconds mx.
Proof.
  destruct l as [|m l]; simpl; [discriminate|].
  intros H Hx. injection H as <-. now apply py_max_from_spec.
Qed.

Lemma py_min_le (l : list Quantity) (mn x : Quantity) :
  py_min l = Return mn -> In x l -> seconds mn <= seconds x.
Proof.
  destruct l as [|m l]; simpl; [discriminate|].
  intros H Hx. injection H as <-. now apply py_min_from_spec.
Qed.

(** The steps of a returning constructor. *)
Lemma init_returns_steps (fuel : nat) sts bs nb ts te sm (obj : binned_st) :
  init binned_st_kind fuel sts bs nb ts te sm = Return obj ->
  exists (a1 a2 : attrs) (start stop b mx mn : Quantity) (n : Z),
    calc_start_stop (init_attrs sts bs nb ts te sm) sts = Return a1
    /\ check_init_params a1 bs nb (t_start a1) (t_stop a1) = Return a2
    /\ py_max (map st_t_start sts) = Return mx
    /\ py_min (map st_t_stop sts) = Return mn
    /\ t_start a2 = Some start /\ t_stop a2 = Some stop
    /\ binsize a2 = Some b /\ num_bins a2 = Some n
    /\ ~ magnitude b == 0
    /\ first_violated py_int mx mn start stop b n = None
    /\ obj = mkBinned a2 (map (binned_row start b n) sts).
Proof.
  intro H. pose proof H as H0. unfold init in H0.
  apply bind_Return_inv in H0. destruct H0 as (a1 & H1 & H0).
  apply bind_Return_inv in H0. destruct H0 as (a2 & H2 & H0).
  apply bind_Return_inv in H0. destruct H0 as ([] & H3 & _).
  destruct (calc_start_stop_frame _ _ _ H1) as (F1 & F2 & F3).
  simpl in F1, F2, F3.
  assert (Hc : count_params a2 = true).
  { unfold check_consistency in H3.
    destruct (count_params a2); trivial; discriminate. }
  destruct (check_init_params_all_set a1 a2) as
      (start & stop & b & n & Hs & He & Hb & Hn & Hm); trivial;
    [now rewrite F1, F2 | congruence |].
  unfold check_consistency in H3. rewrite Hc in H3. simpl in H3.
  destruct (py_max (map st_t_start sts)) as [mx| | |] eqn:Hmx;
    try discriminate.
  destruct (py_min (map st_t_stop sts)) as [mn| | |] eqn:Hmn;
    try discriminate.
  simpl in H3. rewrite Hs, He, Hb, Hn in H3.
  assert (Hb0 : ~ magnitude b == 0).
  { intro E. apply Qeq_bool_iff in E.
    unfold int_of_quotient in H3. rewrite E in H3.
    destruct (q_ge mx mn); try discriminate.
    destruct (_ || _); try discriminate.
    destruct (Qeq_bool _ 0); discriminate. }
  exists a1, a2, start, stop, b, mx, mn, n.
  pose proof (init_first_violated fuel sts bs nb ts te sm
                a1 a2 start stop b mx mn n H1 H2 Hc Hs He Hb Hn Hmx Hmn Hb0)
    as V.
  rewrite H in V.
  repeat (split; trivial).
  - destruct (first_violated py_int mx mn start stop b n); trivial.
    discriminate.
  - destruct (first_violated py_int mx mn start stop b n);
      [discriminate | congruence].
Qed.

(** X7.  Every instance the constructor returns has all four parameters
    set, with a positive bin width, [start < stop] and a bin count of at
    least one that equals the column count and is the quotient
    [(stop - start) / bin_width] as the source truncates it; the window
    lies inside the interval of every input train; the input is not empty
    and there is one row per train. *)
Theorem built_instance_invariants :
  forall (fuel : nat) sts bs nb ts te sm (obj : binned_st),
    init binned_st_kind fuel sts bs nb ts te sm = Return obj ->
    exists (start stop b : Quantity) (n : Z),
      t_start obj = Some start /\ t_stop obj = Some stop
      /\ binsize obj = Some b /\ num_bins obj = Some n
      /\ matrix_columns obj = Some n
      /\ matrix_rows obj = Z.of_nat (length sts)
      /\ length (filled obj) = length sts
      /\ sts <> []
      /\ 0 < seconds b /\ seconds start < seconds stop /\ (1 <= n)%Z
      /\ int_of_quotient (magnitude (rescale (q_sub stop start) (units b)))
                         (magnitude b)
         = Return n
      /\ forall elem, In elem sts ->
                      seconds (st_t_start elem) <= seconds start
                      /\ seconds stop <= seconds (st_t_stop elem).
Proof.
  intros fuel sts bs nb ts te sm obj H.
  destruct (init_returns_inv _ _ _ _ _ _ _ _ H) as
      (a2' & start' & stop' & b' & mx' & mn' & n'
       & _ & _ & _ & Hn' & Hm & Hr & _ & _ & E').
  destruct (init_returns_steps _ _ _ _ _ _ _ _ H) as
      (a1 & a2 & start & stop & b & mx & mn & n
       & _ & _ & Hmx & Hmn & Hs & He & Hb & Hn & Hb0 & V & E).
  assert (Ea : a2' = a2) by congruence. subst a2'.
  assert (En : n' = n) by congruence. subst n'.
  apply first_violated_None in V.
  destruct V as (Hlo & Hlt & Hhi & Hq & H1n).
  assert (Bp : 0 < seconds b).
  { apply quotient_ge_1_pos with (x := seconds stop - seconds start).
    - lra.
    - apply py_int_ge_1. now rewrite <- Hq. }
  exists start, stop, b, n. subst obj. simpl.
  rewrite length_map.
  repeat (split; trivial).
  - intro N. subst sts. discriminate Hmx.
  - rewrite (int_of_quotient_seconds _ _ Hb0). f_equal.
    rewrite Hq. apply py_int_comp. now rewrite seconds_q_sub.
  - apply Qle_trans with (seconds mx); trivial.
    apply (py_max_ge _ _ _ Hmx). now apply in_map.
  - apply Qle_trans with (seconds mn); trivial.
    apply (py_min_le _ _ _ Hmn). now apply in_map.
Qed.

Lemma built_instance_invariants_witness :
  exists (start stop b : Quantity) (n : Z),
    t_start doctest_x = Some start /\ t_stop doctest_x = Some stop
    /\ binsize doctest_x = Some b /\ num_bins doctest_x = Some n
    /\ 0 < seconds b /\ (1 <= n)%Z.
Proof.
  destruct (built_instance_invariants 0 [train_a] (Some (mkQ 1 s)) None
              (Some (mkQ 0 s)) (Some (mkQ 10 s)) false doctest_x)
    as (start & stop & b & n & H1 & H2 & H3 & H4 & _ & _ & _ & _
        & H5 & _ & H6 & _).
  - reflexivity.
  - exists start, stop, b, n.
    split; [exact H1|]. split; [exact H2|]. split; [exact H3|].
    split; [exact H4|]. split; [exact H5 | exact H6].
Defined.

(** X8.  With the stop omitted and fewer than three true parameters, the
    window comes from the inputs: the start of a returned instance is the
    latest start of the trains and its stop their earliest stop, whatever
    start the caller gave. *)
Theorem omitted_stop_takes_window_from_inputs :
  forall (fuel : nat) sts bs nb ts sm (obj : binned_st),
    count_params (init_attrs sts bs nb ts None sm) = false ->
    init binned_st_kind fuel sts bs nb ts None sm = Return obj ->
    exists mx mn,
      py_max (map st_t_start sts) = Return mx
      /\ py_min (map st_t_stop sts) = Return mn
      /\ t_start obj = Some mx /\ t_stop obj = Some mn
      /\ (forall elem, In elem sts ->
                       seconds (st_t_start elem) <= seconds mx
                       /\ seconds mn <= seconds (st_t_stop elem))
      /\ In mx (map st_t_start sts) /\ In mn (map st_t_stop sts).
Proof.
  intros fuel sts bs nb ts sm obj Hc H.
  destruct (init_returns_steps _ _ _ _ _ _ _ _ H) as
      (a1 & a2 & start & stop & b & mx & mn & n
       & H1 & H2 & Hmx & Hmn & Hs & He & _ & _ & _ & _ & E).
  exists mx, mn. split; trivial. split; trivial.
  unfold calc_start_stop in H1. rewrite Hc in H1. simpl in H1.
  unfold set_start_stop_from_input in H1. rewrite Hmx, Hmn in H1.
  simpl in H1. injection H1 as <-. simpl in H2.
  assert (F : t_start a2 = Some mx /\ t_stop a2 = Some mn).
  { revert H2. unfold check_init_params. simpl.
    destruct (is_none bs && false && false && is_none nb);
      [discriminate|].
    destruct nb as [k|].
    - destruct bs as [q|].
      + intro K. injection K as <-. auto.
      + destruct (calc_binsize _ _ _); simpl; try discriminate.
        intro K. injection K as <-. auto.
    - destruct (calc_num_bins _ _ _); simpl; try discriminate.
      intro K. injection K as <-. auto. }
  destruct F as [F1 F2]. subst obj. simpl. rewrite F1, F2.
  repeat (split; trivial).
  - apply (py_max_ge _ _ _ Hmx). now apply in_map.
  - apply (py_min_le _ _ _ Hmn). now apply in_map.
  - destruct (map st_t_start sts) as [|m l]; [discriminate|].
    injection Hmx as <-. apply py_max_from_spec.
  - destruct (map st_t_stop sts) as [|m l]; [discriminate|].
    injection Hmn as <-. apply py_min_from_spec.
Qed.

(** The theorem where the caller gives a bin width of 1 s and a start of
    2 s only: the instance starts at 0 s, the start of the train. *)
Lemma omitted_stop_takes_window_from_inputs_witness :
  exists obj,
    binned_st_new [train_a] (Some (mkQ 1 s)) None (Some (mkQ 2 s)) None false
    = Return obj
    /\ t_start obj = Some (mkQ 0 s) /\ t_stop obj = Some (mkQ 10 s).
Proof.
  eexists. split; [vm_compute; reflexivity|].
  destruct (omitted_stop_takes_window_from_inputs 0 [train_a]
              (Some (mkQ 1 s)) None (Some (mkQ 2 s)) false
              (mkBinned
                 (mkAttrs [train_a] (Some (mkQ 0 s)) (Some (mkQ 10 s))
                          (Some 10%Z) (Some (mkQ 1 s)) (Some 10%Z) 1
                          false false None None None)
                 [Arr [0; 0; 1; 3; 4; 5; 6]%Z]))
    as (mx & mn & Hmx & Hmn & Hs & He & _); try reflexivity.
  injection Hmx as <-. injection Hmn as <-. simpl. split; reflexivity.
Defined.

End BuiltInstances.

(** ** Cells of the matrices *)

Section Cells.

Lemma update_nth_length {A} (k : nat) (f : A -> A) (l : list A) :
  length (update_nth k f l) = length l.
Proof.
  revert k. induction l as [|x l IH]; intros [|k]; simpl; trivial.
  now rewrite IH.
Qed.

Lemma update_nth_nth_error {A} (k j : nat) (f : A -> A) (l : list A) :
  nth_error (update_nth k f l) j
  = if (k =? j)%nat then option_map f (nth_error l j) else nth_error l j.
Proof.
  revert k j. induction l as [|x l IH]; intros [|k] [|j]; simpl; trivial.
  now destruct (k =? j)%nat.
Qed.

Lemma update_nth_twice {A} (k : nat) (f g : A -> A) (l : list A) :
  update_nth k f (update_nth k g l) = update_nth k (fun x => f (g x)) l.
Proof.
  revert k. induction l as [|x l IH]; intros [|k]; simpl; trivial.
  now rewrite IH.
Qed.

Lemma update_nth_set {A} (k : nat) (l : list A) (x y : A) (f : A -> A) :
  nth_error l k = Some x -> f x = y ->
  update_nth k f l = update_nth k (fun _ => y) l.
Proof.
  revert k. induction l as [|z l IH]; intros [|k]; simpl; trivial.
  - intros H <-. injection H as ->. reflexivity.
  - intros H E. now rewrite (IH k H E).
Qed.

Lemma update_nth_same {A} (k : nat) (l : list A) (x : A) :
  nth_error l k = Some x -> update_nth k (fun _ => x) l = l.
Proof.
  revert k. induction l as [|z l IH]; intros [|k]; simpl; trivial.
  - intro H. now injection H as ->.
  - intro H. now rewrite IH.
Qed.

Lemma update_nth_middle {A} (pre rest : list A) (x : A) (f : A -> A) :
  update_nth (length pre) f (pre ++ x :: rest) = pre ++ f x :: rest.
Proof. induction pre as [|y pre IH]; simpl; trivial. now rewrite IH. Qed.

Lemma nth_error_middle {A} (pre rest : list A) (x : A) :
  nth_error (pre ++ x :: rest) (length pre) = Some x.
Proof. induction pre as [|y pre IH]; simpl; trivial. Qed.

Lemma norm_index_in_range (n : nat) (i : Z) :
  0 <= i < Z.of_nat n -> norm_index n i = Some (Z.to_nat i).
Proof.
  intro H. unfold norm_index.
  destruct (Z.leb_spec 0 i); [|lia].
  destruct (Z.ltb_spec i (Z.of_nat n)); [|lia].
  reflexivity.
Qed.

Lemma norm_index_outside (n : nat) (i : Z) :
  Z.of_nat n <= i \/ i < - Z.of_nat n -> norm_index n i = None.
Proof.
  intro H. unfold norm_index.
  destruct (Z.leb_spec 0 i), (Z.ltb_spec i (Z.of_nat n)),
    (Z.leb_spec (- Z.of_nat n) i), (Z.ltb_spec i 0); simpl; trivial; lia.
Qed.

Lemma count_row_cons (i : Z) (l : list Z) (c : Z) :
  count_row (i :: l) c = (if i =? c then 1 else 0) + count_row l c.
Proof.
  unfold count_row. simpl.
  destruct (Z.eq_dec i c) as [->|N].
  - rewrite Z.eqb_refl. lia.
  - apply Z.eqb_neq in N. rewrite N. lia.
Qed.

(** The counting loop over one row of indices that lie in the columns:
    every cell grows by the number of occurrences of its column. *)
Lemma incr_cells_counts (l : list Z) (m : matrix) (r : nat) (row : list Z) :
  nth_error m r = Some row ->
  (forall i, In i l -> 0 <= i < Z.of_nat (length row)) ->
  exists row',
    incr_cells m r l = Return (update_nth r (fun _ => row') m)
    /\ length row' = length row
    /\ forall j, nth_error row' j
                 = option_map (fun v => v + count_row l (Z.of_nat j))
                              (nth_error row j).
Proof.
  revert m row. induction l as [|i l IH]; intros m row Hr Hin.
  - exists row. split; [|split]; trivial.
    + simpl. now rewrite update_nth_same.
    + intro j. destruct (nth_error row j); cbn [option_map]; trivial.
      unfold count_row. simpl. f_equal. lia.
  - assert (Hi : 0 <= i < Z.of_nat (length row)) by (apply Hin; now left).
    simpl. unfold incr_cell. rewrite Hr, (norm_index_in_range _ _ Hi).
    simpl.
    set (row1 := update_nth (Z.to_nat i) (fun c => c + 1) row).
    destruct (IH (update_nth r (update_nth (Z.to_nat i) (fun c => c + 1)) m)
                 row1) as (row' & E & L & P).
    + rewrite update_nth_nth_error, Nat.eqb_refl, Hr. reflexivity.
    + intros k Hk. unfold row1. rewrite update_nth_length.
      apply Hin. now right.
    + exists row'. split; [|split].
      * rewrite E, update_nth_twice. reflexivity.
      * rewrite L. apply update_nth_length.
      * intro j. rewrite P. unfold row1.
        rewrite update_nth_nth_error, count_row_cons.
        destruct (Nat.eqb_spec (Z.to_nat i) j) as [<-|N].
        -- rewrite Z2Nat.id by lia. rewrite Z.eqb_refl.
           destruct (nth_error row (Z.to_nat i)); cbn [option_map]; trivial.
           f_equal. lia.
        -- replace (i =? Z.of_nat j) with false
             by (symmetry; apply Z.eqb_neq; lia).
           destruct (nth_error row j); cbn [option_map]; trivial.
Qed.

Lemma arange_nth_error_nat (n : Z) (j : nat) :
  nth_error (arange n) j
  = if (j <? Z.to_nat n)%nat then Some (Z.of_nat j) else None.
Proof.
  unfold arange. rewrite nth_error_map, nth_error_seq.
  destruct (j <? Z.to_nat n)%nat; reflexivity.
Qed.

Lemma nth_error_zero_row (n j : nat) :
  nth_error (repeat 0 n) j = if (j <? n)%nat then Some 0 else None.
Proof.
  destruct (Nat.ltb_spec j n).
  - now apply nth_error_repeat.
  - apply nth_error_None. now rewrite repeat_length.
Qed.

Lemma counts_of_zero_row (l : list Z) (n : Z) (row' : list Z) :
  0 <= n ->
  length row' = Z.to_nat n ->
  (forall j, nth_error row' j
             = option_map (fun v => v + count_row l (Z.of_nat j))
                          (nth_error (repeat 0 (Z.to_nat n)) j)) ->
  row' = map (count_row l) (arange n).
Proof.
  intros Hn L P. apply nth_error_ext. intro j.
  rewrite P, nth_error_zero_row, nth_error_map, arange_nth_error_nat.
  destruct (j <? Z.to_nat n)%nat; cbn [option_map]; trivial.
Qed.

Lemma zero_row_counts (n : Z) :
  map (count_row []) (arange n) = repeat 0 (Z.to_nat n).
Proof.
  apply nth_error_ext. intro j.
  rewrite nth_error_zero_row, nth_error_map, arange_nth_error_nat.
  destruct (j <? Z.to_nat n)%nat; reflexivity.
Qed.

(** The storing loop of [matrix_unclipped] from row [length pre] on. *)
Lemma unclipped_loop_counts (rs : list (list Z)) (n : Z) (pre : matrix) :
  0 <= n -> in_columns rs n ->
  unclipped_loop_stored
    (pre ++ repeat (repeat 0 (Z.to_nat n)) (length rs)) (length pre)
    (map Arr rs)
  = Return (pre ++ counts_matrix rs n).
Proof.
  intro Hn. revert pre. induction rs as [|row rs IH]; intros pre Hin.
  - reflexivity.
  - simpl map. simpl repeat.
    set (zero := repeat 0 (Z.to_nat n)).
    set (m := pre ++ zero :: repeat zero (length rs)).
    assert (Hm : nth_error m (length pre) = Some zero)
      by apply nth_error_middle.
    destruct (incr_cells_counts row m (length pre) _ Hm) as (row' & E & L & P).
    { intros i Hi. unfold zero. rewrite repeat_length, Z2Nat.id by lia.
      apply (Hin row i); [now left | exact Hi]. }
    unfold zero in L. rewrite repeat_length in L.
    pose proof (counts_of_zero_row row n row' Hn L P) as Er.
    assert (Step : unclipped_loop_stored m (length pre)
                     (Arr row :: map Arr rs)
                   = unclipped_loop_stored
                       (pre ++ row' :: repeat zero (length rs))
                       (S (length pre)) (map Arr rs)).
    { destruct row as [|i row].
      - change (unclipped_loop_stored m (length pre)
                  (Arr [] :: map Arr rs))
          with (unclipped_loop_stored m (S (length pre)) (map Arr rs)).
        unfold m. rewrite Er, zero_row_counts. reflexivity.
      - change (unclipped_loop_stored m (length pre)
                  (Arr (i :: row) :: map Arr rs))
          with (m' <- incr_cells m (length pre) (i :: row) ;;
                unclipped_loop_stored m' (S (length pre)) (map Arr rs)).
        rewrite E. unfold m. rewrite update_nth_middle. reflexivity. }
    rewrite Step.
    replace (S (length pre)) with (length (pre ++ [row']))
      by (rewrite length_app; simpl; lia).
    replace (pre ++ row' :: repeat zero (length rs))
      with ((pre ++ [row']) ++ repeat zero (length rs))
      by (rewrite <- app_assoc; reflexivity).
    unfold zero. rewrite IH.
    + rewrite <- app_assoc. simpl. now rewrite Er.
    + intros r i Hr Hi. apply (Hin r i); [now right | exact Hi].
Qed.

Lemma norm_indices_in_range (n : nat) (l : list Z) :
  (forall i, In i l -> 0 <= i < Z.of_nat n) ->
  norm_indices n l = Some (map Z.to_nat l).
Proof.
  induction l as [|i l IH]; intro H; simpl; trivial.
  rewrite norm_index_in_range by (apply H; now left).
  rewrite IH; trivial. intros k Hk. apply H. now right.
Qed.

Lemma set_ones_nth_error (js : list nat) (row : list Z) (j : nat) :
  nth_error (fold_left (fun acc k => update_nth k (fun _ => 1) acc) js row) j
  = if existsb (Nat.eqb j) js then option_map (fun _ => 1) (nth_error row j)
    else nth_error row j.
Proof.
  revert row. induction js as [|k js IH]; intro row; simpl; trivial.
  rewrite IH, update_nth_nth_error, (Nat.eqb_sym j k).
  destruct (k =? j)%nat, (existsb (Nat.eqb j) js); simpl; trivial;
    destruct (nth_error row j); reflexivity.
Qed.

Lemma mem_to_nat (l : list Z) (j : nat) :
  (forall i, In i l -> 0 <= i) ->
  existsb (Nat.eqb j) (map Z.to_nat l) = mem (Z.of_nat j) l.
Proof.
  intro H. induction l as [|i l IH]; simpl; trivial.
  rewrite IH by (intros k Hk; apply H; now right).
  f_equal.
  assert (0 <= i) by (apply H; now left).
  destruct (Nat.eqb_spec j (Z.to_nat i)), (Z.eqb_spec (Z.of_nat j) i);
    trivial; lia.
Qed.

Lemma ones_of_zero_row (l : list Z) (n : Z) :
  (forall i, In i l -> 0 <= i) ->
  fold_left (fun acc k => update_nth k (fun _ => 1) acc) (map Z.to_nat l)
            (repeat 0 (Z.to_nat n))
  = map (fun c => if mem c l then 1 else 0) (arange n).
Proof.
  intro H. apply nth_error_ext. intro j.
  rewrite set_ones_nth_error, nth_error_zero_row, nth_error_map,
    arange_nth_error_nat, (mem_to_nat l j H).
  destruct (j <? Z.to_nat n)%nat; cbn [option_map];
    destruct (mem (Z.of_nat j) l); reflexivity.
Qed.

(** The on-demand loop of [matrix_clipped] from row [length pre] on. *)
Lemma clipped_loop_occupancy (rs : list (list Z)) (n : Z) (pre : matrix) :
  0 <= n -> in_columns rs n ->
  clipped_loop (pre ++ repeat (repeat 0 (Z.to_nat n)) (length rs))
               (length pre) (map Arr rs)
  = Return (pre ++ occupancy_matrix rs n).
Proof.
  intro Hn. revert pre. induction rs as [|row rs IH]; intros pre Hin.
  - reflexivity.
  - simpl map. simpl repeat.
    set (zero := repeat 0 (Z.to_nat n)).
    set (m := pre ++ zero :: repeat zero (length rs)).
    set (row' := map (fun c => if mem c row then 1 else 0) (arange n)).
    assert (Hrow : forall i, In i row -> 0 <= i < n)
      by (intros i Hi; apply (Hin row i); [now left | exact Hi]).
    assert (Step : clipped_loop m (length pre) (Arr row :: map Arr rs)
                   = clipped_loop (pre ++ row' :: repeat zero (length rs))
                                  (S (length pre)) (map Arr rs)).
    { destruct row as [|i row].
      - change (clipped_loop m (length pre) (Arr [] :: map Arr rs))
          with (clipped_loop m (S (length pre)) (map Arr rs)).
        unfold m, row'. f_equal. f_equal. f_equal.
        rewrite <- (ones_of_zero_row [] n) by (intros k []).
        reflexivity.
      - change (clipped_loop m (length pre) (Arr (i :: row) :: map Arr rs))
          with (m' <- assign_ones m (length pre) (Arr (i :: row)) ;;
                clipped_loop m' (S (length pre)) (map Arr rs)).
        unfold assign_ones, m. rewrite nth_error_middle.
        subst zero. rewrite repeat_length.
        rewrite norm_indices_in_range
          by (intros k Hk; rewrite Z2Nat.id by lia; now apply Hrow).
        rewrite update_nth_middle.
        rewrite ones_of_zero_row
          by (intros k Hk; apply (Hrow k Hk)).
        reflexivity. }
    rewrite Step.
    replace (S (length pre)) with (length (pre ++ [row']))
      by (rewrite length_app; simpl; lia).
    replace (pre ++ row' :: repeat zero (length rs))
      with ((pre ++ [row']) ++ repeat zero (length rs))
      by (rewrite <- app_assoc; reflexivity).
    subst zero. rewrite IH.
    + rewrite <- app_assoc. reflexivity.
    + intros r i Hr Hi. apply (Hin r i); [now right | exact Hi].
Qed.

Lemma np_zeros_rows (k : nat) (n : Z) :
  0 <= n ->
  np_zeros (Z.of_nat k) (Some n)
  = Return (repeat (repeat 0 (Z.to_nat n)) k).
Proof.
  intro H. unfold np_zeros.
  destruct (Z.ltb_spec (Z.of_nat k) 0); [lia|].
  destruct (Z.ltb_spec n 0); [lia|].
  simpl. now rewrite Nat2Z.id.
Qed.

(** X9.  On an instance with no stored matrix whose rows are index
    arrays with all indices in [[0, matrix_columns)] and whose row count
    is the number of rows, [matrix_unclipped] returns, under either
    policy, the rows x columns matrix whose cell is the number of
    occurrences of the column in the row; [matrix_clipped] computed on
    demand returns the matrix with 1 where the row contains the column
    and 0 elsewhere. *)
Theorem matrices_of_rows_in_columns :
  forall (self : binned_st) (rs : list (list Z)) (n : Z),
    filled self = map Arr rs ->
    matrix_columns self = Some n -> 0 <= n ->
    matrix_rows self = Z.of_nat (length rs) ->
    in_columns rs n ->
    (mat_u self = None ->
     forall store : bool,
       returned (matrix_unclipped self (Some store))
       = Return (Some (counts_matrix rs n)))
    /\ (mat_c self = None ->
        returned (matrix_clipped self (Some false))
        = Return (Some (occupancy_matrix rs n)))
    /\ length (counts_matrix rs n) = length rs
    /\ (forall row, In row (counts_matrix rs n) ->
                    length row = Z.to_nat n).
Proof.
  intros self rs n Hf Hc Hn Hr Hin.
  split; [|split; [|split]].
  - intros Hu store. unfold returned, matrix_unclipped. simpl.
    rewrite Hu, Hc, Hr, Hf, (np_zeros_rows _ _ Hn).
    pose proof (unclipped_loop_counts rs n [] Hn Hin) as L. simpl in L.
    destruct store; simpl bind.
    + rewrite L. reflexivity.
    + rewrite <- unclipped_loops_agree, L. reflexivity.
  - intros Hu. unfold returned, matrix_clipped. simpl.
    rewrite Hu, Hc, Hr, Hf, (np_zeros_rows _ _ Hn).
    pose proof (clipped_loop_occupancy rs n [] Hn Hin) as L. simpl in L.
    simpl bind. rewrite L. reflexivity.
  - apply length_map.
  - intros row Hrow. unfold counts_matrix in Hrow.
    apply in_map_iff in Hrow. destruct Hrow as (r & <- & _).
    now rewrite length_map, arange_length.
Qed.

(** The theorem at the doctest of [matrix_unclipped] and
    [matrix_clipped]. *)
Lemma matrices_of_rows_in_columns_witness :
  returned (matrix_unclipped doctest_x (Some true))
  = Return (Some [[2; 1; 0; 1; 1; 1; 1; 0; 0; 0]])
  /\ returned (matrix_clipped doctest_x (Some false))
     = Return (Some [[1; 1; 0; 1; 1; 1; 1; 0; 0; 0]]).
Proof.
  destruct (matrices_of_rows_in_columns doctest_x [[0; 0; 1; 3; 4; 5; 6]] 10)
    as (U & C & _); try reflexivity.
  - lia.
  - intros row i [<-|[]] Hi. simpl in Hi.
    repeat (destruct Hi as [<-|Hi]; [lia|]). destruct Hi.
  - split; [apply (U eq_refl true) | apply (C eq_refl)].
Defined.

(** *** Indices outside the columns *)

Lemma has_shape_update (m : matrix) (R n r : nat) (f : list Z -> list Z) :
  has_shape m R n -> (forall row, length (f row) = length row) ->
  has_shape (update_nth r f m) R n.
Proof.
  intros [L F] Hf. split; [now rewrite update_nth_length|].
  clear L. revert r. induction F as [|row m Hrow F IH]; intros [|r]; simpl;
    constructor; trivial; try apply IH.
  now rewrite Hf.
Qed.

Lemma has_shape_row (m : matrix) (R n r : nat) :
  has_shape m R n -> (r < R)%nat ->
  exists row, nth_error m r = Some row /\ length row = n.
Proof.
  intros [L F] Hr.
  destruct (nth_error m r) as [row|] eqn:E.
  - exists row. split; trivial.
    rewrite Forall_forall in F. apply F. eapply nth_error_In; eauto.
  - apply nth_error_None in E. lia.
Qed.

Lemma set_ones_length (js : list nat) (row : list Z) :
  length (fold_left (fun acc k => update_nth k (fun _ => 1) acc) js row)
  = length row.
Proof.
  revert row. induction js as [|k js IH]; intro row; simpl; trivial.
  now rewrite IH, update_nth_length.
Qed.

Lemma norm_index_Some_iff (n : nat) (i : Z) :
  (exists j, norm_index n i = Some j) <-> ~ outside_axis (Z.of_nat n) i.
Proof.
  unfold norm_index, outside_axis.
  destruct (Z.leb_spec 0 i) as [A|A], (Z.ltb_spec i (Z.of_nat n)) as [B|B],
    (Z.leb_spec (- Z.of_nat n) i) as [C|C], (Z.ltb_spec i 0) as [D|D]; simpl;
    split; intro X; try lia; try (eexists; reflexivity);
    try (destruct X as [j X]; discriminate X); exfalso; apply X; lia.
Qed.

Lemma norm_indices_Some_iff (n : nat) (l : list Z) :
  (exists js, norm_indices n l = Some js)
  <-> forall i, In i l -> ~ outside_axis (Z.of_nat n) i.
Proof.
  induction l as [|i l IH]; simpl.
  - split; [intros _ k [] | intros _; now eexists].
  - split.
    + intros [js H] k [<-|Hk].
      * apply norm_index_Some_iff.
        destruct (norm_index n i); [now eexists | discriminate].
      * apply (proj1 IH); trivial.
        destruct (norm_index n i); [|discriminate].
        destruct (norm_indices n l); [now eexists | discriminate].
    + intro H.
      destruct (proj2 (norm_index_Some_iff n i) (H i (or_introl eq_refl)))
        as [j ->].
      destruct (proj2 IH (fun k Hk => H k (or_intror Hk))) as [js ->].
      now eexists.
Qed.

(** One assignment of [matrix_clipped]: it keeps the shape, or raises the
    [IndexError] when an index is outside the columns. *)
Lemma assign_ones_cases (m : matrix) (R n r : nat) (l : list Z) :
  has_shape m R n -> (r < R)%nat ->
  match assign_ones m r (Arr l) with
  | Return m' =>
      has_shape m' R n
      /\ forall i, In i l -> ~ outside_axis (Z.of_nat n) i
  | Raise e =>
      e = IndexError_inconsistent_size
      /\ exists i, In i l /\ outside_axis (Z.of_nat n) i
  | _ => False
  end.
Proof.
  intros Hs Hr. destruct (has_shape_row m R n r Hs Hr) as (row & E & L).
  unfold assign_ones. rewrite E, L.
  destruct (norm_indices n l) as [js|] eqn:N.
  - split.
    + apply has_shape_update; trivial. intro. apply set_ones_length.
    + apply norm_indices_Some_iff. now exists js.
  - split; trivial.
    clear - N. induction l as [|i l IH]; simpl in N; [discriminate|].
    destruct (norm_index n i) eqn:Ni.
    + destruct (norm_indices n l); [discriminate|].
      destruct (IH eq_refl) as (k & Hk & O). exists k. split; [now right|].
      exact O.
    + exists i. split; [now left|].
      unfold outside_axis.
      destruct (Z_le_gt_dec (Z.of_nat n) i); [now left|].
      destruct (Z_lt_ge_dec i (- Z.of_nat n)); [now right|].
      exfalso.
      destruct (proj2 (norm_index_Some_iff n i)) as [j Hj].
      * unfold outside_axis. lia.
      * congruence.
Qed.

Lemma incr_cells_cases (l : list Z) (m : matrix) (R n r : nat) :
  has_shape m R n -> (r < R)%nat ->
  match incr_cells m r l with
  | Return m' =>
      has_shape m' R n
      /\ forall i, In i l -> ~ outside_axis (Z.of_nat n) i
  | Raise e =>
      e = IndexError_inconsistent_size
      /\ exists i, In i l /\ outside_axis (Z.of_nat n) i
  | _ => False
  end.
Proof.
  revert m. induction l as [|i l IH]; intros m Hs Hr; simpl.
  - split; trivial. intros k [].
  - destruct (has_shape_row m R n r Hs Hr) as (row & E & L).
    unfold incr_cell. rewrite E, L.
    destruct (norm_index n i) as [j|] eqn:Ni; simpl.
    + assert (Hi : ~ outside_axis (Z.of_nat n) i)
        by (apply norm_index_Some_iff; now exists j).
      assert (Hs' : has_shape
                      (update_nth r (update_nth j (fun c => c + 1)) m) R n).
      { apply has_shape_update; trivial. intro. apply update_nth_length. }
      specialize (IH _ Hs' Hr).
      destruct (incr_cells _ r l); trivial.
      * destruct IH as [S P]. split; trivial.
        intros k [<-|Hk]; auto.
      * destruct IH as [-> (k & Hk & O)]. split; trivial.
        exists k. split; [now right | exact O].
    + split; trivial. exists i. split; [now left|].
      unfold outside_axis.
      destruct (Z_le_gt_dec (Z.of_nat n) i); [now left|].
      destruct (Z_lt_ge_dec i (- Z.of_nat n)); [now right|].
      exfalso.
      destruct (proj2 (norm_index_Some_iff n i)) as [j Hj].
      * unfold outside_axis. lia.
      * congruence.
Qed.

Lemma clipped_loop_cases (rs : list (list Z)) (m : matrix) (R n idx : nat) :
  has_shape m R n -> (idx + length rs = R)%nat ->
  match clipped_loop m idx (map Arr rs) with
  | Return m' =>
      has_shape m' R n
      /\ forall row i, In row rs -> In i row ->
                       ~ outside_axis (Z.of_nat n) i
  | Raise e =>
      e = IndexError_inconsistent_size
      /\ exists row i, In row rs /\ In i row /\ outside_axis (Z.of_nat n) i
  | _ => False
  end.
Proof.
  revert m idx. induction rs as [|row rs IH]; intros m idx Hs Hl.
  - simpl. split; trivial. intros row i [].
  - simpl map. simpl in Hl.
    assert (Hr : (idx < R)%nat) by lia.
    pose proof (assign_ones_cases m R n idx row Hs Hr) as A.
    destruct row as [|i0 row].
    + change (clipped_loop m idx (Arr [] :: map Arr rs))
        with (clipped_loop m (S idx) (map Arr rs)).
      specialize (IH m (S idx) Hs ltac:(lia)).
      destruct (clipped_loop m (S idx) (map Arr rs)); trivial.
      * destruct IH as [S P]. split; trivial.
        intros r i [<-|Hrow] Hi; [destruct Hi | eauto].
      * destruct IH as [-> (r & i & Hr' & Hi & O)]. split; trivial.
        exists r, i. split; [now right | now split].
    + change (clipped_loop m idx (Arr (i0 :: row) :: map Arr rs))
        with (m' <- assign_ones m idx (Arr (i0 :: row)) ;;
              clipped_loop m' (S idx) (map Arr rs)).
      destruct (assign_ones m idx (Arr (i0 :: row))) as [m'| | |];
        simpl bind; trivial.
      * destruct A as [Hs' P].
        specialize (IH m' (S idx) Hs' ltac:(lia)).
        destruct (clipped_loop m' (S idx) (map Arr rs)); trivial.
        -- destruct IH as [S Q]. split; trivial.
           intros r i [<-|Hrow] Hi; eauto.
        -- destruct IH as [-> (r & i & Hr' & Hi & O)]. split; trivial.
           exists r, i. split; [now right | now split].
      * destruct A as [-> (i & Hi & O)]. split; trivial.
        exists (i0 :: row), i. split; [now left | now split].
Qed.

Lemma unclipped_loop_cases (rs : list (list Z)) (m : matrix) (R n idx : nat) :
  has_shape m R n -> (idx + length rs = R)%nat ->
  match unclipped_loop_stored m idx (map Arr rs) with
  | Return m' =>
      has_shape m' R n
      /\ forall row i, In row rs -> In i row ->
                       ~ outside_axis (Z.of_nat n) i
  | Raise e =>
      e = IndexError_inconsistent_size
      /\ exists row i, In row rs /\ In i row /\ outside_axis (Z.of_nat n) i
  | _ => False
  end.
Proof.
  revert m idx. induction rs as [|row rs IH]; intros m idx Hs Hl.
  - simpl. split; trivial. intros row i [].
  - simpl map. simpl in Hl.
    assert (Hr : (idx < R)%nat) by lia.
    pose proof (incr_cells_cases row m R n idx Hs Hr) as A.
    destruct row as [|i0 row].
    + change (unclipped_loop_stored m idx (Arr [] :: map Arr rs))
        with (unclipped_loop_stored m (S idx) (map Arr rs)).
      specialize (IH m (S idx) Hs ltac:(lia)).
      destruct (unclipped_loop_stored m (S idx) (map Arr rs)); trivial.
      * destruct IH as [S P]. split; trivial.
        intros r i [<-|Hrow] Hi; [destruct Hi | eauto].
      * destruct IH as [-> (r & i & Hr' & Hi & O)]. split; trivial.
        exists r, i. split; [now right | now split].
    + change (unclipped_loop_stored m idx (Arr (i0 :: row) :: map Arr rs))
        with (m' <- incr_cells m idx (i0 :: row) ;;
              unclipped_loop_stored m' (S idx) (map Arr rs)).
      destruct (incr_cells m idx (i0 :: row)) as [m'| | |];
        simpl bind; trivial.
      * destruct A as [Hs' P].
        specialize (IH m' (S idx) Hs' ltac:(lia)).
        destruct (unclipped_loop_stored m' (S idx) (map Arr rs)); trivial.
        -- destruct IH as [S Q]. split; trivial.
           intros r i [<-|Hrow] Hi; eauto.
        -- destruct IH as [-> (r & i & Hr' & Hi & O)]. split; trivial.
           exists r, i. split; [now right | now split].
      * destruct A as [-> (i & Hi & O)]. split; trivial.
        exists (i0 :: row), i. split; [now left | now split].
Qed.

Lemma zeros_shape (k : nat) (n : Z) :
  has_shape (repeat (repeat 0 (Z.to_nat n)) k) k (Z.to_nat n).
Proof.
  split; [apply repeat_length|].
  apply Forall_forall. intros row H. apply repeat_spec in H. subst.
  apply repeat_length.
Qed.

(** X10.  The indices a matrix accepts, on an instance with no stored
    matrix whose rows are index arrays.  When some row holds an index
    [i >= matrix_columns] or [i < - matrix_columns], [matrix_clipped] on
    demand and [matrix_unclipped] under either policy raise the
    [IndexError] of the source.  When every index lies in
    [[- matrix_columns, matrix_columns)], negative ones included, they
    return a matrix with one row per row of [filled] and
    [matrix_columns] columns: a negative index is not an error. *)
Theorem index_outside_columns_raises :
  forall (self : binned_st) (rs : list (list Z)) (n : Z),
    filled self = map Arr rs ->
    matrix_columns self = Some n -> 0 <= n ->
    matrix_rows self = Z.of_nat (length rs) ->
    mat_c self = None -> mat_u self = None ->
    ((exists row i, In row rs /\ In i row /\ outside_axis n i) ->
     matrix_clipped self (Some false) = Raise IndexError_inconsistent_size
     /\ forall store : bool,
          matrix_unclipped self (Some store)
          = Raise IndexError_inconsistent_size)
    /\ ((forall row i, In row rs -> In i row -> - n <= i < n) ->
        (exists m,
            returned (matrix_clipped self (Some false)) = Return (Some m)
            /\ has_shape m (length rs) (Z.to_nat n))
        /\ forall store : bool,
            exists m,
              returned (matrix_unclipped self (Some store))
              = Return (Some m)
              /\ has_shape m (length rs) (Z.to_nat n)).
Proof.
  intros self rs n Hf Hc Hn Hr Hmc Hmu.
  pose proof (clipped_loop_cases rs _ (length rs) (Z.to_nat n) 0
                (zeros_shape (length rs) n) eq_refl) as Lc.
  pose proof (unclipped_loop_cases rs _ (length rs) (Z.to_nat n) 0
                (zeros_shape (length rs) n) eq_refl) as Lu.
  rewrite Z2Nat.id in Lc, Lu by trivial.
  split.
  - intros (row & i & Hrow & Hi & O). split.
    + unfold matrix_clipped. simpl.
      rewrite Hmc, Hc, Hr, Hf, (np_zeros_rows _ _ Hn). simpl bind.
      destruct (clipped_loop _ 0 (map Arr rs)); simpl; try tauto.
      * exfalso. destruct Lc as [_ P]. exact (P row i Hrow Hi O).
      * destruct Lc as [-> _]. reflexivity.
    + intro store.
      assert (E : unclipped_loop_stored
                    (repeat (repeat 0 (Z.to_nat n)) (length rs)) 0
                    (map Arr rs)
                  = Raise IndexError_inconsistent_size).
      { destruct (unclipped_loop_stored _ 0 (map Arr rs)); try tauto.
        - exfalso. destruct Lu as [_ P]. exact (P row i Hrow Hi O).
        - destruct Lu as [-> _]. reflexivity. }
      unfold matrix_unclipped. simpl.
      rewrite Hmu, Hc, Hr, Hf, (np_zeros_rows _ _ Hn).
      destruct store; simpl bind.
      * now rewrite E.
      * now rewrite <- unclipped_loops_agree, E.
  - intro Hin.
    assert (No : forall row i, In row rs -> In i row -> ~ outside_axis n i).
    { intros row i Hrow Hi [O|O]; specialize (Hin row i Hrow Hi); lia. }
    split.
    + unfold returned, matrix_clipped. simpl.
      rewrite Hmc, Hc, Hr, Hf, (np_zeros_rows _ _ Hn). simpl bind.
      destruct (clipped_loop _ 0 (map Arr rs)) as [m| | |]; simpl;
        try tauto.
      * exists m. split; [reflexivity | apply Lc].
      * exfalso. destruct Lc as [_ (row & i & Hrow & Hi & O)].
        exact (No row i Hrow Hi O).
    + intro store.
      assert (E : exists m,
                 unclipped_loop_stored
                   (repeat (repeat 0 (Z.to_nat n)) (length rs)) 0
                   (map Arr rs) = Return m
                 /\ has_shape m (length rs) (Z.to_nat n)).
      { destruct (unclipped_loop_stored _ 0 (map Arr rs)) as [m| | |];
          try tauto.
        - exists m. split; [reflexivity | apply Lu].
        - exfalso. destruct Lu as [_ (row & i & Hrow & Hi & O)].
          exact (No row i Hrow Hi O). }
      destruct E as (m & E & S). exists m. split; trivial.
      unfold returned, matrix_unclipped. simpl.
      rewrite Hmu, Hc, Hr, Hf, (np_zeros_rows _ _ Hn).
      destruct store; simpl bind.
      * now rewrite E.
      * now rewrite <- unclipped_loops_agree, E.
Qed.

(** The theorem at [train_a] binned from 8 s on (the spike at 0.5 s has
    the index -7, and there are two columns) and binned from 3 s on (the
    indices -2, -2 and -1 are wrapped into the seven columns). *)
Lemma index_outside_columns_raises_witness :
  (binned_st_new [train_a] (Some (mkQ 1 s)) None (Some (mkQ 8 s))
                 (Some (mkQ 10 s)) false = Return late_start_instance
   /\ matrix_clipped late_start_instance (Some false)
      = Raise IndexError_inconsistent_size)
  /\ (binned_st_new [train_a] (Some (mkQ 1 s)) None (Some (mkQ 3 s))
                    (Some (mkQ 10 s)) false = Return start_inside_instance
      /\ exists m,
           returned (matrix_unclipped start_inside_instance (Some false))
           = Return (Some m)
           /\ has_shape m 1 7).
Proof.
  split.
  - split; [vm_compute; reflexivity|].
    destruct (index_outside_columns_raises late_start_instance
                [[-7; -7; -6; -4; -3; -2; -1]] 2
                eq_refl eq_refl ltac:(lia) eq_refl eq_refl eq_refl)
      as (K & _).
    apply K. exists [-7; -7; -6; -4; -3; -2; -1], (-7).
    split; [now left|]. split; [now left|]. right. lia.
  - split; [vm_compute; reflexivity|].
    destruct (index_outside_columns_raises start_inside_instance
                [[-2; -2; -1; 0; 1; 2; 3]] 7
                eq_refl eq_refl ltac:(lia) eq_refl eq_refl eq_refl)
      as (_ & K).
    destruct K as (_ & K).
    + intros row i [<-|[]] Hi. simpl in Hi.
      repeat (destruct Hi as [<-|Hi]; [lia|]). destruct Hi.
    + apply (K false).
Defined.

End Cells.

(** ** [transactions] *)

Section TransactionLists.
Local Open Scope Q_scope.







Lemma extremes_of_trains (trains : list SpikeTrain) (mx : Quantity) :
  py_max (map st_t_start trains) = Return mx ->
  (exists v, py_min (map st_t_start trains) = Return v)
  /\ (exists v, py_max (map st_t_stop trains) = Return v)
  /\ (exists v, py_min (map st_t_stop trains) = Return v).
Proof.
  destruct trains as [|st rest]; [discriminate|]. intros _. simpl.
  repeat split; eexists; reflexivity.
Qed.



(** X15.  The errors of [transactions] on spike trains.  An empty list of
    trains fails in [max] with the [ValueError] of an empty sequence.  A
    given start before the latest start of the trains raises the
    [ValueError] on the start, whatever the stop; with an admissible start,
    a given stop after the earliest stop of the trains raises the
    [ValueError] on the stop.  Neither needs the functions of
    [elephant.conditions]. *)
Theorem transactions_rejects_window_outside_trains :
  forall (same_tstart same_tstop : list SpikeTrain -> result Quantity)
         (b : Quantity) (ids : list Z),
    (forall t_start_ t_stop_,
        transactions same_tstart same_tstop (Trains []) b t_start_ t_stop_
                     ids
        = Error (Raised ValueError_empty_sequence))
    /\ forall (trains : list SpikeTrain) (ts mx mn : Quantity),
        py_max (map st_t_start trains) = Return mx ->
        py_min (map st_t_stop trains) = Return mn ->
        (seconds ts < seconds mx ->
         forall t_stop_,
           transactions same_tstart same_tstop (Trains trains) b (Some ts)
                        t_stop_ ids
           = Error ValueError_larger_t_start)
        /\ (seconds mx <= seconds ts ->
            forall te,
              seconds mn < seconds te ->
              transactions same_tstart same_tstop (Trains trains) b
                           (Some ts) (Some te) ids
              = Error ValueError_smaller_t_stop).
Proof.
  intros sst sstop b ids. split; [reflexivity|].
  intros trains ts mx mn Hmx Hmn.
  destruct (extremes_of_trains _ _ Hmx) as ((v1 & E1) & (v2 & E2) & _).
  split.
  - intros Hlt t_stop_. unfold transactions. cbn [fst snd].
    rewrite Hmx, Hmn, E1, E2. cbn [of_outcome result_bind].
    now rewrite (proj2 (q_lt_iff ts mx)) by trivial.
  - intros Hge te Hgt. unfold transactions. cbn [fst snd].
    rewrite Hmx, Hmn, E1, E2. cbn [of_outcome result_bind].
    rewrite (proj2 (q_lt_false_iff ts mx)) by trivial.
    rewrite q_gt_seconds.
    now rewrite (proj2 (Qlt_bool_iff (seconds mn) (seconds te))) by trivial.
Qed.

(** The theorem at [train_a], defined on [0 s, 10 s]: a window that
    starts at -1 s, and one that stops at 11 s. *)
Lemma transactions_rejects_window_outside_trains_witness :
  transactions (fun _ => Unfollowed) (fun _ => Unfollowed)
               (Trains [train_a]) (mkQ 1 s) (Some (mkQ (-1) s)) None []
  = Error ValueError_larger_t_start
  /\ transactions (fun _ => Unfollowed) (fun _ => Unfollowed)
                  (Trains [train_a]) (mkQ 1 s) (Some (mkQ 0 s))
                  (Some (mkQ 11 s)) []
     = Error ValueError_smaller_t_stop.
Proof.
  destruct (transactions_rejects_window_outside_trains
              (fun _ => Unfollowed) (fun _ => Unfollowed) (mkQ 1 s) [])
    as (_ & H).
  split.
  - destruct (H [train_a] (mkQ (-1) s) (mkQ 0 s) (mkQ 10 s)
                eq_refl eq_refl) as (K & _).
    apply K. reflexivity.
  - destruct (H [train_a] (mkQ 0 s) (mkQ 0 s) (mkQ 10 s)
                eq_refl eq_refl) as (_ & K).
    apply K; [discriminate | reflexivity].
Defined.

End TransactionLists.

(** ** [gdf] *)

Section GdfRows.
Local Open Scope Q_scope.

Lemma insert_by_time_In (r x : Z * Q) (l : list (Z * Q)) :
  In x (insert_by_time r l) <-> x = r \/ In x l.
Proof.
  induction l as [|r' l IH]; simpl.
  - intuition.
  - destruct (Qle_bool (snd r) (snd r')); simpl.
    + intuition.
    + rewrite IH. intuition.
Qed.

Lemma sort_by_time_In (x : Z * Q) (l : list (Z * Q)) :
  In x (sort_by_time l) <-> In x l.
Proof.
  unfold sort_by_time. induction l as [|r l IH]; simpl; [tauto|].
  rewrite insert_by_time_In, IH. intuition.
Qed.

Lemma insert_by_time_length (r : Z * Q) (l : list (Z * Q)) :
  length (insert_by_time r l) = S (length l).
Proof.
  induction l as [|r' l IH]; simpl; trivial.
  destruct (Qle_bool (snd r) (snd r')); simpl; [trivial | now rewrite IH].
Qed.

Lemma sort_by_time_length (l : list (Z * Q)) :
  length (sort_by_time l) = length l.
Proof.
  unfold sort_by_time. induction l as [|r l IH]; simpl; trivial.
  now rewrite insert_by_time_length, IH.
Qed.

Lemma insert_by_time_sorted (r : Z * Q) (l : list (Z * Q)) :
  StronglySorted (fun a b => snd a <= snd b) l ->
  StronglySorted (fun a b => snd a <= snd b) (insert_by_time r l).
Proof.
  intro S. induction S as [|r' l S IH F]; simpl.
  - constructor; constructor.
  - destruct (Qle_bool (snd r) (snd r')) eqn:E.
    + apply Qle_bool_iff in E.
      constructor; [now constructor|].
      constructor; trivial.
      rewrite Forall_forall in F |- *. intros x Hx.
      apply Qle_trans with (snd r'); auto.
    + apply Qle_bool_false_iff in E.
      constructor; trivial.
      rewrite Forall_forall in F |- *. intros x Hx.
      apply insert_by_time_In in Hx. destruct Hx as [->|Hx]; auto.
      now apply Qlt_le_weak.
Qed.

Lemma sort_by_time_sorted (l : list (Z * Q)) :
  StronglySorted (fun a b => snd a <= snd b) (sort_by_time l).
Proof.
  unfold sort_by_time. induction l as [|r l IH]; simpl; [constructor|].
  now apply insert_by_time_sorted.
Qed.

Lemma unit_lt_iff (a b : Unit) :
  q_lt (mkQ 1 a) (mkQ 1 b) = true <-> to_s a < to_s b.
Proof.
  rewrite q_lt_iff. unfold seconds. simpl. rewrite !Qmult_1_l. tauto.
Qed.

Lemma smallest_unit_spec (sts : list SpikeTrain) (u0 : Unit) :
  (smallest_unit u0 sts = u0
   \/ exists st, In st sts /\ smallest_unit u0 sts = st_units st)
  /\ to_s (smallest_unit u0 sts) <= to_s u0
  /\ forall st, In st sts -> to_s (smallest_unit u0 sts) <= to_s (st_units st).
Proof.
  revert u0. induction sts as [|st sts IH]; intro u0; simpl.
  - split; [now left|]. split; [apply Qle_refl | tauto].
  - destruct (q_lt (mkQ 1 (st_units st)) (mkQ 1 u0)) eqn:E.
    + apply unit_lt_iff in E.
      destruct (IH (st_units st)) as (I & L & A).
      split; [|split].
      * right. destruct I as [I|(st' & H1 & H2)].
        -- exists st. auto.
        -- exists st'. auto.
      * lra.
      * intros st' [<-|H]; auto.
    + assert (G : to_s u0 <= to_s (st_units st)).
      { apply Qnot_lt_le. intro L. apply unit_lt_iff in L. congruence. }
      destruct (IH u0) as (I & L & A).
      split; [|split]; trivial.
      * destruct I as [I|(st' & H1 & H2)]; [now left|].
        right. exists st'. auto.
      * intros st' [<-|H]; auto. lra.
Qed.

Lemma In_combine_nth {A B} (l : list A) (l' : list B) (a : A) (b : B) :
  In (a, b) (combine l l')
  <-> exists j, nth_error l j = Some a /\ nth_error l' j = Some b.
Proof.
  revert l'. induction l as [|x l IH]; intros [|y l']; simpl.
  - split; [tauto|]. intros ([|j] & H & _); discriminate.
  - split; [tauto|]. intros ([|j] & H & _); discriminate.
  - split; [tauto|]. intros ([|j] & _ & H); discriminate.
  - rewrite IH. split.
    + intros [H|(j & H1 & H2)].
      * injection H as <- <-. now exists 0%nat.
      * now exists (S j).
    + intros ([|j] & H1 & H2); simpl in *.
      * left. congruence.
      * right. now exists j.
Qed.

Lemma gdf_rows_In (u : Unit) (ids : list Z) (sts : list SpikeTrain)
    (id : Z) (t : Q) :
  In (id, t) (gdf_rows u ids sts)
  <-> exists (j : nat) (st : SpikeTrain) (tau : Q),
        nth_error ids j = Some id /\ nth_error sts j = Some st
        /\ In tau (times st)
        /\ t = magnitude (rescale (mkQ tau (st_units st)) u).
Proof.
  unfold gdf_rows. rewrite in_flat_map. split.
  - intros ([i st] & Hc & Hm). simpl in Hm.
    apply in_map_iff in Hm. destruct Hm as (tau & E & Ht).
    injection E as <- <-.
    apply In_combine_nth in Hc. destruct Hc as (j & H1 & H2).
    exists j, st, tau. auto.
  - intros (j & st & tau & H1 & H2 & Ht & ->).
    exists (id, st). split.
    + apply In_combine_nth. now exists j.
    + simpl. apply in_map_iff. now exists tau.
Qed.

Lemma gdf_rows_length (u : Unit) (ids : list Z) (sts : list SpikeTrain) :
  length ids = length sts ->
  length (gdf_rows u ids sts)
  = list_sum (map (fun st => length (times st)) sts).
Proof.
  unfold gdf_rows. revert sts.
  induction ids as [|i ids IH]; intros [|st sts] H; simpl in *;
    try discriminate; trivial.
  rewrite length_app, length_map, IH; [reflexivity | congruence].
Qed.

(** X16.  [gdf] on an empty list of spike trains raises the [IndexError]
    of [neo_spiketrains[0]].  On a non-empty list it returns rows ordered
    by non-decreasing time, together with the smallest unit among the
    trains; the rows are exactly the pairs of the id of a train and one of
    its spike times expressed in that unit, ids and trains paired by
    position; with no ids given there is one row per spike. *)
Theorem gdf_rows_sorted_by_time :
  forall (sts : list SpikeTrain) (ids : list Z),
    (sts = [] -> gdf sts ids = Raise IndexError_list_index)
    /\ (sts <> [] ->
        exists (rows : list (Z * Q)) (u : Unit),
          gdf sts ids = Return (rows, u)
          /\ StronglySorted (fun a b => snd a <= snd b) rows
          /\ (exists st, In st sts /\ u = st_units st)
          /\ (forall st, In st sts -> to_s u <= to_s (st_units st))
          /\ (forall (id : Z) (t : Q),
                 In (id, t) rows
                 <-> exists (j : nat) (st : SpikeTrain) (tau : Q),
                       nth_error (if (length ids =? 0)%nat
                                  then py_range (length sts) else ids) j
                       = Some id
                       /\ nth_error sts j = Some st
                       /\ In tau (times st)
                       /\ t = magnitude
                                (rescale (mkQ tau (st_units st)) u))
          /\ (ids = [] ->
              length rows
              = list_sum (map (fun st => length (times st)) sts))).
Proof.
  intros sts ids. split; [intros ->; reflexivity|].
  intro Hne. destruct sts as [|st0 rest]; [contradiction|].
  unfold gdf.
  set (u := smallest_unit (st_units st0) rest).
  set (ids' := if (length ids =? 0)%nat
               then py_range (length (st0 :: rest)) else ids).
  exists (sort_by_time (gdf_rows u ids' (st0 :: rest))), u.
  destruct (smallest_unit_spec rest (st_units st0)) as (I & L & A).
  fold u in I, L, A.
  split; [reflexivity|].
  split; [apply sort_by_time_sorted|].
  split.
  { destruct I as [I|(st & H1 & H2)].
    - exists st0. split; [now left | exact I].
    - exists st. split; [now right | exact H2]. }
  split.
  { intros st [<-|H]; auto. }
  split.
  { intros id t. rewrite sort_by_time_In. apply gdf_rows_In. }
  intros ->. rewrite sort_by_time_length. apply gdf_rows_length.
  subst ids'. simpl. unfold py_range.
  now rewrite length_map, length_seq.
Qed.

(** The theorem at the two trains of the doctests, the second one given
    in milliseconds. *)
Lemma gdf_rows_sorted_by_time_witness :
  exists rows,
    gdf [train_a;
         mkST [100; 8000] ms (mkQ 0 ms) (mkQ 10000 ms)] [] = Return (rows, ms)
    /\ length rows = 9%nat.
Proof.
  destruct (gdf_rows_sorted_by_time
              [train_a; mkST [100; 8000] ms (mkQ 0 ms) (mkQ 10000 ms)] [])
    as (_ & H).
  destruct H as (rows & u & H1 & _ & _ & _ & _ & H2); [discriminate|].
  exists rows. split.
  - rewrite H1. f_equal. f_equal.
    vm_compute in H1. injection H1 as _ <-. reflexivity.
  - now rewrite H2.
Defined.

End GdfRows.

(** ** A window shorter than one bin *)

Section ShortWindow.
Local Open Scope Q_scope.

(** Truncation of a number between two consecutive integers. *)
Lemma py_int_shifted (i : Z) (sh : Q) :
  (0 <= i)%Z -> 0 <= sh -> sh < 1 -> py_int (inject_Z i + sh) = i.
Proof.
  intros Hi H0 H1.
  assert (I0 : 0 <= inject_Z i).
  { change 0 with (inject_Z 0). now rewrite <- Zle_Qle. }
  rewrite py_int_nonneg by lra.
  pose proof (Qfloor_le (inject_Z i + sh)) as Fl.
  pose proof (Qlt_floor (inject_Z i + sh)) as Fu.
  set (k := Qfloor (inject_Z i + sh)) in *.
  assert (A : inject_Z k < inject_Z (i + 1)).
  { rewrite inject_Z_plus. change (inject_Z 1) with 1. lra. }
  assert (B : inject_Z i < inject_Z (k + 1)) by lra.
  rewrite <- Zlt_Qlt in A, B. lia.
Qed.


(** X17.  The constructor called with bin width, start and stop on a
    window inside the common window of the trains that is shorter than
    the bin width: the bin count comes out as 0 and the call raises.
    Which error depends on the truth value of start and stop: when one of
    them is zero, fewer than three parameters count as given and the
    [AttributeError] of the parameter count is raised; otherwise the
    [ValueError] of the last test of the validator. *)
Theorem window_shorter_than_one_bin :
  forall (fuel : nat) (sts : list SpikeTrain) (b ts te : Quantity)
         (sm : bool) (mx mn : Quantity),
    py_max (map st_t_start sts) = Return mx ->
    py_min (map st_t_stop sts) = Return mn ->
    seconds mx <= seconds ts -> seconds ts < seconds te ->
    seconds te <= seconds mn ->
    seconds te - seconds ts < seconds b ->
    init binned_st_kind fuel sts (Some b) None (Some ts) (Some te) sm
    = Raise (if Qeq_bool (magnitude ts) 0 || Qeq_bool (magnitude te) 0
             then AttributeError_too_less
             else ValueError_smaller_than_1).
Proof.
  intros fuel sts b ts te sm mx mn Hmx Hmn H1 H2 H3 H4.
  assert (Hb : 0 < seconds b) by lra.
  assert (Hb0 : ~ magnitude b == 0) by now apply seconds_pos_magnitude.
  assert (Tb : q_truthy b = true).
  { apply q_truthy_of_seconds. lra. }
  set (x := (seconds te - seconds ts) / seconds b).
  assert (Hn : py_int x = 0%Z).
  { rewrite (py_int_comp _ (inject_Z 0 + x)) by (simpl; ring).
    apply py_int_shifted; [lia | |].
    - apply Qle_shift_div_l; trivial. lra.
    - apply Qlt_shift_div_r; trivial. lra. }
  set (a0 := init_attrs sts (Some b) None (Some ts) (Some te) sm).
  set (a2 := mkAttrs sts (Some ts) (Some te) (Some 0%Z) (Some b)
                     (Some 0%Z) (Z.of_nat (length sts)) sm sm None None
                     None).
  assert (S1 : calc_start_stop a0 sts = Return a0).
  { unfold calc_start_stop. destruct (count_params a0); reflexivity. }
  assert (S2 : check_init_params a0 (Some b) None (t_start a0) (t_stop a0)
               = Return a2).
  { unfold check_init_params, calc_num_bins. simpl.
    rewrite (proj2 (q_lt_false_iff te ts)) by lra.
    rewrite (int_of_quotient_seconds _ _ Hb0). simpl.
    rewrite (py_int_comp _ x), Hn; [reflexivity|].
    unfold x. now rewrite seconds_q_sub. }
  assert (Cp : count_params a2
               = negb (Qeq_bool (magnitude ts) 0
                       || Qeq_bool (magnitude te) 0)).
  { unfold count_params. simpl. rewrite Tb. unfold q_truthy.
    destruct (Qeq_bool (magnitude ts) 0), (Qeq_bool (magnitude te) 0);
      reflexivity. }
  destruct (Qeq_bool (magnitude ts) 0 || Qeq_bool (magnitude te) 0).
  - unfold init. fold a0. rewrite S1. cbn [bind]. rewrite S2. cbn [bind].
    unfold check_consistency. rewrite Cp. reflexivity.
  - rewrite (init_first_violated fuel sts (Some b) None (Some ts) (Some te)
               sm a0 a2 ts te b mx mn 0); trivial.
    unfold first_violated. fold x. rewrite Hn.
    replace (Qlt_bool (seconds mx) (seconds mn)) with true
      by (symmetry; apply Qlt_bool_iff; lra).
    replace (Qle_bool (seconds mx) (seconds ts)) with true
      by (symmetry; now apply Qle_bool_iff).
    replace (Qle_bool (seconds ts) (seconds mn)) with true
      by (symmetry; apply Qle_bool_iff; lra).
    replace (Qlt_bool (seconds ts) (seconds te)) with true
      by (symmetry; now apply Qlt_bool_iff).
    replace (Qle_bool (seconds te) (seconds mn)) with true
      by (symmetry; now apply Qle_bool_iff).
    replace (Qle_bool (seconds mx) (seconds te)) with true
      by (symmetry; apply Qle_bool_iff; lra).
    reflexivity.
Qed.

(** The theorem at [train_a] with bins of 2 s: on the window from 0 s to
    1 s the parameter count fails, on the window from 1 s to 2 s the
    validator. *)
Lemma window_shorter_than_one_bin_witness :
  binned_st_new [train_a] (Some (mkQ 2 s)) None (Some (mkQ 0 s))
                (Some (mkQ 1 s)) false
  = Raise AttributeError_too_less
  /\ binned_st_new [train_a] (Some (mkQ 2 s)) None (Some (mkQ 1 s))
                   (Some (mkQ 2 s)) false
     = Raise ValueError_smaller_than_1.
Proof.
  split.
  - apply (window_shorter_than_one_bin 0 [train_a] (mkQ 2 s) (mkQ 0 s)
             (mkQ 1 s) false (mkQ 0 s) (mkQ 10 s)); try reflexivity;
      discriminate.
  - apply (window_shorter_than_one_bin 0 [train_a] (mkQ 2 s) (mkQ 1 s)
             (mkQ 2 s) false (mkQ 0 s) (mkQ 10 s)); try reflexivity;
      discriminate.
Defined.

End ShortWindow.

(** ** The matrices of a union *)

Section MatricesOfUnions.

Lemma count_row_app (a b : list Z) (c : Z) :
  count_row (a ++ b) c = count_row a c + count_row b c.
Proof. unfold count_row. rewrite count_occ_app. lia. Qed.

Lemma mem_app (a b : list Z) (c : Z) :
  mem c (a ++ b) = mem c a || mem c b.
Proof. unfold mem. apply existsb_app. Qed.

Lemma matrix_unclipped_counts (self : binned_st) (rs : list (list Z))
    (n : Z) (store : bool) :
  filled self = map Arr rs -> matrix_columns self = Some n -> 0 <= n ->
  matrix_rows self = Z.of_nat (length rs) -> in_columns rs n ->
  mat_u self = None ->
  returned (matrix_unclipped self (Some store))
  = Return (Some (counts_matrix rs n)).
Proof.
  intros Hf Hc Hn Hr Hin Hu. unfold returned, matrix_unclipped. simpl.
  rewrite Hu, Hc, Hr, Hf, (np_zeros_rows _ _ Hn).
  pose proof (unclipped_loop_counts rs n [] Hn Hin) as L. simpl in L.
  destruct store; simpl bind.
  - rewrite L. reflexivity.
  - rewrite <- unclipped_loops_agree, L. reflexivity.
Qed.

Lemma matrix_clipped_occupancy (self : binned_st) (rs : list (list Z))
    (n : Z) :
  filled self = map Arr rs -> matrix_columns self = Some n -> 0 <= n ->
  matrix_rows self = Z.of_nat (length rs) -> in_columns rs n ->
  mat_c self = None ->
  returned (matrix_clipped self (Some false))
  = Return (Some (occupancy_matrix rs n)).
Proof.
  intros Hf Hc Hn Hr Hin Hu. unfold returned, matrix_clipped. simpl.
  rewrite Hu, Hc, Hr, Hf, (np_zeros_rows _ _ Hn).
  pose proof (clipped_loop_occupancy rs n [] Hn Hin) as L. simpl in L.
  simpl bind. rewrite L. reflexivity.
Qed.

(** X18.  The matrices of a union.  [A] is built by the constructor and
    has one row, [B] has one row, and all indices of both lie in the
    columns of [A].  When [A + B] returns, the unclipped matrix of the
    result is, under either policy, the one row whose cell is the count of
    the column in the row of [A] plus its count in the row of [B]; the
    clipped matrix computed on demand has 1 where either row contains the
    column. *)
Theorem matrices_of_union_add_counts :
  forall (fuel : nat) sts bs nb ts te sm (A B z : binned_st)
         (a b : list Z) (n : Z),
    init binned_st_kind fuel sts bs nb ts te sm = Return A ->
    filled A = [Arr a] -> filled B = [Arr b] ->
    num_bins A = Some n -> in_columns [a; b] n ->
    add A B = Return z ->
    (forall store : bool,
        returned (matrix_unclipped z (Some store))
        = Return (Some [map (fun c => count_row a c + count_row b c)
                            (arange n)]))
    /\ returned (matrix_clipped z (Some false))
       = Return (Some [map (fun c => if mem c a || mem c b then 1 else 0)
                           (arange n)]).
Proof.
  intros fuel sts bs nb ts te sm A B z a b n H Ha Hb Hn Hin Hz.
  destruct (built_create_class _ _ _ _ _ _ _ _ H) as
      (start & stop & bq & n' & Hs & He & Hbq & Hn' & Hm & Hlt & C).
  assert (En : n' = n) by congruence. subst n'.
  destruct (init_returns_inv _ _ _ _ _ _ _ _ H) as
      (a2 & start2 & stop2 & b2 & mx & mn & n2
       & _ & _ & _ & Hn2 & _ & Hr & _ & V & E).
  assert (En : n2 = n) by (rewrite E in Hn; simpl in Hn; congruence).
  subst n2. apply first_violated_None in V.
  destruct V as (_ & _ & _ & _ & H1n).
  assert (Hl : length sts = 1%nat).
  { rewrite E in Ha. simpl in Ha.
    apply (f_equal (@length pyval)) in Ha. now rewrite length_map in Ha. }
  assert (Hrow : matrix_rows A = 1).
  { rewrite E. simpl. rewrite Hr, Hl. reflexivity. }
  unfold add in Hz. rewrite C, Ha, Hb in Hz.
  destruct (Qlt_bool (seconds stop) 0); [discriminate|].
  destruct (first_violated py_int _ _ _ _ _ _); [discriminate|].
  simpl in Hz. injection Hz as <-.
  assert (Hin' : in_columns [a ++ b] n).
  { intros row i [<-|[]] Hi. apply in_app_iff in Hi.
    destruct Hi as [Hi|Hi].
    - apply (Hin a); [now left | exact Hi].
    - apply (Hin b); [right; now left | exact Hi]. }
  assert (H0n : 0 <= n) by lia.
  split.
  - intro store.
    rewrite (matrix_unclipped_counts _ [a ++ b] n store); trivial.
    unfold counts_matrix. simpl. do 3 f_equal. apply map_ext.
    intro c. apply count_row_app.
  - rewrite (matrix_clipped_occupancy _ [a ++ b] n); trivial.
    unfold occupancy_matrix. simpl. do 3 f_equal. apply map_ext.
    intro c. now rewrite mem_app.
Qed.

(** The theorem at the union of the two doctest instances. *)
Lemma matrices_of_union_add_counts_witness :
  exists z,
    add doctest_x doctest_y = Return z
    /\ returned (matrix_unclipped z (Some false))
       = Return (Some [[4; 2; 1; 1; 2; 2; 1; 0; 1; 0]])
    /\ returned (matrix_clipped z (Some false))
       = Return (Some [[1; 1; 1; 1; 1; 1; 1; 0; 1; 0]]).
Proof.
  exists (mkBinned doctest_new_class
                   [Arr [0; 0; 1; 3; 4; 5; 6; 0; 0; 1; 2; 4; 5; 8]]).
  destruct (matrices_of_union_add_counts 0 [train_a] (Some (mkQ 1 s)) None
              (Some (mkQ 0 s)) (Some (mkQ 10 s)) false doctest_x doctest_y
              (mkBinned doctest_new_class
                        [Arr [0; 0; 1; 3; 4; 5; 6; 0; 0; 1; 2; 4; 5; 8]])
              [0; 0; 1; 3; 4; 5; 6] [0; 0; 1; 2; 4; 5; 8] 10)
    as (U & C); try reflexivity.
  - intros row i [<-|[<-|[]]] Hi; simpl in Hi;
      repeat (destruct Hi as [<-|Hi]; [lia|]); destruct Hi.
  - split; [reflexivity|]. split; [apply (U false) | apply C].
Defined.

End MatricesOfUnions.
